(** * RDP core (libfreerdp-core/rdp.c): framing, security envelope, dispatch

    A shallow embedding of [rdp.c].  The C functions are state-passing Rocq
    functions over

    - [STREAM], the byte packer ([data], [p], [size]);
    - [rdpRdp], the session, with the fields [rdp.c] touches;
    - [World], a session together with the list of observable events
      (console lines printed by [LLOGLN] and calls into collaborators).

    Everything [rdp.c] calls but does not define (MCS/PER/TPKT codecs, the
    security primitives, the transport, the PDU handlers of other modules)
    is a field of the [Externals] interface; the theorems quantify over it.

    Embedded: the header readers and writers, the stream initialisers, the
    three senders with [rdp_security_stream_out], [rdp_send_frame_ack],
    [rdp_send_invalidate] and [rdp_send_suppress_output], [rdp_decrypt],
    [rdp_recv_data_pdu], the out-of-sequence receive, and the receive path
    from [rdp_recv_callback] and [rdp_recv_pdu] down.  The constructor and
    destructor ([rdp_new], [rdp_free]) and the functions that only forward
    to the transport or to the channel layer ([rdp_recv], [rdp_check_fds],
    [rdp_set_blocking_mode], [rdp_send_channel_data]) are not. *)

From Stdlib Require Import ZArith List Bool String Lia.
Import ListNotations.
Local Open Scope Z_scope.

(** ** Machine integers

    [uint8], [uint16] and [uint32] values are integers with their wrap-around
    written out at every assignment to a variable of that type.  C [int]
    arithmetic is on small values only and is left unbounded. *)

Definition to_uint16 (v : Z) : Z := Z.land v 0xFFFF.
Definition to_uint32 (v : Z) : Z := Z.land v 0xFFFFFFFF.

(** ** Byte buffers *)

Definition len (d : list Z) : Z := Z.of_nat (List.length d).

(** The byte at offset [i], as the [uint8] it is; offsets outside the buffer
    read as 0 (C reads whatever memory is there). *)
Definition byte_at (d : list Z) (i : Z) : Z :=
  if i <? 0 then 0 else Z.land (nth (Z.to_nat i) d 0) 0xFF.

(** Up to [n] bytes starting at offset [i]. *)
Definition peek (d : list Z) (i n : Z) : list Z :=
  firstn (Z.to_nat n) (skipn (Z.to_nat i) d).

(** Overwrite [bs] at offset [i].  A write that does not fit the buffer is a
    programming error in the C code; the model leaves the buffer as it is. *)
Definition poke (d : list Z) (i : Z) (bs : list Z) : list Z :=
  if (0 <=? i) && (i + len bs <=? len d)
  then firstn (Z.to_nat i) d ++ bs ++ skipn (Z.to_nat (i + len bs)) d
  else d.

Definition le16 (v : Z) : list Z :=
  [Z.land v 0xFF; Z.land (Z.shiftr v 8) 0xFF].
Definition be16 (v : Z) : list Z :=
  [Z.land (Z.shiftr v 8) 0xFF; Z.land v 0xFF].
Definition le32 (v : Z) : list Z :=
  [Z.land v 0xFF; Z.land (Z.shiftr v 8) 0xFF;
   Z.land (Z.shiftr v 16) 0xFF; Z.land (Z.shiftr v 24) 0xFF].

(** ** STREAM

    Modelled from the spec: the macros of [freerdp/utils/stream.h] are not
    part of [rdp.c].  The packer is a byte region with [data] (base), [p]
    (cursor) and [size] (logical end); [remaining] is [size] minus the
    cursor offset, a signed quantity, and [length] is the cursor offset.
    [rdp.c] uses the typed reads and writes as statements, with no result
    to test, and checks [stream_get_left] itself where it checks at all;
    so a read here never fails, and past the end it reads 0.

    [s_p] is the cursor as an offset from [data] ([s->p - s->data]). *)

Record STREAM := mkSTREAM { s_data : list Z; s_p : Z; s_size : Z }.

Definition stream_get_left (s : STREAM) : Z := s_size s - s_p s.
Definition stream_get_length (s : STREAM) : Z := s_p s.
Definition stream_set_pos (s : STREAM) (m : Z) : STREAM :=
  mkSTREAM (s_data s) m (s_size s).
Definition stream_seek (s : STREAM) (n : Z) : STREAM :=
  mkSTREAM (s_data s) (s_p s + n) (s_size s).
Definition stream_get_mark (s : STREAM) : Z := s_p s.
Definition stream_set_mark (s : STREAM) (mark : Z) : STREAM :=
  mkSTREAM (s_data s) mark (s_size s).

(** Store [bs] at the cursor and advance past it. *)
Definition stream_put (s : STREAM) (bs : list Z) : STREAM :=
  mkSTREAM (poke (s_data s) (s_p s) bs) (s_p s + len bs) (s_size s).

Definition stream_read_uint8 (s : STREAM) : Z * STREAM :=
  (byte_at (s_data s) (s_p s), stream_seek s 1).
Definition stream_read_uint16 (s : STREAM) : Z * STREAM :=
  (byte_at (s_data s) (s_p s) + Z.shiftl (byte_at (s_data s) (s_p s + 1)) 8,
   stream_seek s 2).
Definition stream_read_uint32 (s : STREAM) : Z * STREAM :=
  (byte_at (s_data s) (s_p s)
   + Z.shiftl (byte_at (s_data s) (s_p s + 1)) 8
   + Z.shiftl (byte_at (s_data s) (s_p s + 2)) 16
   + Z.shiftl (byte_at (s_data s) (s_p s + 3)) 24,
   stream_seek s 4).
Definition stream_seek_uint8 (s : STREAM) : STREAM := stream_seek s 1.
(** [stream_read(s, buf, n)]: copy [n] bytes out and advance. *)
Definition stream_read (s : STREAM) (n : Z) : list Z * STREAM :=
  (peek (s_data s) (s_p s) n, stream_seek s n).

Definition stream_write_uint8 (s : STREAM) (v : Z) : STREAM :=
  stream_put s [Z.land v 0xFF].
Definition stream_write_uint16 (s : STREAM) (v : Z) : STREAM :=
  stream_put s (le16 v).
Definition stream_write_uint16_be (s : STREAM) (v : Z) : STREAM :=
  stream_put s (be16 v).
Definition stream_write_uint32 (s : STREAM) (v : Z) : STREAM :=
  stream_put s (le32 v).

(** [memcpy]-like store of [bs] at offset [off], cursor untouched. *)
Definition stream_store (s : STREAM) (off : Z) (bs : list Z) : STREAM :=
  mkSTREAM (poke (s_data s) off bs) (s_p s) (s_size s).

(** Exactly [n] bytes of [bs] (an output buffer of [n] bytes). *)
Definition fit (n : Z) (bs : list Z) : list Z :=
  firstn (Z.to_nat n) (bs ++ repeat 0 (Z.to_nat n)).

(** ** Constants

    Modelled from the spec: the constants of [rdp.h], [mcs.h],
    [security.h], [fastpath.h] and [mppc.h] are not part of [rdp.c].  The
    specification gives the channel ids (1001, 1003), the MCS variants
    (25, 26), the sizes of the Share headers (6, 12) and the PDU type
    codes; the others are the values of the wire protocol the headers
    transcribe, and the reserved header prefix is 15 bytes (TPKT 4, X.224
    data 3, MCS send-data 8). *)

Definition MCS_BASE_CHANNEL_ID : Z := 1001.
Definition MCS_GLOBAL_CHANNEL_ID : Z := 1003.

Definition DomainMCSPDU_DisconnectProviderUltimatum : Z := 8.
Definition DomainMCSPDU_SendDataRequest : Z := 25.
Definition DomainMCSPDU_SendDataIndication : Z := 26.

Definition RDP_PACKET_HEADER_MAX_LENGTH : Z := 15.
Definition RDP_SHARE_CONTROL_HEADER_LENGTH : Z := 6.
Definition RDP_SHARE_DATA_HEADER_LENGTH : Z := 12.

Definition SEC_ENCRYPT : Z := 0x0008.
Definition SEC_REDIRECTION_PKT : Z := 0x0400.
Definition SEC_SECURE_CHECKSUM : Z := 0x0800.

Definition ENCRYPTION_METHOD_FIPS : Z := 0x00000010.

Definition FASTPATH_OUTPUT_SECURE_CHECKSUM : Z := 0x1.
Definition FASTPATH_OUTPUT_ENCRYPTED : Z := 0x2.

Definition PACKET_COMPRESSED : Z := 0x20.
Definition STREAM_LOW : Z := 0x01.
Definition ERRINFO_SUCCESS : Z := 0.

Definition PDU_TYPE_DEMAND_ACTIVE : Z := 0x1.
Definition PDU_TYPE_CONFIRM_ACTIVE : Z := 0x3.
Definition PDU_TYPE_DEACTIVATE_ALL : Z := 0x6.
Definition PDU_TYPE_DATA : Z := 0x7.
Definition PDU_TYPE_SERVER_REDIRECTION : Z := 0xA.

Definition DATA_PDU_TYPE_UPDATE : Z := 0x02.
Definition DATA_PDU_TYPE_CONTROL : Z := 0x14.
Definition DATA_PDU_TYPE_POINTER : Z := 0x1B.
Definition DATA_PDU_TYPE_INPUT : Z := 0x1C.
Definition DATA_PDU_TYPE_SYNCHRONIZE : Z := 0x1F.
Definition DATA_PDU_TYPE_PLAY_SOUND : Z := 0x22.
Definition DATA_PDU_TYPE_SAVE_SESSION_INFO : Z := 0x26.
Definition DATA_PDU_TYPE_FONT_MAP : Z := 0x28.
Definition DATA_PDU_TYPE_SET_ERROR_INFO : Z := 0x2F.

Definition LLOG_LEVEL : Z := 1.

(** ** Session *)

Record rdpSettings := mkSettings {
  server_mode : bool;
  encryption : bool;
  encryption_method : Z;
  share_id : Z;
  pdu_source : Z;
  frame_acknowledge : Z
}.

(** The functions of other modules that [rdp.c] hands a stream to. *)
Inductive Collaborator :=
| update_recv
| rdp_recv_server_control_pdu
| update_recv_pointer
| rdp_recv_synchronize_pdu
| update_recv_play_sound
| rdp_recv_save_session_info
| rdp_recv_font_map_pdu
| rdp_recv_enhanced_security_redirection_packet
| rdp_recv_deactivate_all
| fastpath_recv_updates
| freerdp_channel_process
| rdp_print_errinfo.

(** What an observer of the session sees: a line printed by [LLOGLN], or a
    call into a collaborator, with the stream cursor at the call (the error
    code for [rdp_print_errinfo]). *)
Inductive Event :=
| Print (msg : string)
| Call (callee : Collaborator) (arg : Z).

Section Model.

(** The transport object and the part of the session owned by other
    modules (keys, cipher contexts, update and licensing state ...). *)
Context {Transport Ext : Type}.

Record rdpRdp := mkRdp {
  sec_flags : Z;                 (* uint32 *)
  do_crypt : bool;
  do_secure_checksum : bool;
  disconnect : bool;
  errorInfo : Z;                 (* uint32 *)
  settings : rdpSettings;
  mcs_user_id : Z;               (* rdp->mcs->user_id *)
  fastpath_encryptionFlags : Z;  (* rdp->fastpath->encryptionFlags *)
  mppc_history_buf : list Z;     (* rdp->mppc->history_buf *)
  transport : Transport;
  ext : Ext
}.

Definition set_sec_flags (r : rdpRdp) (v : Z) : rdpRdp :=
  mkRdp v (do_crypt r) (do_secure_checksum r) (disconnect r) (errorInfo r)
        (settings r) (mcs_user_id r) (fastpath_encryptionFlags r)
        (mppc_history_buf r) (transport r) (ext r).
Definition set_disconnect (r : rdpRdp) (v : bool) : rdpRdp :=
  mkRdp (sec_flags r) (do_crypt r) (do_secure_checksum r) v (errorInfo r)
        (settings r) (mcs_user_id r) (fastpath_encryptionFlags r)
        (mppc_history_buf r) (transport r) (ext r).
Definition set_errorInfo (r : rdpRdp) (v : Z) : rdpRdp :=
  mkRdp (sec_flags r) (do_crypt r) (do_secure_checksum r) (disconnect r) v
        (settings r) (mcs_user_id r) (fastpath_encryptionFlags r)
        (mppc_history_buf r) (transport r) (ext r).
Definition set_transport (r : rdpRdp) (t : Transport) : rdpRdp :=
  mkRdp (sec_flags r) (do_crypt r) (do_secure_checksum r) (disconnect r)
        (errorInfo r) (settings r) (mcs_user_id r)
        (fastpath_encryptionFlags r) (mppc_history_buf r) t (ext r).
Definition set_pdu_source (r : rdpRdp) (v : Z) : rdpRdp :=
  let g := settings r in
  mkRdp (sec_flags r) (do_crypt r) (do_secure_checksum r) (disconnect r)
        (errorInfo r)
        (mkSettings (server_mode g) (encryption g) (encryption_method g)
                    (share_id g) v (frame_acknowledge g))
        (mcs_user_id r) (fastpath_encryptionFlags r) (mppc_history_buf r)
        (transport r) (ext r).

Record World := mkWorld { rdp : rdpRdp; trace : list Event }.

Definition emit (e : Event) (w : World) : World :=
  mkWorld (rdp w) (trace w ++ [e]).
Definition with_rdp (w : World) (r : rdpRdp) : World := mkWorld r (trace w).

(** [LLOGLN(level, (msg))]: printed when [level < LLOG_LEVEL]. *)
Definition LLOGLN (level : Z) (msg : string) (w : World) : World :=
  if level <? LLOG_LEVEL then emit (Print msg) w else w.

(** ** Collaborators

    Signatures follow the calls in [rdp.c].  A function given [rdp] takes
    and returns the session; one given a stream takes and returns it.  An
    out-parameter that names a variable the caller reads afterwards
    ([length], [channel_id], [MCSPDU]) is passed in and returned; one the
    caller never reads ([reason], [initiator]) is only returned.  A
    [uint8*] region [(data, length)] is passed as the bytes it holds, and a
    region rewritten in place or an output buffer comes back as bytes. *)

Record Externals := mkExternals {
  (* mcs.c, per.c, tpkt.c *)
  mcs_read_domain_mcspdu_header :
    STREAM -> Z -> Z -> bool * STREAM * Z * Z;       (* s, MCSPDU, length *)
  mcs_write_domain_mcspdu_header :
    STREAM -> Z -> Z -> Z -> STREAM;                 (* s, MCSPDU, length, options *)
  per_read_enumerated : STREAM -> Z -> bool * STREAM * Z;       (* s, count *)
  per_read_integer16 : STREAM -> Z -> Z -> bool * STREAM * Z;   (* s, integer, min *)
  per_write_integer16 : STREAM -> Z -> Z -> STREAM;             (* s, integer, min *)
  per_read_length : STREAM -> Z -> bool * STREAM * Z;           (* s, length *)
  tpkt_verify_header : STREAM -> bool;
  (* security.c *)
  security_hmac_signature : rdpRdp -> list Z -> rdpRdp * list Z;
  security_fips_encrypt : rdpRdp -> list Z -> rdpRdp * list Z;
  security_salted_mac_signature : rdpRdp -> list Z -> bool -> rdpRdp * list Z;
  security_mac_signature : rdpRdp -> list Z -> rdpRdp * list Z;
  security_encrypt : rdpRdp -> list Z -> rdpRdp * list Z;
  security_fips_decrypt : rdpRdp -> list Z -> bool * rdpRdp * list Z;
  security_fips_check_signature : rdpRdp -> list Z -> list Z -> bool * rdpRdp;
  security_decrypt : rdpRdp -> list Z -> rdpRdp * list Z;
  (* transport.c *)
  transport_send_stream_init : Transport -> Z -> Transport * STREAM;
  transport_write : Transport -> STREAM -> Z * Transport;
  (* mppc.c: in, type -> ok, roff, rlen *)
  decompress_rdp : rdpRdp -> list Z -> Z -> bool * rdpRdp * Z * Z;
  (* fastpath.c *)
  fastpath_read_header_rdp : rdpRdp -> STREAM -> Z * rdpRdp * STREAM;
  (* the PDU handlers; the [Z] is the channel id for
     [freerdp_channel_process] and is unused by the others *)
  handler : Collaborator -> Z -> rdpRdp -> STREAM -> bool * rdpRdp * STREAM
}.

Variable X : Externals.

(** A call into a collaborator, recorded in the trace. *)
Definition invoke (c : Collaborator) (arg : Z) (w : World) (s : STREAM)
  : bool * World * STREAM :=
  let '(ok, r, s') := handler X c arg (rdp w) s in
  (ok, mkWorld r (trace w ++ [Call c (s_p s)]), s').

(** The bytes of the region [(s->data + off, n)]. *)
Definition region (s : STREAM) (off n : Z) : list Z := peek (s_data s) off n.

(** The region [(s->data + off, n)] after a collaborator rewrote it in
    place with [out]. *)
Definition stream_rewrite (s : STREAM) (off n : Z) (out : list Z) : STREAM :=
  stream_store s off (fit (len (region s off n)) out).

(** ** Security header, Share Control header, Share Data header *)

Definition rdp_read_security_header (s : STREAM) : Z * STREAM :=
  let '(flags, s) := stream_read_uint16 s in
  (flags, stream_seek s 2).

Definition rdp_write_security_header (s : STREAM) (flags : Z) : STREAM :=
  let flags := to_uint16 flags in
  let s := stream_write_uint16 s flags in
  stream_write_uint16 s 0.

(** [length] is returned with the value [*length] holds afterwards; [type]
    and [channel_id] come in with what the caller's variables hold and are
    returned unchanged on the path that does not assign them. *)
Definition rdp_read_share_control_header (s : STREAM) (type channel_id : Z)
  : bool * STREAM * Z * Z * Z :=
  let '(length, s) := stream_read_uint16 s in
  if length - 2 >? stream_get_left s then (false, s, length, type, channel_id)
  else
    let '(type, s) := stream_read_uint16 s in
    let type := Z.land type 0x0F in
    if length >? 4 then
      let '(channel_id, s) := stream_read_uint16 s in
      (true, s, length, type, channel_id)
    else (true, s, length, type, 0).

Definition rdp_write_share_control_header (s : STREAM)
  (length type channel_id : Z) : STREAM :=
  let length := to_uint16 length in
  let length := to_uint16 (length - RDP_PACKET_HEADER_MAX_LENGTH) in
  let s := stream_write_uint16 s length in
  let s := stream_write_uint16 s (Z.lor (to_uint16 type) 0x10) in
  stream_write_uint16 s (to_uint16 channel_id).

(** The five variables [rdp_read_share_data_header] fills in. *)
Record ShareDataHeader := mkShareData {
  sd_length : Z;
  sd_type : Z;
  sd_share_id : Z;
  sd_compressed_type : Z;
  sd_compressed_len : Z
}.

Definition rdp_read_share_data_header (s : STREAM) (h : ShareDataHeader)
  : bool * STREAM * ShareDataHeader :=
  if stream_get_left s <? 12 then (false, s, h)
  else
    let '(share_id, s) := stream_read_uint32 s in
    let s := stream_seek_uint8 s in
    let s := stream_seek_uint8 s in
    let '(length, s) := stream_read_uint16 s in
    let '(type, s) := stream_read_uint8 s in
    let '(compressed_type, s) := stream_read_uint8 s in
    let '(compressed_len, s) := stream_read_uint16 s in
    (true, s, mkShareData length type share_id compressed_type compressed_len).

Definition rdp_write_share_data_header (s : STREAM) (length type share_id : Z)
  : STREAM :=
  let length := to_uint16 length in
  let length := to_uint16 (length - RDP_PACKET_HEADER_MAX_LENGTH) in
  let length := to_uint16 (length - RDP_SHARE_CONTROL_HEADER_LENGTH) in
  let length := to_uint16 (length - RDP_SHARE_DATA_HEADER_LENGTH) in
  let s := stream_write_uint32 s share_id in
  let s := stream_write_uint8 s 0 in
  let s := stream_write_uint8 s STREAM_LOW in
  let s := stream_write_uint16 s length in
  let s := stream_write_uint8 s type in
  let s := stream_write_uint8 s 0 in
  stream_write_uint16 s 0.

(** ** Send side: stream initialisation *)

Definition rdp_security_stream_init (r : rdpRdp) (s : STREAM)
  : rdpRdp * STREAM :=
  if do_crypt r then
    let s := stream_seek s 12 in
    let s := if encryption_method (settings r) =? ENCRYPTION_METHOD_FIPS
             then stream_seek s 4 else s in
    let r := set_sec_flags r (Z.lor (sec_flags r) SEC_ENCRYPT) in
    let r := if do_secure_checksum r
             then set_sec_flags r (Z.lor (sec_flags r) SEC_SECURE_CHECKSUM)
             else r in
    (r, s)
  else if negb (sec_flags r =? 0) then (r, stream_seek s 4)
  else (r, s).

Definition rdp_send_stream_init (r : rdpRdp) : rdpRdp * STREAM :=
  let '(t, s) := transport_send_stream_init X (transport r) 2048 in
  let r := set_transport r t in
  let s := stream_seek s RDP_PACKET_HEADER_MAX_LENGTH in
  rdp_security_stream_init r s.

Definition rdp_pdu_init (r : rdpRdp) : rdpRdp * STREAM :=
  let '(t, s) := transport_send_stream_init X (transport r) 2048 in
  let r := set_transport r t in
  let s := stream_seek s RDP_PACKET_HEADER_MAX_LENGTH in
  let '(r, s) := rdp_security_stream_init r s in
  (r, stream_seek s RDP_SHARE_CONTROL_HEADER_LENGTH).

Definition rdp_data_pdu_init (r : rdpRdp) : rdpRdp * STREAM :=
  let '(t, s) := transport_send_stream_init X (transport r) 2048 in
  let r := set_transport r t in
  let s := stream_seek s RDP_PACKET_HEADER_MAX_LENGTH in
  let '(r, s) := rdp_security_stream_init r s in
  let s := stream_seek s RDP_SHARE_CONTROL_HEADER_LENGTH in
  (r, stream_seek s RDP_SHARE_DATA_HEADER_LENGTH).

(** ** MCS header *)

Definition rdp_read_header (w : World) (s : STREAM) (length channel_id : Z)
  : bool * World * STREAM * Z * Z :=
  let MCSPDU := if server_mode (settings (rdp w))
                then DomainMCSPDU_SendDataRequest
                else DomainMCSPDU_SendDataIndication in
  let '(ok, s, MCSPDU, length) :=
    mcs_read_domain_mcspdu_header X s MCSPDU length in
  if negb ok then
    (false,
     LLOGLN 0 "rdp_read_header: mcs_read_domain_mcspdu_header failed" w,
     s, length, channel_id)
  else if length - 8 >? stream_get_left s then
    (false, LLOGLN 0 "rdp_read_header: parse error" w, s, length, channel_id)
  else if MCSPDU =? DomainMCSPDU_DisconnectProviderUltimatum then
    let '(ok, s, reason) := per_read_enumerated X s 0 in
    if negb ok then
      (false, LLOGLN 0 "rdp_read_header: per_read_enumerated failed" w,
       s, length, channel_id)
    else
      (true, with_rdp w (set_disconnect (rdp w) true), s, length,
       MCS_GLOBAL_CHANNEL_ID)
  else if stream_get_left s <? 5 then
    (false, LLOGLN 0 "rdp_read_header: parse error" w, s, length, channel_id)
  else
    (* [initiator] is a local that is never read: 0 stands for its
       content on entry *)
    let '(_, s, initiator) := per_read_integer16 X s 0 MCS_BASE_CHANNEL_ID in
    let '(_, s, channel_id) := per_read_integer16 X s channel_id 0 in
    let s := stream_seek s 1 in
    let '(ok, s, length) := per_read_length X s length in
    if negb ok then
      (false, LLOGLN 0 "rdp_read_header: per_read_length failed" w,
       s, length, channel_id)
    else if length >? stream_get_left s then
      (* the LLOGLN of this branch comes after the return *)
      (false, w, s, length, channel_id)
    else (true, w, s, length, channel_id).

(** The length [rdp_write_header] puts in the MCS header: [length], moved
    up to the padded size when the frame is to be FIPS-encrypted. *)
Definition rdp_write_header_length (r : rdpRdp) (length : Z) : Z :=
  if negb (Z.land (sec_flags r) SEC_ENCRYPT =? 0)
     && (encryption_method (settings r) =? ENCRYPTION_METHOD_FIPS)
  then
    let body_length := length - RDP_PACKET_HEADER_MAX_LENGTH - 16 in
    let pad := 8 - Z.rem body_length 8 in
    if negb (pad =? 8) then to_uint16 (length + pad) else length
  else length.

Definition rdp_write_header (r : rdpRdp) (s : STREAM) (length channel_id : Z)
  : STREAM :=
  let length := to_uint16 length in
  let MCSPDU := if server_mode (settings r)
                then DomainMCSPDU_SendDataIndication
                else DomainMCSPDU_SendDataRequest in
  let length := rdp_write_header_length r length in
  let s := mcs_write_domain_mcspdu_header X s MCSPDU length 0 in
  let s := per_write_integer16 X s (mcs_user_id r) MCS_BASE_CHANNEL_ID in
  let s := per_write_integer16 X s (to_uint16 channel_id) 0 in
  let s := stream_write_uint8 s 0x70 in
  let length :=
    to_uint16 (Z.lor (length - RDP_PACKET_HEADER_MAX_LENGTH) 0x8000) in
  stream_write_uint16_be s length.

(** ** Security envelope, outbound

    [length] is the total frame length; the cursor is at the start of the
    security header.  Returns [pad] with the session and the stream. *)

Definition rdp_security_stream_out (r : rdpRdp) (s : STREAM) (length : Z)
  : Z * rdpRdp * STREAM :=
  let flags := sec_flags r in
  if negb (flags =? 0) then
    let s := rdp_write_security_header s flags in
    let '(pad, r, s) :=
      if negb (Z.land flags SEC_ENCRYPT =? 0) then
        if encryption_method (settings r) =? ENCRYPTION_METHOD_FIPS then
          let data := s_p s + 12 in
          let length := length - data in
          let s := stream_write_uint16 s 0x10 in
          let s := stream_write_uint8 s 0x1 in
          let pad := to_uint32 (Z.land (8 - Z.rem length 8) 7) in
          let s := stream_store s (data + length) (repeat 0 (Z.to_nat pad)) in
          let s := stream_write_uint8 s pad in
          let '(r, sig) := security_hmac_signature X r (region s data length) in
          let s := stream_store s (s_p s) (fit 8 sig) in
          let s := stream_seek s 8 in
          let '(r, out) :=
            security_fips_encrypt X r (region s data (length + pad)) in
          let s := stream_rewrite s data (length + pad) out in
          (pad, r, s)
        else
          let data := s_p s + 8 in
          let length := length - data in
          let '(r, sig) :=
            if negb (Z.land flags SEC_SECURE_CHECKSUM =? 0)
            then security_salted_mac_signature X r (region s data length) true
            else security_mac_signature X r (region s data length) in
          let s := stream_store s (s_p s) (fit 8 sig) in
          let s := stream_seek s 8 in
          let '(r, out) := security_encrypt X r (region s (s_p s) length) in
          let s := stream_rewrite s (s_p s) length out in
          (0, r, s)
      else (0, r, s) in
    (pad, set_sec_flags r 0, s)
  else (0, r, s).

Definition rdp_get_sec_bytes (r : rdpRdp) : Z :=
  if negb (Z.land (sec_flags r) SEC_ENCRYPT =? 0) then
    if encryption_method (settings r) =? ENCRYPTION_METHOD_FIPS
    then 12 + 4 else 12
  else if negb (sec_flags r =? 0) then 4
  else 0.

(** ** Send side

    The three senders return the success flag, the session and the stream as
    handed to [transport_write]; the frame on the wire is the first
    [stream_get_length] bytes of that stream. *)

Definition stream_frame (s : STREAM) : list Z :=
  peek (s_data s) 0 (stream_get_length s).

Definition rdp_send (r : rdpRdp) (s : STREAM) (channel_id : Z)
  : bool * rdpRdp * STREAM :=
  let length := to_uint16 (stream_get_length s) in
  let s := stream_set_pos s 0 in
  let s := rdp_write_header r s length channel_id in
  let sec_bytes := rdp_get_sec_bytes r in
  let sec_hold := s_p s in
  let s := stream_seek s sec_bytes in
  let s := stream_set_mark s sec_hold in
  let '(pad, r, s) := rdp_security_stream_out r s length in
  let length := to_uint16 (length + pad) in
  let s := stream_set_pos s length in
  let '(status, t) := transport_write X (transport r) s in
  if status <? 0 then (false, set_transport r t, s)
  else (true, set_transport r t, s).

Definition rdp_send_pdu (r : rdpRdp) (s : STREAM) (type channel_id : Z)
  : bool * rdpRdp * STREAM :=
  let length := to_uint16 (stream_get_length s) in
  let s := stream_set_pos s 0 in
  let s := rdp_write_header r s length MCS_GLOBAL_CHANNEL_ID in
  let sec_bytes := rdp_get_sec_bytes r in
  let sec_hold := s_p s in
  let s := stream_seek s sec_bytes in
  let s := rdp_write_share_control_header s (length - sec_bytes)
             type channel_id in
  let s := stream_set_mark s sec_hold in
  let '(pad, r, s) := rdp_security_stream_out r s length in
  let length := to_uint16 (length + pad) in
  let s := stream_set_pos s length in
  let '(status, t) := transport_write X (transport r) s in
  if status <? 0 then (false, set_transport r t, s)
  else (true, set_transport r t, s).

Definition rdp_send_data_pdu (r : rdpRdp) (s : STREAM) (type channel_id : Z)
  : bool * rdpRdp * STREAM :=
  let length := to_uint16 (stream_get_length s) in
  let s := stream_set_pos s 0 in
  let s := rdp_write_header r s length MCS_GLOBAL_CHANNEL_ID in
  let sec_bytes := rdp_get_sec_bytes r in
  let sec_hold := s_p s in
  let s := stream_seek s sec_bytes in
  let s := rdp_write_share_control_header s (length - sec_bytes)
             PDU_TYPE_DATA channel_id in
  let s := rdp_write_share_data_header s (length - sec_bytes) type
             (share_id (settings r)) in
  let s := stream_set_mark s sec_hold in
  let '(pad, r, s) := rdp_security_stream_out r s length in
  let length := to_uint16 (length + pad) in
  let s := stream_set_pos s length in
  let '(status, t) := transport_write X (transport r) s in
  if status <? 0 then (false, set_transport r t, s)
  else (true, set_transport r t, s).

(** [rdp_send_frame_ack]: the [int] result and the session. *)
Definition rdp_send_frame_ack (r : rdpRdp) (frame : Z) : Z * rdpRdp :=
  if frame_acknowledge (settings r) =? 0 then (0, r)
  else
    let '(r, s) := rdp_data_pdu_init r in
    let s := stream_write_uint32 s frame in
    let '(_, r, _) := rdp_send_data_pdu r s 56 (mcs_user_id r) in
    (0, r).

(** ** Receive side: Data PDUs *)

Definition rdp_recv_set_error_info_data_pdu (w : World) (s : STREAM)
  : World * STREAM :=
  let '(code, s) := stream_read_uint32 s in
  let w := with_rdp w (set_errorInfo (rdp w) code) in
  if negb (errorInfo (rdp w) =? ERRINFO_SUCCESS)
  then (emit (Call rdp_print_errinfo (errorInfo (rdp w))) w, s)
  else (w, s).

(** The [switch (type)] of [rdp_recv_data_pdu], on [comp_stream]; the cases
    that only [break] fall under the last line.  (The trace line of
    [WITH_DEBUG_RDP] builds is not compiled in.) *)
Definition rdp_recv_data_pdu_switch (w : World) (comp_stream : STREAM)
  (type : Z) : World * STREAM :=
  let run c := let '(_, w, s) := invoke c 0 w comp_stream in (w, s) in
  if type =? DATA_PDU_TYPE_UPDATE then run update_recv
  else if type =? DATA_PDU_TYPE_CONTROL then run rdp_recv_server_control_pdu
  else if type =? DATA_PDU_TYPE_POINTER then run update_recv_pointer
  else if type =? DATA_PDU_TYPE_SYNCHRONIZE then run rdp_recv_synchronize_pdu
  else if type =? DATA_PDU_TYPE_PLAY_SOUND then run update_recv_play_sound
  else if type =? DATA_PDU_TYPE_SAVE_SESSION_INFO
       then run rdp_recv_save_session_info
  else if type =? DATA_PDU_TYPE_FONT_MAP then run rdp_recv_font_map_pdu
  else if type =? DATA_PDU_TYPE_SET_ERROR_INFO
       then rdp_recv_set_error_info_data_pdu w comp_stream
  else (w, comp_stream).

(** [rdp_recv_data_pdu] from the statement after the header read on: [h]
    holds the five header variables. *)
Definition rdp_recv_data_pdu_dispatch (w : World) (s : STREAM)
  (h : ShareDataHeader) : bool * World * STREAM :=
  if negb (Z.land (sd_compressed_type h) PACKET_COMPRESSED =? 0) then
    let '(ok, r, roff, rlen) :=
      decompress_rdp X (rdp w)
        (region s (s_p s) (sd_compressed_len h - 18))
        (sd_compressed_type h) in
    let w := with_rdp w r in
    if ok then
      let comp_stream :=
        mkSTREAM (skipn (Z.to_nat roff) (mppc_history_buf (rdp w))) 0 rlen in
      let '(w, _) := rdp_recv_data_pdu_switch w comp_stream (sd_type h) in
      (true, w, s)
    else (false, LLOGLN 0 "decompress_rdp() failed" w, s)
  else
    let '(w, s) := rdp_recv_data_pdu_switch w s (sd_type h) in
    (true, w, s).

(** [uninit] is what the five local variables hold when the function is
    entered (they are declared without an initialiser). *)
Definition rdp_recv_data_pdu (w : World) (s : STREAM)
  (uninit : ShareDataHeader) : bool * World * STREAM :=
  let '(_, s, h) := rdp_read_share_data_header s uninit in
  rdp_recv_data_pdu_dispatch w s h.

(** ** Security envelope, inbound *)

Definition rdp_decrypt (w : World) (s : STREAM) (length securityFlags : Z)
  : bool * World * STREAM :=
  let securityFlags := to_uint16 securityFlags in
  let w := LLOGLN 10 "rdp_decrypt:" w in
  if encryption_method (settings (rdp w)) =? ENCRYPTION_METHOD_FIPS then
    let '(len16, s) := stream_read_uint16 s in
    let '(version, s) := stream_read_uint8 s in
    let '(pad, s) := stream_read_uint8 s in
    let sig := s_p s in
    let s := stream_seek s 8 in
    let length := length - 12 in
    let '(ok, r, out) :=
      security_fips_decrypt X (rdp w) (region s (s_p s) length) in
    let s := stream_rewrite s (s_p s) length out in
    let w := with_rdp w r in
    if negb ok then (false, LLOGLN 0 "FATAL: cannot decrypt" w, s)
    else
      let '(ok, r) :=
        security_fips_check_signature X (rdp w)
          (region s (s_p s) (length - pad)) (region s sig 8) in
      let w := with_rdp w r in
      if negb ok
      then (false, LLOGLN 0 "FATAL: invalid packet signature FIPS" w, s)
      else (true, w, mkSTREAM (s_data s) (s_p s) (s_size s - pad))
  else
    let '(wmac, s) := stream_read s 8 in
    let length := length - 8 in
    let '(r, out) := security_decrypt X (rdp w) (region s (s_p s) length) in
    let s := stream_rewrite s (s_p s) length out in
    let '(r, cmac) :=
      if negb (Z.land securityFlags SEC_SECURE_CHECKSUM =? 0)
      then security_salted_mac_signature X r (region s (s_p s) length) false
      else security_mac_signature X r (region s (s_p s) length) in
    let w := with_rdp w r in
    if list_eq_dec Z.eq_dec (fit 8 wmac) (fit 8 cmac)
    then (true, LLOGLN 10 "rdp_decrypt: signature ok" w, s)
    else (true, LLOGLN 0 "WARNING: invalid packet signature non-FIPS" w, s).

(** ** Receive side: TPKT and fast-path *)

(** What the local variables of [rdp_recv_tpkt_pdu] that a callee may leave
    unassigned hold on entry, and the same for the [rdp_recv_data_pdu] it
    calls. *)
Record TpktLocals := mkTpktLocals {
  u_length : Z;
  u_channelId : Z;
  u_pduType : Z;
  u_pduSource : Z;
  u_data : ShareDataHeader
}.

(** The [switch (pduType)] inside the loop of [rdp_recv_tpkt_pdu]; [false]
    stands for the [return false] of its first two cases. *)
Definition rdp_recv_tpkt_pdu_switch (w : World) (s : STREAM) (pduType : Z)
  (u : ShareDataHeader) : bool * World * STREAM :=
  if pduType =? PDU_TYPE_DATA then
    let '(ok, w, s) := rdp_recv_data_pdu w s u in
    if negb ok then (false, LLOGLN 0 "rdp_recv_data_pdu failed" w, s)
    else (true, w, s)
  else if pduType =? PDU_TYPE_DEACTIVATE_ALL then
    invoke rdp_recv_deactivate_all 0 w s
  else if pduType =? PDU_TYPE_SERVER_REDIRECTION then
    let '(_, w, s) :=
      invoke rdp_recv_enhanced_security_redirection_packet 0 w s in
    (true, w, s)
  else (true, LLOGLN 0 "incorrect PDU type: 0x%04X" w, s).

(** The [while (stream_get_left(s) > 3)] loop of [rdp_recv_tpkt_pdu];
    [None] when [fuel] iterations did not reach the end of the loop. *)
Fixpoint rdp_recv_tpkt_pdu_loop (fuel : nat) (w : World) (s : STREAM)
  (pduType pduSource : Z) (u : ShareDataHeader)
  : option (bool * World * STREAM) :=
  if stream_get_left s >? 3 then
    match fuel with
    | O => None
    | S fuel =>
      let nextp := stream_get_mark s in
      let '(_, s, pduLength, pduType, pduSource) :=
        rdp_read_share_control_header s pduType pduSource in
      let nextp := nextp + pduLength in
      let w := with_rdp w (set_pdu_source (rdp w) pduSource) in
      let '(ok, w, s) := rdp_recv_tpkt_pdu_switch w s pduType u in
      if negb ok then Some (false, w, s)
      else
        rdp_recv_tpkt_pdu_loop fuel w (stream_set_mark s nextp)
          pduType pduSource u
    end
  else Some (true, w, s).

Definition rdp_recv_tpkt_pdu (fuel : nat) (w : World) (s : STREAM)
  (u : TpktLocals) : option (bool * World * STREAM) :=
  let w := LLOGLN 10 "rdp_recv_tpkt_pdu:" w in
  let '(ok, w, s, length, channelId) :=
    rdp_read_header w s (u_length u) (u_channelId u) in
  if negb ok then Some (false, LLOGLN 0 "Incorrect RDP header." w, s)
  else
    let w := LLOGLN 10 "rdp_recv_tpkt_pdu: length %d" w in
    if disconnect (rdp w)
    then Some (false, LLOGLN 0 "rdp_recv_tpkt_pdu: disconnect" w, s)
    else
      let global w s :=
        if negb (channelId =? MCS_GLOBAL_CHANNEL_ID) then
          let '(_, w, s) := invoke freerdp_channel_process channelId w s in
          Some (true, w, s)
        else
          rdp_recv_tpkt_pdu_loop fuel w s (u_pduType u) (u_pduSource u)
            (u_data u) in
      if encryption (settings (rdp w)) then
        let '(securityFlags, s) := rdp_read_security_header s in
        let w :=
          LLOGLN 10 "rdp_recv_tpkt_pdu: securityFlags 0x%8.8x" w in
        let '(ok, w, s) :=
          if negb (Z.land securityFlags
                     (Z.lor SEC_ENCRYPT SEC_REDIRECTION_PKT) =? 0)
          then
            let '(ok, w, s) := rdp_decrypt w s (length - 4) securityFlags in
            if negb ok then (false, LLOGLN 0 "rdp_decrypt failed" w, s)
            else (true, w, s)
          else (true, w, s) in
        if negb ok then Some (false, w, s)
        else if negb (Z.land securityFlags SEC_REDIRECTION_PKT =? 0) then
          let w :=
            LLOGLN 0
              "rdp_recv_tpkt_pdu: got SEC_REDIRECTION_PKT securityFlags 0x%8.8x"
              w in
          let s := stream_seek s (-2) in
          let '(_, w, s) :=
            invoke rdp_recv_enhanced_security_redirection_packet 0 w s in
          Some (true, w, s)
        else global w s
      else global w s.

Definition rdp_recv_fastpath_pdu (w : World) (s : STREAM)
  : bool * World * STREAM :=
  let w := LLOGLN 10 "rdp_recv_fastpath_pdu:" w in
  let '(length, r, s) := fastpath_read_header_rdp X (rdp w) s in
  let length := to_uint16 length in
  let w := with_rdp w r in
  let w := LLOGLN 10 "rdp_recv_fastpath_pdu: length %d" w in
  if (length =? 0) || (length >? stream_get_left s) then
    (false,
     LLOGLN 0
       "rdp_recv_fastpath_pdu: incorrect FastPath PDU header length %d" w,
     s)
  else
    let flags := fastpath_encryptionFlags (rdp w) in
    let '(w, s) :=
      if negb (Z.land flags FASTPATH_OUTPUT_ENCRYPTED =? 0) then
        let securityFlags :=
          if negb (Z.land flags FASTPATH_OUTPUT_SECURE_CHECKSUM =? 0)
          then SEC_SECURE_CHECKSUM else 0 in
        let '(_, w, s) := rdp_decrypt w s length securityFlags in
        (LLOGLN 10 "rdp_recv_fastpath_pdu: decrypted data length %d" w, s)
      else (w, s) in
    invoke fastpath_recv_updates 0 w s.

Definition rdp_recv_pdu (fuel : nat) (w : World) (s : STREAM)
  (u : TpktLocals) : option (bool * World * STREAM) :=
  let w := LLOGLN 10 "rdp_recv_pdu:" w in
  if tpkt_verify_header X s
  then rdp_recv_tpkt_pdu fuel (LLOGLN 10 "rdp_recv_pdu: tpkt" w) s u
  else Some (rdp_recv_fastpath_pdu (LLOGLN 10 "rdp_recv_pdu: fast path" w) s).

End Model.

Arguments rdpRdp : clear implicits.
Arguments World : clear implicits.
Arguments Externals : clear implicits.

(** ** Out-of-sequence PDUs and the rectangle senders *)

Section Model2.

Context {Transport Ext : Type}.
Variable X : Externals Transport Ext.

(** [type] and [channelId] are what the two locals hold on entry: the
    header read assigns them only on the paths that get that far, and its
    result is not looked at.  [u] is the same for the locals of
    [rdp_recv_data_pdu]. *)
Definition rdp_recv_out_of_sequence_pdu (w : World Transport Ext)
  (s : STREAM) (type channelId : Z) (u : ShareDataHeader)
  : bool * World Transport Ext * STREAM :=
  let w := LLOGLN 0 "rdp_recv_out_of_sequence_pdu:" w in
  let '(_, s, length, type, channelId) :=
    rdp_read_share_control_header s type channelId in
  if type =? PDU_TYPE_DATA then rdp_recv_data_pdu X w s u
  else if type =? PDU_TYPE_SERVER_REDIRECTION then
    let '(_, w, s) :=
      invoke X rdp_recv_enhanced_security_redirection_packet 0 w s in
    (true, w, s)
  else (false, w, s).

(** The body [rdp_send_invalidate] writes: a count of one rectangle, three
    bytes skipped (not written), then left, top, right and bottom; the sums
    are C [int] additions, cut to 16 bits by the write. *)
Definition rdp_send_invalidate_body (s : STREAM) (x y w h : Z) : STREAM :=
  let s := stream_write_uint8 s 1 in
  let s := stream_seek s 3 in
  let s := stream_write_uint16 s x in
  let s := stream_write_uint16 s y in
  let s := stream_write_uint16 s (x + w) in
  stream_write_uint16 s (y + h).

Definition rdp_send_invalidate (r : rdpRdp Transport Ext)
  (code x y w h : Z) : Z * rdpRdp Transport Ext :=
  let '(r, s) := rdp_data_pdu_init X r in
  let s := rdp_send_invalidate_body s x y w h in
  let '(_, r, _) := rdp_send_data_pdu X r s 33 (mcs_user_id r) in
  (0, r).

(** The body [rdp_send_suppress_output] writes: the code, and the rectangle
    only for code 1. *)
Definition rdp_send_suppress_output_body (s : STREAM)
  (code left top right bottom : Z) : STREAM :=
  let s := stream_write_uint32 s code in
  if code =? 0 then s
  else if code =? 1 then
    let s := stream_write_uint16 s left in
    let s := stream_write_uint16 s top in
    let s := stream_write_uint16 s right in
    stream_write_uint16 s bottom
  else s.

Definition rdp_send_suppress_output (w : World Transport Ext)
  (code left top right bottom : Z) : Z * World Transport Ext :=
  let w :=
    LLOGLN 0
      "rdp_send_suppress_output: code %d left %d top %d right %d bottom %d"
      w in
  let '(r, s) := rdp_data_pdu_init X (rdp w) in
  let s := rdp_send_suppress_output_body s code left top right bottom in
  let '(_, r, _) := rdp_send_data_pdu X r s 35 (mcs_user_id r) in
  (0, with_rdp w r).

End Model2.


(** ** The receive callback

    Modelled from the spec: the connection phases ([connection.h]) are not
    part of [rdp.c], which names seven of them in the [switch] of
    [rdp_recv_callback]; the specification adds MCS_CONNECT, and
    [CONNECTION_STATE_other] stands for any further value of the enum.
    [FINALIZE_SC_COMPLETE] is the mask of the four finalize PDUs.

    [rdp->state] and [rdp->finalize_sc_pdus] are fields of the session that
    the connection code and the PDU handlers assign; they live in the part
    of the session [rdpRdp] leaves to the collaborators, and [Connection]
    gives the accessors together with the five connection-phase handlers
    ([connection.c]), which take the session and the stream. *)

Inductive CONNECTION_STATE :=
| CONNECTION_STATE_NEGO
| CONNECTION_STATE_MCS_CONNECT
| CONNECTION_STATE_MCS_ATTACH_USER
| CONNECTION_STATE_MCS_CHANNEL_JOIN
| CONNECTION_STATE_LICENSE
| CONNECTION_STATE_CAPABILITY
| CONNECTION_STATE_FINALIZATION
| CONNECTION_STATE_ACTIVE
| CONNECTION_STATE_other (n : Z).

Definition FINALIZE_SC_COMPLETE : Z := 0xF.

Inductive ConnectHandler :=
| rdp_client_connect_mcs_connect_response
| rdp_client_connect_mcs_attach_user_confirm
| rdp_client_connect_mcs_channel_join_confirm
| rdp_client_connect_license
| rdp_client_connect_demand_active.

Record Connection {Transport Ext : Type} := mkConnection {
  state : rdpRdp Transport Ext -> CONNECTION_STATE;
  set_state : rdpRdp Transport Ext -> CONNECTION_STATE
              -> rdpRdp Transport Ext;
  finalize_sc_pdus : rdpRdp Transport Ext -> Z;
  connect : ConnectHandler -> rdpRdp Transport Ext -> STREAM
            -> bool * rdpRdp Transport Ext * STREAM
}.

Arguments Connection : clear implicits.

Section Callback.

Context {Transport Ext : Type}.
Variable X : Externals Transport Ext.
Variable C : Connection Transport Ext.

(** [rdp_recv_callback]; [None] when the receive loop it reaches does not
    end within [fuel] iterations. *)
Definition rdp_recv_callback (fuel : nat) (w : World Transport Ext)
  (s : STREAM) (u : TpktLocals)
  : option (bool * World Transport Ext * STREAM) :=
  let w := LLOGLN 10 "rdp_recv_callback: state %d" w in
  let phase c :=
    let '(ok, r, s) := connect C c (rdp w) s in
    if negb ok then Some (false, with_rdp w r, s)
    else Some (true, with_rdp w r, s) in
  match state C (rdp w) with
  | CONNECTION_STATE_NEGO => phase rdp_client_connect_mcs_connect_response
  | CONNECTION_STATE_MCS_ATTACH_USER =>
      phase rdp_client_connect_mcs_attach_user_confirm
  | CONNECTION_STATE_MCS_CHANNEL_JOIN =>
      phase rdp_client_connect_mcs_channel_join_confirm
  | CONNECTION_STATE_LICENSE => phase rdp_client_connect_license
  | CONNECTION_STATE_CAPABILITY =>
      let '(ok, r, s) :=
        connect C rdp_client_connect_demand_active (rdp w) s in
      let w := with_rdp w r in
      if negb ok
      then Some (false,
                 LLOGLN 0 "rdp_client_connect_demand_active failed" w, s)
      else Some (true, w, s)
  | CONNECTION_STATE_FINALIZATION =>
      match rdp_recv_pdu X fuel w s u with
      | None => None
      | Some (ok, w, s) =>
          if negb ok then Some (false, w, s)
          else if finalize_sc_pdus C (rdp w) =? FINALIZE_SC_COMPLETE
          then Some (true,
                     with_rdp w (set_state C (rdp w) CONNECTION_STATE_ACTIVE),
                     s)
          else Some (true, w, s)
      end
  | CONNECTION_STATE_ACTIVE =>
      match rdp_recv_pdu X fuel w s u with
      | None => None
      | Some (ok, w, s) =>
          if negb ok then Some (false, w, s) else Some (true, w, s)
      end
  | _ => Some (false, LLOGLN 0 "Invalid state %d" w, s)
  end.

End Callback.

(** ** Vocabulary of the statements *)

(** The stream a receiver gets for the frame [bs]. *)
Definition stream_of (bs : list Z) : STREAM := mkSTREAM bs 0 (len bs).

(** What [rdp.c] relies on from the MCS and PER codecs: the header writers
    put a fixed number of bytes at the cursor (8 for the TPKT, X.224 and
    MCS choice bytes, 2 for a PER integer16, which is how
    [RDP_PACKET_HEADER_MAX_LENGTH] comes to 15), and the readers take back
    what the writers and [rdp_write_header] put there. *)
Record WireLaws {Transport Ext : Type} (X : Externals Transport Ext)
  : Type := mkWireLaws {
  mcs_enc : Z -> Z -> Z -> list Z;
  per16_enc : Z -> Z -> list Z;
  mcs_enc_len : forall m l o, len (mcs_enc m l o) = 8;
  per16_enc_len : forall v m, len (per16_enc v m) = 2;
  mcs_write_law : forall s m l o,
    mcs_write_domain_mcspdu_header X s m l o = stream_put s (mcs_enc m l o);
  per_write_law : forall s v m,
    per_write_integer16 X s v m = stream_put s (per16_enc v m);
  mcs_read_law : forall s m l l0,
    0 <= s_p s -> 0 <= l <= 0xFFFF ->
    m = DomainMCSPDU_SendDataRequest \/ m = DomainMCSPDU_SendDataIndication ->
    region s (s_p s) 8 = mcs_enc m l 0 ->
    mcs_read_domain_mcspdu_header X s m l0 = (true, stream_seek s 8, m, l);
  per_read_seek_law : forall s v0 m,
    snd (fst (per_read_integer16 X s v0 m)) = stream_seek s 2;
  per_read_law : forall s v v0,
    0 <= s_p s -> 0 <= v <= 0xFFFF ->
    region s (s_p s) 2 = per16_enc v 0 ->
    snd (per_read_integer16 X s v0 0) = v;
  per_read_length_law : forall s l l0,
    0 <= s_p s -> 0 <= l < 0x8000 ->
    region s (s_p s) 2 = be16 (Z.lor l 0x8000) ->
    per_read_length X s l0 = (true, stream_seek s 2, l)
}.

Arguments mcs_enc {Transport Ext X}.
Arguments per16_enc {Transport Ext X}.

(** FIPS padding, of a frame [s'] sent from a stream of [length] bytes:
    [pad], the fourth byte of the FIPS header (offset 22 of the frame), is
    in [0,7]; the encrypted region, the plaintext of [length - 31] bytes
    plus [pad], is a whole number of 8-byte blocks; the frame and the outer
    MCS lengths are [length + pad]; and what was encrypted is the plaintext
    followed by [pad] zero bytes. *)
Definition fips_frame {Transport Ext : Type} (X : Externals Transport Ext)
  (L : WireLaws X) (r : rdpRdp Transport Ext) (length : Z) (s' : STREAM)
  : Prop :=
  let n := length - 31 in
  let pad := byte_at (s_data s') 22 in
  let m := if server_mode (settings r)
           then DomainMCSPDU_SendDataIndication
           else DomainMCSPDU_SendDataRequest in
  0 <= pad <= 7
  /\ (n + pad) mod 8 = 0
  /\ stream_get_length s' = length + pad
  /\ rdp_write_header_length r length = length + pad
  /\ region s' 0 8 = mcs_enc L m (length + pad) 0
  /\ region s' 13 2
     = be16 (to_uint16
               (Z.lor (length + pad - RDP_PACKET_HEADER_MAX_LENGTH) 0x8000))
  /\ exists r1 plain,
       len plain = n
       /\ region s' 31 (n + pad)
          = fit (n + pad)
              (snd (security_fips_encrypt X r1
                      (plain ++ repeat 0 (Z.to_nat pad)))).

(** A Share Control PDU inside an MCS envelope: where it starts and what
    its header says. *)
Record SharePdu := mkSharePdu {
  pdu_start : Z;
  pdu_length : Z;
  pdu_type : Z;
  pdu_src : Z
}.

Definition pdu_payload (q : SharePdu) : Z :=
  pdu_start q + (if pdu_length q >? 4 then 6 else 4).
Definition pdu_end (q : SharePdu) : Z := pdu_start q + pdu_length q.

(** [s], from its cursor on, reads as the PDUs [pdus] laid end to end, with
    fewer than 4 bytes after the last one. *)
Fixpoint envelope (s : STREAM) (pdus : list SharePdu) : Prop :=
  match pdus with
  | [] => stream_get_left s <= 3
  | q :: rest =>
      3 < stream_get_left s
      /\ s_p s = pdu_start q
      /\ (forall t c,
            rdp_read_share_control_header s t c
            = (true, stream_set_pos s (pdu_payload q),
               pdu_length q, pdu_type q, pdu_src q))
      /\ envelope (stream_set_pos s (pdu_end q)) rest
  end.

(** What the receive loop needs of the collaborators it hands the stream
    to: they read (the buffer and its size are as before, only the cursor
    moves), they leave [settings->pdu_source] alone, and they accept the
    PDU (the decompressor succeeds, [rdp_recv_deactivate_all] returns
    true). *)
Definition polite_collaborators {Transport Ext : Type}
  (X : Externals Transport Ext) : Prop :=
  (forall c a r s,
      s_data (snd (handler X c a r s)) = s_data s
      /\ s_size (snd (handler X c a r s)) = s_size s
      /\ pdu_source (settings (snd (fst (handler X c a r s))))
         = pdu_source (settings r))
  /\ (forall r bs t,
        fst (fst (fst (decompress_rdp X r bs t))) = true
        /\ pdu_source (settings (snd (fst (fst (decompress_rdp X r bs t)))))
           = pdu_source (settings r))
  /\ (forall a r s, fst (fst (handler X rdp_recv_deactivate_all a r s)) = true).

Section InOrder.

Context {Transport Ext : Type}.
Variable X : Externals Transport Ext.

(** The receive of an envelope in the words of the specification: for each
    PDU, left to right, record its [pduSource] in the settings, dispatch on
    its type with the cursor after its header, then put the cursor at the
    PDU's start plus its declared length. *)
Fixpoint dispatch_in_order (w : World Transport Ext) (s : STREAM)
  (pdus : list SharePdu) (u : ShareDataHeader)
  : World Transport Ext * STREAM :=
  match pdus with
  | [] => (w, s)
  | q :: rest =>
      let w := with_rdp w (set_pdu_source (rdp w) (pdu_src q)) in
      let '(_, w, s) :=
        rdp_recv_tpkt_pdu_switch X w (stream_set_pos s (pdu_payload q))
          (pdu_type q) u in
      dispatch_in_order w (stream_set_pos s (pdu_end q)) rest u
  end.

End InOrder.

(** ** Reference collaborators

    One concrete [Externals], used to run the model on concrete frames.
    The codecs follow the wire format; the security primitives are
    stand-ins with the right shapes (an 8-byte signature, a length-preserving
    cipher), since the real ones live in [security.c]. *)

Module Ref.

Definition Transport : Type := list (list Z).   (* frames written so far *)
Definition Ext : Type := Z.                      (* a one-byte session key *)

(** Modelled from the spec: [mcs_write_domain_mcspdu_header] (mcs.c) is not
    in [rdp.c].  TPKT framing [0x03 0x00 len_hi len_lo], the X.224 data
    header, then the MCS choice byte ([0x64] for SendDataRequest). *)
Definition mcs_header (MCSPDU length options : Z) : list Z :=
  [3; 0] ++ be16 length ++ [2; 0xF0; 0x80]
  ++ [Z.land (Z.lor (Z.shiftl MCSPDU 2) options) 0xFF].
Definition mcs_write_domain_mcspdu_header
  (s : STREAM) (MCSPDU length options : Z) : STREAM :=
  stream_put s (mcs_header MCSPDU length options).

Definition read_uint16_be (s : STREAM) : Z :=
  Z.shiftl (byte_at (s_data s) (s_p s)) 8 + byte_at (s_data s) (s_p s + 1).

(** Modelled from the spec: [mcs_read_domain_mcspdu_header] (mcs.c) is not
    in [rdp.c].  Reads the TPKT length, skips the X.224 data header, takes
    the PDU variant from the choice byte; the expected variant and
    DisconnectProviderUltimatum are recognised. *)
Definition mcs_read_domain_mcspdu_header (s : STREAM) (MCSPDU length : Z)
  : bool * STREAM * Z * Z :=
  let length := read_uint16_be (stream_seek s 2) in
  let s := stream_seek s 7 in
  let '(choice, s) := stream_read_uint8 s in
  let got := Z.shiftr choice 2 in
  ((got =? MCSPDU) || (got =? DomainMCSPDU_DisconnectProviderUltimatum),
   s, got, length).

(** Modelled from the spec: [per_read_enumerated] (per.c) is not in
    [rdp.c].  One byte; a read with no byte left fails without side
    effects. *)
Definition per_read_enumerated (s : STREAM) (count : Z) : bool * STREAM * Z :=
  if stream_get_left s <? 1 then (false, s, 0)
  else let '(v, s) := stream_read_uint8 s in (true, s, v).

(** Modelled from the spec: [per_read_integer16] and [per_write_integer16]
    (per.c) are not in [rdp.c].  A big-endian 16-bit integer, offset by
    [min]. *)
Definition per_read_integer16 (s : STREAM) (integer min : Z)
  : bool * STREAM * Z :=
  let v := read_uint16_be s in
  if v + min >? 0xFFFF then (false, stream_seek s 2, v)
  else (true, stream_seek s 2, v + min).
Definition per_write_integer16 (s : STREAM) (integer min : Z) : STREAM :=
  stream_put s (be16 (integer - min)).

(** Modelled from the spec: [per_read_length] (per.c) is not in [rdp.c].
    One byte, or two when the high bit of the first is set. *)
Definition per_read_length (s : STREAM) (length : Z) : bool * STREAM * Z :=
  let '(b, s) := stream_read_uint8 s in
  if negb (Z.land b 0x80 =? 0) then
    let '(b2, s) := stream_read_uint8 s in
    (true, s, Z.shiftl (Z.land b 0x7F) 8 + b2)
  else (true, s, b).

(** Modelled from the spec: [tpkt_verify_header] (tpkt.c) is not in
    [rdp.c].  TPKT framing begins with [0x03]. *)
Definition tpkt_verify_header (s : STREAM) : bool :=
  byte_at (s_data s) (s_p s) =? 3.

Definition rdpRdp : Type := rdpRdp Transport Ext.

(** Stand-in signature: a checksum and the length, keyed, in 8 bytes. *)
Definition mac8 (key : Z) (bs : list Z) : list Z :=
  fit 8 [Z.land (fold_left Z.add bs key) 0xFF; Z.land (len bs) 0xFF].
(** Stand-in cipher: every byte xor-ed with the key. *)
Definition xor_cipher (key : Z) (bs : list Z) : list Z :=
  map (fun b => Z.lxor (Z.land b 0xFF) (Z.land key 0xFF)) bs.

Definition security_hmac_signature (r : rdpRdp) (bs : list Z)
  : rdpRdp * list Z := (r, mac8 (ext r) bs).
Definition security_mac_signature (r : rdpRdp) (bs : list Z)
  : rdpRdp * list Z := (r, mac8 (ext r) bs).
Definition security_salted_mac_signature (r : rdpRdp) (bs : list Z)
  (encryption : bool) : rdpRdp * list Z := (r, mac8 (ext r + 1) bs).
Definition security_encrypt (r : rdpRdp) (bs : list Z) : rdpRdp * list Z :=
  (r, xor_cipher (ext r) bs).
Definition security_decrypt (r : rdpRdp) (bs : list Z) : rdpRdp * list Z :=
  (r, xor_cipher (ext r) bs).
Definition security_fips_encrypt (r : rdpRdp) (bs : list Z)
  : rdpRdp * list Z := (r, xor_cipher (ext r) bs).
(** The block cipher refuses input that is not a whole number of blocks. *)
Definition security_fips_decrypt (r : rdpRdp) (bs : list Z)
  : bool * rdpRdp * list Z :=
  (len bs mod 8 =? 0, r, xor_cipher (ext r) bs).
Definition security_fips_check_signature (r : rdpRdp) (bs sig : list Z)
  : bool * rdpRdp :=
  (if list_eq_dec Z.eq_dec (mac8 (ext r) bs) sig then true else false, r).

(** Modelled from the spec: the transport (transport.c) is not in [rdp.c].
    [send_stream_init(min_cap)] hands out a packer of that capacity;
    [write(packer)] puts the bytes before the cursor on the wire. *)
Definition transport_send_stream_init (t : Transport) (size : Z)
  : Transport * STREAM :=
  (t, mkSTREAM (repeat 0 (Z.to_nat size)) 0 size).
Definition transport_write (t : Transport) (s : STREAM) : Z * Transport :=
  (stream_get_length s, t ++ [stream_frame s]).

(** Stand-in decompressor: the input is taken as stored, copied to the
    start of the history buffer. *)
Definition decompress_rdp (r : rdpRdp) (bs : list Z) (type : Z)
  : bool * rdpRdp * Z * Z :=
  (true,
   mkRdp (sec_flags r) (do_crypt r) (do_secure_checksum r) (disconnect r)
         (errorInfo r) (settings r) (mcs_user_id r)
         (fastpath_encryptionFlags r) bs (transport r) (ext r),
   0, len bs).

(** Modelled from the spec: [fastpath_read_header_rdp] (fastpath.c) is not
    in [rdp.c].  A 1-byte action+flags prefix whose two high bits are the
    encryption flags, then a 1- or 2-byte length; returns the length that
    remains after the header. *)
Definition fastpath_read_header_rdp (r : rdpRdp) (s : STREAM)
  : Z * rdpRdp * STREAM :=
  let '(header, s) := stream_read_uint8 s in
  let r :=
    mkRdp (sec_flags r) (do_crypt r) (do_secure_checksum r)
          (disconnect r) (errorInfo r) (settings r)
          (mcs_user_id r) (Z.shiftr (Z.land header 0xC0) 6)
          (mppc_history_buf r) (transport r) (ext r) in
  let '(_, s, length) := per_read_length s 0 in
  (length - stream_get_length s, r, s).

(** Every handler accepts the PDU and reads it to the end of the stream. *)
Definition handler (c : Collaborator) (arg : Z) (r : rdpRdp) (s : STREAM)
  : bool * rdpRdp * STREAM :=
  (true, r, stream_set_pos s (Z.max (s_p s) (s_size s))).

Definition X : Externals Transport Ext :=
  mkExternals
    mcs_read_domain_mcspdu_header mcs_write_domain_mcspdu_header
    per_read_enumerated per_read_integer16 per_write_integer16
    per_read_length tpkt_verify_header
    security_hmac_signature security_fips_encrypt
    security_salted_mac_signature security_mac_signature security_encrypt
    security_fips_decrypt security_fips_check_signature security_decrypt
    transport_send_stream_init transport_write decompress_rdp
    fastpath_read_header_rdp handler.

(** A client session with nothing staged. *)
Definition settings0 : rdpSettings := mkSettings false false 0 0xDEADBEEF 0 0.
Definition rdp0 : rdpRdp :=
  mkRdp 0 false false false 0 settings0 1007 0 [] [] 0x5A.
Definition no_data : ShareDataHeader := mkShareData 0 0 0 0 0.
Definition locals0 : TpktLocals := mkTpktLocals 0 0 0 0 no_data.

(** *** Concrete sessions and frames *)

Definition world (r : rdpRdp) : World Transport Ext := mkWorld r [].

(** A server-side session (it expects SendDataRequest). *)
Definition server0 : rdpRdp :=
  mkRdp 0 false false false 0 (mkSettings true false 0 0 0 0)
        1002 0 [] [] 0x5A.
(** A client session on a FIPS connection. *)
Definition fips0 : rdpRdp :=
  mkRdp 0 true false false 0
        (mkSettings false true ENCRYPTION_METHOD_FIPS 0 0 0)
        1007 0 [] [] 0x5A.
(** A client session with legacy (RC4-class) encryption. *)
Definition legacy0 : rdpRdp :=
  mkRdp 0 true false false 0 (mkSettings false true 1 0 0 0)
        1007 0 [] [] 0x5A.
(** A client session that acknowledges frames. *)
Definition acking0 : rdpRdp :=
  mkRdp 0 false false false 0 (mkSettings false false 0 0xDEADBEEF 0 1)
        1007 0 [] [] 0x5A.
(** A client session with flags staged for the next frame. *)
Definition staged0 : rdpRdp :=
  mkRdp 0x48 false false false 0 settings0 1007 0 [] [] 0x5A.

(** The short DEACTIVATE_ALL header. *)
Definition short_deactivate_all : STREAM := stream_of [0x04; 0x00; 0x16; 0x00].

(** A DisconnectProviderUltimatum frame: TPKT, X.224 data, choice byte
    [8 << 2 | 1], reason. *)
Definition dpu_frame : STREAM :=
  stream_of [3; 0; 0; 9; 2; 0xF0; 0x80; 0x21; 0x80].

(** A FIPS security envelope whose signature is all zeros: FIPS header,
    signature, one cipher block. *)
Definition fips_envelope_bad_signature : list Z :=
  [0x10; 0; 1; 0] ++ repeat 0 8 ++ [1; 2; 3; 4; 5; 6; 7; 8].

(** The envelope as an encrypted fast-path PDU (22 bytes in all) and in a
    TPKT frame on the global channel. *)
Definition fastpath_bad_signature : STREAM :=
  stream_of ([0x80; 22] ++ fips_envelope_bad_signature).
Definition tpkt_bad_signature : STREAM :=
  stream_of ([3; 0; 0; 38; 2; 0xF0; 0x80; 0x68; 0; 1; 0x03; 0xEB; 0x70; 24;
              0x08; 0; 0; 0] ++ fips_envelope_bad_signature).

(** A legacy envelope (MAC, then cipher text) whose MAC is wrong. *)
Definition legacy_bad_mac : STREAM :=
  stream_of (repeat 0 8 ++ [0x5B; 0x58; 0x59; 0x5E]).

(** A stream with a Data PDU body cut short (5 bytes where the Share Data
    header needs 12). *)
Definition short_data_pdu : STREAM := stream_of [1; 2; 3; 4; 5].

(** A raw frame with a 5-byte body, ready for [rdp_send] with [staged0]
    (4 bytes of security header reserved). *)
Definition raw_stream : STREAM :=
  mkSTREAM (repeat 0 19 ++ [1; 2; 3; 4; 5] ++ repeat 0 40) 24 64.

(** A FIPS session with a raw stream initialised and a 5-byte body
    written. *)
Definition fips_staged : rdpRdp := fst (rdp_send_stream_init X fips0).
Definition fips_stream : STREAM :=
  stream_put (snd (rdp_send_stream_init X fips0)) [1; 2; 3; 4; 5].

(** A session without encryption with a PDU stream initialised and a
    5-byte body written, and the same on a session with legacy
    encryption. *)
Definition plain_stream : STREAM :=
  stream_put (snd (rdp_pdu_init X rdp0)) [1; 2; 3; 4; 5].
Definition legacy_staged : rdpRdp := fst (rdp_pdu_init X legacy0).
Definition legacy_stream : STREAM :=
  stream_put (snd (rdp_pdu_init X legacy0)) [1; 2; 3; 4; 5].

(** Decoding a frame with [rdp_read_header] followed by
    [rdp_read_share_control_header], on the server side: whether both
    succeeded, the type, the channel, and the bytes left as body. *)
Definition decode (F : list Z) : bool * Z * Z * list Z :=
  let '(ok, _, s1, _, _) := rdp_read_header X (world server0) (stream_of F) 0 0 in
  let '(ok2, s2, _, type, channel) := rdp_read_share_control_header s1 0 0 in
  (ok && ok2, type, channel, region s2 (s_p s2) (stream_get_left s2)).

(** One MCS envelope with three Share Control PDUs: A, a Data PDU of 30
    bytes (an Update) from 1002; B, a Data PDU of 50 bytes (a Pointer
    update) from 1003; C, the short DEACTIVATE_ALL. *)
Definition pdu_A : list Z :=
  [30; 0; 0x17; 0; 0xEA; 0x03] ++ [0; 0; 0; 0; 0; 1; 12; 0; 0x02; 0; 0; 0]
  ++ repeat 0xAA 12.
Definition pdu_B : list Z :=
  [50; 0; 0x17; 0; 0xEB; 0x03] ++ [0; 0; 0; 0; 0; 1; 32; 0; 0x1B; 0; 0; 0]
  ++ repeat 0xBB 32.
Definition pdu_C : list Z := [4; 0; 0x16; 0].
Definition three_pdus : STREAM := stream_of (pdu_A ++ pdu_B ++ pdu_C).
Definition three_pdus_parsed : list SharePdu :=
  [mkSharePdu 0 30 PDU_TYPE_DATA 1002; mkSharePdu 30 50 PDU_TYPE_DATA 1003;
   mkSharePdu 80 4 PDU_TYPE_DEACTIVATE_ALL 0].

End Ref.

(** ** More concrete sessions and frames *)

Module Ex.

(** The three PDUs of [Ref.three_pdus] in a TPKT frame from the server. *)
Definition three_pdus_frame : STREAM :=
  stream_of ([3; 0; 0; 99; 2; 0xF0; 0x80; 0x68; 0; 1; 0x03; 0xEB; 0x70;
              0x80; 84] ++ Ref.pdu_A ++ Ref.pdu_B ++ Ref.pdu_C).

(** A session whose [disconnect] latch is set. *)
Definition disconnecting0 : Ref.rdpRdp := set_disconnect Ref.rdp0 true.

(** A Share Control PDU (a DEACTIVATE_ALL) that declares a total length
    of 0. *)
Definition zero_length_pdu : STREAM := stream_of [0; 0; 0x16; 0].

(** A Set Error Info Data PDU, from the Share Data header on, with error
    code 5. *)
Definition set_error_info_pdu : STREAM :=
  stream_of ([0; 0; 0; 0; 0; 1; 4; 0; 0x2F; 0; 0; 0] ++ [5; 0; 0; 0]).

(** A fast-path PDU whose header announces 10 bytes in all where 4 are
    there. *)
Definition fastpath_too_long : STREAM := stream_of [0; 10; 1; 2].

(** A frame from the server on channel 1004, with five bytes of channel
    data. *)
Definition channel_frame : STREAM :=
  stream_of [3; 0; 0; 20; 2; 0xF0; 0x80; 0x68; 0; 1; 0x03; 0xEC; 0x70;
             0x80; 5; 1; 2; 3; 4; 5].

(** An empty buffer with the cursor where a header is to be written. *)
Definition blank (p : Z) : STREAM := mkSTREAM (repeat 0 64) p 64.

(** A session without encryption with a raw stream and a Data PDU stream
    initialised, and a 5-byte body written. *)
Definition raw_plain_stream : STREAM :=
  stream_put (snd (rdp_send_stream_init Ref.X Ref.rdp0)) [1; 2; 3; 4; 5].
Definition data_plain_stream : STREAM :=
  stream_put (snd (rdp_data_pdu_init Ref.X Ref.rdp0)) [1; 2; 3; 4; 5].

(** A session with legacy encryption with a raw stream initialised and a
    5-byte body written. *)
Definition legacy_raw_staged : Ref.rdpRdp :=
  fst (rdp_send_stream_init Ref.X Ref.legacy0).
Definition legacy_raw_stream : STREAM :=
  stream_put (snd (rdp_send_stream_init Ref.X Ref.legacy0)) [1; 2; 3; 4; 5].

(** A FIPS session with a Data PDU stream initialised and a 5-byte body
    written, and a server-side FIPS session with the same key. *)
Definition fips_data_staged : Ref.rdpRdp :=
  fst (rdp_data_pdu_init Ref.X Ref.fips0).
Definition fips_data_stream : STREAM :=
  stream_put (snd (rdp_data_pdu_init Ref.X Ref.fips0)) [1; 2; 3; 4; 5].
Definition fips_server0 : Ref.rdpRdp :=
  mkRdp 0 true false false 0
        (mkSettings true true ENCRYPTION_METHOD_FIPS 0 0 0)
        1002 0 [] [] 0x5A.

(** A Share Control PDU that declares 50 bytes where 6 are there. *)
Definition overlong_pdu : STREAM := stream_of [50; 0; 0x17; 0; 1; 2].

(** A client session that acknowledges frames, with flags staged. *)
Definition staged_acking0 : Ref.rdpRdp :=
  mkRdp 0x48 false false false 0 (mkSettings false false 0 0xDEADBEEF 0 1)
        1007 0 [] [] 0x5A.

(** A connection layer for the reference sessions: the phase is the second
    byte of the session's opaque part and [finalize_sc_pdus] the third (the
    first is the key); the phase handlers accept. *)
Definition state_of_code (n : Z) : CONNECTION_STATE :=
  if n =? 1 then CONNECTION_STATE_NEGO
  else if n =? 2 then CONNECTION_STATE_MCS_CONNECT
  else if n =? 4 then CONNECTION_STATE_MCS_ATTACH_USER
  else if n =? 5 then CONNECTION_STATE_MCS_CHANNEL_JOIN
  else if n =? 7 then CONNECTION_STATE_LICENSE
  else if n =? 8 then CONNECTION_STATE_CAPABILITY
  else if n =? 9 then CONNECTION_STATE_FINALIZATION
  else if n =? 10 then CONNECTION_STATE_ACTIVE
  else CONNECTION_STATE_other n.
Definition code_of_state (st : CONNECTION_STATE) : Z :=
  match st with
  | CONNECTION_STATE_NEGO => 1
  | CONNECTION_STATE_MCS_CONNECT => 2
  | CONNECTION_STATE_MCS_ATTACH_USER => 4
  | CONNECTION_STATE_MCS_CHANNEL_JOIN => 5
  | CONNECTION_STATE_LICENSE => 7
  | CONNECTION_STATE_CAPABILITY => 8
  | CONNECTION_STATE_FINALIZATION => 9
  | CONNECTION_STATE_ACTIVE => 10
  | CONNECTION_STATE_other n => n
  end.
Definition with_ext (r : Ref.rdpRdp) (e : Z) : Ref.rdpRdp :=
  mkRdp (sec_flags r) (do_crypt r) (do_secure_checksum r) (disconnect r)
        (errorInfo r) (settings r) (mcs_user_id r)
        (fastpath_encryptionFlags r) (mppc_history_buf r) (transport r) e.
Definition conn : Connection Ref.Transport Ref.Ext :=
  mkConnection Ref.Transport Ref.Ext
    (fun r => state_of_code (Z.land (Z.shiftr (ext r) 8) 0xFF))
    (fun r st =>
       with_ext r
         (Z.lor (Z.land (ext r) 0xFF00FF)
            (Z.shiftl (Z.land (code_of_state st) 0xFF) 8)))
    (fun r => Z.land (Z.shiftr (ext r) 16) 0xFF)
    (fun c r s => (true, r, s)).

(** A server-side session in the finalization phase that has seen the four
    finalize PDUs, one in the active phase, and one in the MCS_CONNECT
    phase. *)
Definition finalizing0 : Ref.rdpRdp := with_ext Ref.server0 0x0F095A.
Definition active0 : Ref.rdpRdp := with_ext Ref.rdp0 0x0F0A5A.
Definition connecting0 : Ref.rdpRdp := with_ext Ref.rdp0 0x00025A.

(** Collaborators as [Ref.X], except that the decompressor fails and
    [rdp_recv_deactivate_all] refuses. *)
Definition refusing : Externals Ref.Transport Ref.Ext :=
  mkExternals
    Ref.mcs_read_domain_mcspdu_header Ref.mcs_write_domain_mcspdu_header
    Ref.per_read_enumerated Ref.per_read_integer16 Ref.per_write_integer16
    Ref.per_read_length Ref.tpkt_verify_header
    Ref.security_hmac_signature Ref.security_fips_encrypt
    Ref.security_salted_mac_signature Ref.security_mac_signature
    Ref.security_encrypt Ref.security_fips_decrypt
    Ref.security_fips_check_signature Ref.security_decrypt
    Ref.transport_send_stream_init Ref.transport_write
    (fun r bs type => (false, r, 0, 0))
    Ref.fastpath_read_header_rdp
    (fun c arg r s =>
       match c with
       | rdp_recv_deactivate_all => (false, r, s)
       | _ => Ref.handler c arg r s
       end).

(** A Data PDU flagged compressed, from the Share Data header on. *)
Definition compressed_data_pdu : STREAM :=
  stream_of ([0; 0; 0; 0; 0; 1; 22; 0; 0x02; 0x21; 22; 0] ++ [9; 9; 9; 9]).

(** A session with legacy encryption with a Data PDU stream initialised
    and a 5-byte body written, and a server-side session with legacy
    encryption and the same key. *)
Definition legacy_data_staged : Ref.rdpRdp :=
  fst (rdp_data_pdu_init Ref.X Ref.legacy0).
Definition legacy_data_stream : STREAM :=
  stream_put (snd (rdp_data_pdu_init Ref.X Ref.legacy0)) [1; 2; 3; 4; 5].
Definition legacy_server0 : Ref.rdpRdp :=
  mkRdp 0 true false false 0 (mkSettings true true 1 0 0 0)
        1002 0 [] [] 0x5A.

(** A frame from the server whose security header carries
    [SEC_REDIRECTION_PKT] alone, with a MAC and four bytes of payload. *)
Definition redirection_frame : STREAM :=
  stream_of ([3; 0; 0; 31; 2; 0xF0; 0x80; 0x68; 0; 1; 0x03; 0xEB; 0x70;
              0x80; 16] ++ [0; 4; 0; 0] ++ repeat 0 8 ++ [1; 2; 3; 4]).

End Ex.


(** * Buffer lemmas *)

Section Buffers.

Implicit Types (d bs out : list Z) (i j n m : Z) (k : nat).

Lemma len_nonneg d : 0 <= len d.
Proof. unfold len. lia. Qed.

Lemma len_app d bs : len (d ++ bs) = len d + len bs.
Proof. unfold len. rewrite length_app. lia. Qed.

Lemma len_repeat (x : Z) k : len (repeat x k) = Z.of_nat k.
Proof. unfold len. now rewrite repeat_length. Qed.

Lemma len_fit n bs : len (fit n bs) = Z.max 0 n.
Proof.
  unfold fit, len. rewrite length_firstn, length_app, repeat_length. lia.
Qed.

Lemma len_peek d i n :
  0 <= i -> 0 <= n -> i + n <= len d -> len (peek d i n) = n.
Proof.
  unfold peek, len. intros. rewrite length_firstn, length_skipn. lia.
Qed.

Lemma len_poke d i bs : len (poke d i bs) = len d.
Proof.
  unfold poke.
  destruct (Z.leb_spec 0 i); [|reflexivity].
  destruct (Z.leb_spec (i + len bs) (len d)); [|reflexivity].
  cbn [andb]. rewrite !len_app. unfold len in *.
  rewrite length_firstn, length_skipn. lia.
Qed.

Lemma nth_error_peek d i n k :
  nth_error (peek d i n) k
  = if (k <? Z.to_nat n)%nat then nth_error d (Z.to_nat i + k) else None.
Proof.
  unfold peek. rewrite nth_error_firstn, nth_error_skipn. reflexivity.
Qed.

Lemma nth_error_poke d i bs k :
  0 <= i -> i + len bs <= len d ->
  nth_error (poke d i bs) k
  = if (k <? Z.to_nat i)%nat then nth_error d k
    else if (k <? Z.to_nat i + List.length bs)%nat
         then nth_error bs (k - Z.to_nat i)
         else nth_error d k.
Proof.
  intros Hi Hfit. unfold poke.
  destruct (Z.leb_spec 0 i); [|lia].
  destruct (Z.leb_spec (i + len bs) (len d)); [|lia].
  cbn [andb]. unfold len in *.
  rewrite nth_error_app.
  rewrite length_firstn.
  replace (Init.Nat.min (Z.to_nat i) (List.length d)) with (Z.to_nat i) by lia.
  destruct (Nat.ltb_spec k (Z.to_nat i)).
  - rewrite nth_error_firstn.
    destruct (Nat.ltb_spec k (Z.to_nat i)); [reflexivity|lia].
  - rewrite nth_error_app.
    destruct (Nat.ltb_spec (k - Z.to_nat i) (List.length bs));
      destruct (Nat.ltb_spec k (Z.to_nat i + List.length bs)); try lia.
    + reflexivity.
    + rewrite nth_error_skipn. f_equal. lia.
Qed.

Lemma peek_poke_same d i bs :
  0 <= i -> i + len bs <= len d -> peek (poke d i bs) i (len bs) = bs.
Proof.
  intros Hi Hfit. apply nth_error_ext. intros k.
  rewrite nth_error_peek, nth_error_poke by assumption.
  unfold len in *.
  destruct (Nat.ltb_spec k (Z.to_nat (Z.of_nat (List.length bs)))).
  - destruct (Nat.ltb_spec (Z.to_nat i + k) (Z.to_nat i)); [lia|].
    destruct (Nat.ltb_spec (Z.to_nat i + k) (Z.to_nat i + List.length bs));
      [|lia].
    f_equal. lia.
  - symmetry. apply nth_error_None. lia.
Qed.

Lemma peek_poke_other d i bs j n :
  0 <= j -> 0 <= n -> j + n <= i \/ i + len bs <= j ->
  peek (poke d i bs) j n = peek d j n.
Proof.
  intros Hj Hn Hdisj. unfold poke at 1.
  destruct (Z.leb_spec 0 i) as [Hi|]; [|reflexivity].
  destruct (Z.leb_spec (i + len bs) (len d)) as [Hfit|]; [|reflexivity].
  cbn [andb].
  change (firstn (Z.to_nat i) d ++ bs ++ skipn (Z.to_nat (i + len bs)) d)
    with (if (0 <=? i) && (i + len bs <=? len d)
          then firstn (Z.to_nat i) d ++ bs
               ++ skipn (Z.to_nat (i + len bs)) d
          else d) || idtac.
  apply nth_error_ext. intros k.
  rewrite !nth_error_peek.
  destruct (Nat.ltb_spec k (Z.to_nat n)); [|reflexivity].
  pose proof (nth_error_poke d i bs (Z.to_nat j + k) Hi Hfit) as E.
  unfold poke in E.
  destruct (Z.leb_spec 0 i); [|lia].
  destruct (Z.leb_spec (i + len bs) (len d)); [|lia].
  cbn [andb] in E. rewrite E. unfold len in *.
  destruct (Nat.ltb_spec (Z.to_nat j + k) (Z.to_nat i)); [reflexivity|].
  destruct (Nat.ltb_spec (Z.to_nat j + k) (Z.to_nat i + List.length bs));
    [lia|reflexivity].
Qed.

Lemma peek_app_split d i n m :
  0 <= i -> 0 <= n -> 0 <= m ->
  peek d i (n + m) = peek d i n ++ peek d (i + n) m.
Proof.
  intros Hi Hn Hm. apply nth_error_ext. intros k.
  rewrite nth_error_app, !nth_error_peek.
  assert (Hl : List.length (peek d i n)
               = Init.Nat.min (Z.to_nat n) (List.length d - Z.to_nat i)).
  { unfold peek. now rewrite length_firstn, length_skipn. }
  rewrite Hl.
  destruct (Nat.ltb_spec k (Z.to_nat (n + m)));
    destruct (Nat.ltb_spec k
                (Init.Nat.min (Z.to_nat n) (List.length d - Z.to_nat i)));
    destruct (Nat.ltb_spec k (Z.to_nat n));
    destruct (Nat.ltb_spec
                (k - Init.Nat.min (Z.to_nat n) (List.length d - Z.to_nat i))
                (Z.to_nat m));
    try lia; try reflexivity.
  all: destruct (Nat.ltb_spec (Z.to_nat i + k) (List.length d));
    [ first [ lia | f_equal; lia ]
    | transitivity (@None Z);
      [ apply nth_error_None; lia
      | first [ reflexivity | symmetry; apply nth_error_None; lia ] ] ].
Qed.

Lemma peek_peek d L i n :
  0 <= i -> 0 <= n -> i + n <= L ->
  peek (peek d 0 L) i n = peek d i n.
Proof.
  intros Hi Hn HL. apply nth_error_ext. intros k.
  rewrite !nth_error_peek.
  destruct (Nat.ltb_spec k (Z.to_nat n)); [|reflexivity].
  destruct (Nat.ltb_spec (Z.to_nat i + k) (Z.to_nat L)); [|lia].
  reflexivity.
Qed.

Lemma peek_sub d i m j n :
  0 <= i -> 0 <= j -> 0 <= n -> j + n <= m ->
  peek (peek d i m) j n = peek d (i + j) n.
Proof.
  intros Hi Hj Hn Hm. apply nth_error_ext. intros k.
  rewrite !nth_error_peek.
  destruct (Nat.ltb_spec k (Z.to_nat n)); [|reflexivity].
  destruct (Nat.ltb_spec (Z.to_nat j + k) (Z.to_nat m)); [|lia].
  f_equal. lia.
Qed.

Lemma byte_at_peek d i n j :
  0 <= i -> 0 <= j < n ->
  byte_at (peek d i n) j = byte_at d (i + j).
Proof.
  intros Hi Hj. unfold byte_at.
  destruct (Z.ltb_spec j 0); [lia|].
  destruct (Z.ltb_spec (i + j) 0); [lia|].
  f_equal.
  pose proof (nth_error_peek d i n (Z.to_nat j)) as E.
  destruct (Nat.ltb_spec (Z.to_nat j) (Z.to_nat n)); [|lia].
  replace (Z.to_nat (i + j)) with (Z.to_nat i + Z.to_nat j)%nat by lia.
  destruct (nth_error d (Z.to_nat i + Z.to_nat j)) eqn:F.
  - rewrite (nth_error_nth _ _ 0 E), (nth_error_nth _ _ 0 F). reflexivity.
  - rewrite (nth_error_nth_None _ _ 0 E), (nth_error_nth_None _ _ 0 F).
    reflexivity.
Qed.

End Buffers.


(** * Stream lemmas *)

Section Streams.

Lemma to_uint16_small (v : Z) : 0 <= v <= 0xFFFF -> to_uint16 v = v.
Proof.
  intros H. unfold to_uint16. change 0xFFFF with (Z.ones 16).
  rewrite Z.land_ones by lia. apply Z.mod_small. change (2 ^ 16) with 65536.
  lia.
Qed.

Lemma to_uint32_small (v : Z) : 0 <= v <= 0xFFFFFFFF -> to_uint32 v = v.
Proof.
  intros H. unfold to_uint32. change 0xFFFFFFFF with (Z.ones 32).
  rewrite Z.land_ones by lia. apply Z.mod_small.
  change (2 ^ 32) with 4294967296. lia.
Qed.

Lemma land_0xFF_small (v : Z) : 0 <= v <= 0xFF -> Z.land v 0xFF = v.
Proof.
  intros H. change 0xFF with (Z.ones 8).
  rewrite Z.land_ones by lia. apply Z.mod_small. change (2 ^ 8) with 256.
  lia.
Qed.

Lemma land_0xFF_range (v : Z) : 0 <= Z.land v 0xFF <= 0xFF.
Proof.
  change 0xFF with (Z.ones 8) at 1 2.
  rewrite Z.land_ones by lia. change (2 ^ 8) with 256.
  pose proof (Z.mod_pos_bound v 256). lia.
Qed.

Lemma byte_at_range (d : list Z) (i : Z) : 0 <= byte_at d i <= 0xFF.
Proof.
  unfold byte_at. destruct (i <? 0); [lia|apply land_0xFF_range].
Qed.

(** What a store at the cursor does. *)
Lemma stream_put_spec (s : STREAM) (bs : list Z) :
  0 <= s_p s -> s_p s + len bs <= len (s_data s) ->
  s_p (stream_put s bs) = s_p s + len bs
  /\ s_size (stream_put s bs) = s_size s
  /\ len (s_data (stream_put s bs)) = len (s_data s)
  /\ peek (s_data (stream_put s bs)) (s_p s) (len bs) = bs
  /\ forall j n, 0 <= j -> 0 <= n ->
       j + n <= s_p s \/ s_p s + len bs <= j ->
       peek (s_data (stream_put s bs)) j n = peek (s_data s) j n.
Proof.
  intros Hp Hfit. unfold stream_put. cbn [s_p s_size s_data].
  repeat split.
  - apply len_poke.
  - now apply peek_poke_same.
  - intros. now apply peek_poke_other.
Qed.

Lemma stream_store_spec (s : STREAM) (off : Z) (bs : list Z) :
  s_p (stream_store s off bs) = s_p s
  /\ s_size (stream_store s off bs) = s_size s
  /\ len (s_data (stream_store s off bs)) = len (s_data s)
  /\ (0 <= off -> off + len bs <= len (s_data s) ->
      peek (s_data (stream_store s off bs)) off (len bs) = bs)
  /\ forall j n, 0 <= j -> 0 <= n ->
       j + n <= off \/ off + len bs <= j ->
       peek (s_data (stream_store s off bs)) j n = peek (s_data s) j n.
Proof.
  unfold stream_store. cbn [s_p s_size s_data].
  repeat split.
  - apply len_poke.
  - intros. now apply peek_poke_same.
  - intros. now apply peek_poke_other.
Qed.

Lemma byte_at_of_peek2 (d : list Z) (i x y : Z) :
  0 <= i -> peek d i 2 = [x; y] ->
  byte_at d i = Z.land x 0xFF /\ byte_at d (i + 1) = Z.land y 0xFF.
Proof.
  intros Hi H. split.
  - rewrite <- (Z.add_0_r i), <- (byte_at_peek d i 2 0) by lia.
    rewrite H. reflexivity.
  - rewrite <- (byte_at_peek d i 2 1) by lia. rewrite H. reflexivity.
Qed.

End Streams.


(** * Integer encodings *)

Section Encodings.

Lemma be16_value (l : Z) :
  0 <= l <= 0xFFFF ->
  Z.shiftl (Z.land (Z.land (Z.shiftr l 8) 0xFF) 0xFF) 8
  + Z.land (Z.land l 0xFF) 0xFF = l.
Proof.
  intros H. change 0xFF with (Z.ones 8).
  rewrite !Z.land_ones, Z.shiftr_div_pow2, Z.shiftl_mul_pow2 by lia.
  change (2 ^ 8) with 256.
  Z.to_euclidean_division_equations. lia.
Qed.

Lemma le16_value (v : Z) :
  0 <= v <= 0xFFFF ->
  Z.land (Z.land v 0xFF) 0xFF
  + Z.shiftl (Z.land (Z.land (Z.shiftr v 8) 0xFF) 0xFF) 8 = v.
Proof. intros H. rewrite Z.add_comm. now apply be16_value. Qed.

Lemma land_pow2_small (x k : Z) :
  0 <= k -> 0 <= x < 2 ^ k -> Z.land x (2 ^ k) = 0.
Proof.
  intros Hk Hx. apply Z.bits_inj'. intros n Hn.
  rewrite Z.land_spec, Z.bits_0, Z.pow2_bits_eqb by lia.
  destruct (Z.eqb_spec k n) as [E|E]; [|apply andb_false_r].
  subst n. rewrite andb_true_r.
  destruct (Z.eq_dec x 0) as [->|Hz]; [apply Z.bits_0|].
  apply Z.bits_above_log2; [lia|]. apply Z.log2_lt_pow2; lia.
Qed.

Lemma lor_pow2_small (x k : Z) :
  0 <= k -> 0 <= x < 2 ^ k -> Z.lor x (2 ^ k) = x + 2 ^ k.
Proof.
  intros Hk Hx. pose proof (land_pow2_small x k Hk Hx) as H.
  rewrite <- Z.lxor_lor by exact H. symmetry. now apply Z.add_nocarry_lxor.
Qed.

(** The forced two-byte PER length. *)
Lemma long_length_value (l : Z) :
  0 <= l < 0x8000 ->
  let b := Z.land (Z.land (Z.shiftr (Z.lor l 0x8000) 8) 0xFF) 0xFF in
  let b2 := Z.land (Z.land (Z.lor l 0x8000) 0xFF) 0xFF in
  Z.land b 0x80 <> 0 /\ Z.shiftl (Z.land b 0x7F) 8 + b2 = l.
Proof.
  intros H b b2.
  pose proof (lor_pow2_small l 15 ltac:(lia)
                ltac:(change (2 ^ 15) with 32768; lia)) as E.
  change (2 ^ 15) with 32768 in E. change 0x8000 with 32768 in *.
  assert (Hb : b = l / 256 + 128).
  { subst b. rewrite E. change 0xFF with (Z.ones 8).
    rewrite !Z.land_ones, Z.shiftr_div_pow2 by lia. change (2 ^ 8) with 256.
    Z.to_euclidean_division_equations. lia. }
  assert (Hb2 : b2 = l mod 256).
  { subst b2. rewrite E. change 0xFF with (Z.ones 8).
    rewrite !Z.land_ones by lia. change (2 ^ 8) with 256.
    Z.to_euclidean_division_equations. lia. }
  assert (Hx : 0 <= l / 256 < 128)
    by (Z.to_euclidean_division_equations; lia).
  pose proof (lor_pow2_small (l / 256) 7 ltac:(lia) Hx) as E7.
  pose proof (land_pow2_small (l / 256) 7 ltac:(lia) Hx) as L7.
  change (2 ^ 7) with 128 in *.
  rewrite Hb, Hb2, <- E7. split.
  - change 0x80 with 128. rewrite Z.land_lor_distr_l, L7. discriminate.
  - rewrite E7. change 0x7F with (Z.ones 7).
    rewrite Z.land_ones, Z.shiftl_mul_pow2 by lia.
    change (2 ^ 7) with 128. change (2 ^ 8) with 256.
    Z.to_euclidean_division_equations. lia.
Qed.

(** The type nibble survives the [| 0x10] of the writer and the [& 0x0F]
    of the reader. *)
Lemma type_nibble (t : Z) :
  0 <= t <= 15 -> Z.land (Z.lor t 0x10) 0x0F = t /\ Z.lor t 0x10 = t + 16.
Proof.
  intros H.
  pose proof (lor_pow2_small t 4 ltac:(lia)
                ltac:(change (2 ^ 4) with 16; lia)) as E.
  change (2 ^ 4) with 16 in E. change 0x10 with 16. rewrite E.
  split; [|reflexivity].
  change 0x0F with (Z.ones 4). rewrite Z.land_ones by lia.
  change (2 ^ 4) with 16. Z.to_euclidean_division_equations. lia.
Qed.

(** Typed reads, from the bytes at the cursor. *)
Lemma stream_read_uint16_le16 (s : STREAM) (v : Z) :
  0 <= s_p s -> 0 <= v <= 0xFFFF ->
  region s (s_p s) 2 = le16 v ->
  stream_read_uint16 s = (v, stream_seek s 2).
Proof.
  intros Hp Hv H. unfold stream_read_uint16.
  destruct (byte_at_of_peek2 (s_data s) (s_p s) _ _ Hp H) as (E0 & E1).
  rewrite E0, E1. now rewrite le16_value.
Qed.

End Encodings.


(** * Properties *)

Section Properties.

Context {Transport Ext : Type}.
Variable X : Externals Transport Ext.

Local Abbreviation rdpRdp := (rdpRdp Transport Ext).
Local Abbreviation World := (World Transport Ext).

(** Level 10 is above [LLOG_LEVEL]: nothing is printed. *)
Lemma LLOGLN_quiet (msg : string) (w : World) : LLOGLN 10 msg w = w.
Proof. reflexivity. Qed.

(** ** The sticky security flags *)

Lemma rdp_security_stream_out_clears (r : rdpRdp) (s : STREAM) (length : Z) :
  sec_flags (snd (fst (rdp_security_stream_out X r s length))) = 0.
Proof.
  unfold rdp_security_stream_out.
  destruct (sec_flags r =? 0) eqn:E; simpl.
  - now apply Z.eqb_eq.
  - repeat match goal with
           | |- context [let '(_, _) := ?e in _] => destruct e
           | |- context [if ?b then _ else _] => destruct b
           end; reflexivity.
Qed.

Ltac sender_clears :=
  match goal with
  | |- context [rdp_security_stream_out X ?r ?s ?l] =>
      let Hc := fresh "Hc" in
      pose proof (rdp_security_stream_out_clears r s l) as Hc;
      destruct (rdp_security_stream_out X r s l) as [[? ?] ?];
      simpl in Hc;
      match goal with
      | |- context [transport_write X ?t ?s'] =>
          destruct (transport_write X t s') as [? ?]
      end;
      match goal with
      | |- context [if ?b then _ else _] => destruct b
      end; simpl; intros; try discriminate; exact Hc
  end.

(** C3.  After a send that reports success, be it [rdp_send], [rdp_send_pdu]
    or [rdp_send_data_pdu], the session's staged [sec_flags] are zero,
    whatever they were when the send began. *)
Theorem sec_flags_zero_after_successful_send
  (r : rdpRdp) (s : STREAM) (type channel_id : Z) :
  (fst (fst (rdp_send X r s channel_id)) = true ->
   sec_flags (snd (fst (rdp_send X r s channel_id))) = 0)
  /\ (fst (fst (rdp_send_pdu X r s type channel_id)) = true ->
      sec_flags (snd (fst (rdp_send_pdu X r s type channel_id))) = 0)
  /\ (fst (fst (rdp_send_data_pdu X r s type channel_id)) = true ->
      sec_flags (snd (fst (rdp_send_data_pdu X r s type channel_id))) = 0).
Proof.
  repeat split.
  - unfold rdp_send. sender_clears.
  - unfold rdp_send_pdu. sender_clears.
  - unfold rdp_send_data_pdu. sender_clears.
Qed.

(** ** Share Control header: the short form *)

(** C6.  When the Share Control header (its two fields, four bytes) is in
    the stream and declares a [totalLength] of at most 4, the reader
    succeeds, returns the declared length, the low four bits of the
    [pduType] field and channel id 0, and the cursor has moved by exactly
    four bytes: no [pduSource] is read. *)
Theorem short_share_control_header
  (s : STREAM) (type channel_id : Z) :
  let declared := fst (stream_read_uint16 s) in
  let field := fst (stream_read_uint16 (stream_seek s 2)) in
  4 <= stream_get_left s ->
  declared <= 4 ->
  rdp_read_share_control_header s type channel_id
  = (true, stream_seek s 4, declared, Z.land field 0x0F, 0).
Proof.
  intros declared field Hleft Hdecl.
  unfold rdp_read_share_control_header.
  subst declared field.
  unfold stream_read_uint16, stream_get_left, stream_seek in *.
  cbn [fst snd s_data s_p s_size] in *.
  set (lo := byte_at (s_data s) (s_p s)) in *.
  set (hi := Z.shiftl (byte_at (s_data s) (s_p s + 1)) 8) in *.
  destruct (Z.gtb_spec (lo + hi - 2) (s_size s - (s_p s + 2))) as [Hgt|_];
    [lia|].
  destruct (Z.gtb_spec (lo + hi) 4) as [Hgt|_]; [lia|].
  replace (s_p s + 2 + 2) with (s_p s + 4) by lia.
  replace (s_p s + 2 + 1) with (s_p s + 3) by lia.
  reflexivity.
Qed.

(** The reader on the six bytes of a full Share Control header. *)
Lemma rdp_read_share_control_header_bytes
  (s : STREAM) (length type source t c : Z) :
  0 <= s_p s -> 4 < length <= 0xFFFF -> length <= stream_get_left s ->
  0 <= type <= 15 -> 0 <= source <= 0xFFFF ->
  region s (s_p s) 6 = le16 length ++ le16 (Z.lor type 0x10) ++ le16 source ->
  rdp_read_share_control_header s t c
  = (true, stream_seek s 6, length, type, source).
Proof.
  intros Hp Hl Hleft Ht Hs H. unfold region in H.
  destruct (type_nibble type Ht) as (Hnib & Hsum).
  assert (H1 : peek (s_data s) (s_p s) 2 = le16 length
               /\ peek (s_data s) (s_p s + 2) 2 = le16 (Z.lor type 16)
               /\ peek (s_data s) (s_p s + 2 + 2) 2 = le16 source).
  { rewrite <- (Z.add_0_r (s_p s)) at 1.
    replace (s_p s + 2 + 2) with (s_p s + 4) by lia.
    rewrite <- !(peek_sub (s_data s) (s_p s) 6) by lia.
    rewrite H. repeat split; reflexivity. }
  destruct H1 as (R0 & R2 & R4).
  unfold rdp_read_share_control_header.
  rewrite (stream_read_uint16_le16 s length Hp ltac:(lia) R0).
  unfold stream_get_left in *. cbn [stream_seek s_size s_p].
  destruct (Z.gtb_spec (length - 2) (s_size s - (s_p s + 2))); [lia|].
  rewrite (stream_read_uint16_le16 (stream_seek s 2) (Z.lor type 16));
    [|cbn [stream_seek s_p]; lia|rewrite Hsum; lia|exact R2].
  rewrite Hnib.
  destruct (Z.gtb_spec length 4); [|lia].
  rewrite (stream_read_uint16_le16 (stream_seek (stream_seek s 2) 2) source);
    [|cbn [stream_seek s_p]; lia|lia|exact R4].
  unfold stream_seek. cbn [s_data s_p s_size].
  replace (s_p s + 2 + 2 + 2) with (s_p s + 6) by lia. reflexivity.
Qed.


(** ** DisconnectProviderUltimatum *)

(** C8.  When the MCS header reader reports DisconnectProviderUltimatum,
    the declared length fits the stream and the PER enumerated reason is
    readable, [rdp_read_header] succeeds, latches [disconnect] and returns
    channel id 1003; [rdp_recv_tpkt_pdu] then fails on the latch: the
    cursor stays where [rdp_read_header] left it, and nothing but the
    [disconnect] line is added to the trace. *)
Theorem disconnect_provider_ultimatum
  (fuel : nat) (w : World) (s s1 s2 : STREAM) (u : TpktLocals)
  (length reason : Z) :
  mcs_read_domain_mcspdu_header X s
    (if server_mode (settings (rdp w))
     then DomainMCSPDU_SendDataRequest else DomainMCSPDU_SendDataIndication)
    (u_length u)
  = (true, s1, DomainMCSPDU_DisconnectProviderUltimatum, length) ->
  length - 8 <= stream_get_left s1 ->
  per_read_enumerated X s1 0 = (true, s2, reason) ->
  let w' := with_rdp w (set_disconnect (rdp w) true) in
  rdp_read_header X w s (u_length u) (u_channelId u)
  = (true, w', s2, length, MCS_GLOBAL_CHANNEL_ID)
  /\ disconnect (rdp w') = true
  /\ rdp_recv_tpkt_pdu X fuel w s u
     = Some (false, emit (Print "rdp_recv_tpkt_pdu: disconnect") w', s2).
Proof.
  intros Hmcs Hlen Hper w'.
  assert (Hhdr : forall v : World,
             trace v = trace w -> rdp v = rdp w ->
             rdp_read_header X v s (u_length u) (u_channelId u)
             = (true, with_rdp v (set_disconnect (rdp v) true), s2, length,
                MCS_GLOBAL_CHANNEL_ID)).
  { intros v Ht Hr. unfold rdp_read_header. rewrite Hr, Hmcs. simpl.
    destruct (Z.gtb_spec (length - 8) (stream_get_left s1)); [lia|].
    rewrite Hper. reflexivity. }
  split; [apply Hhdr; reflexivity|].
  split; [reflexivity|].
  unfold rdp_recv_tpkt_pdu.
  replace (LLOGLN 10 "rdp_recv_tpkt_pdu:" w) with w by reflexivity.
  rewrite Hhdr by reflexivity. reflexivity.
Qed.

(** ** Data PDUs: the Share Data header read is not checked *)

Lemma rdp_read_share_data_header_short (s : STREAM) (h : ShareDataHeader) :
  stream_get_left s < 12 ->
  rdp_read_share_data_header s h = (false, s, h).
Proof.
  intros H. unfold rdp_read_share_data_header.
  destruct (Z.ltb_spec (stream_get_left s) 12); [reflexivity|lia].
Qed.

(** C9.  With fewer than 12 bytes left the Share Data header read reports
    failure and assigns nothing; [rdp_recv_data_pdu] drops that result and
    goes on to decompress and dispatch on what its local variables held on
    entry; unless that content asks for decompression (which may fail), it
    returns success. *)
Theorem rdp_recv_data_pdu_ignores_header_failure
  (w : World) (s : STREAM) (uninit : ShareDataHeader) :
  stream_get_left s < 12 ->
  rdp_read_share_data_header s uninit = (false, s, uninit)
  /\ rdp_recv_data_pdu X w s uninit
     = rdp_recv_data_pdu_dispatch X w s uninit
  /\ (Z.land (sd_compressed_type uninit) PACKET_COMPRESSED = 0 ->
      rdp_recv_data_pdu X w s uninit
      = (true,
         fst (rdp_recv_data_pdu_switch X w s (sd_type uninit)),
         snd (rdp_recv_data_pdu_switch X w s (sd_type uninit)))).
Proof.
  intros H.
  pose proof (rdp_read_share_data_header_short s uninit H) as Hr.
  split; [exact Hr|].
  assert (Hd : rdp_recv_data_pdu X w s uninit
               = rdp_recv_data_pdu_dispatch X w s uninit).
  { unfold rdp_recv_data_pdu. rewrite Hr. reflexivity. }
  split; [exact Hd|].
  intros Hc. rewrite Hd. unfold rdp_recv_data_pdu_dispatch.
  rewrite Hc. simpl.
  destruct (rdp_recv_data_pdu_switch X w s (sd_type uninit)); reflexivity.
Qed.


Lemma region_stream_rewrite (s : STREAM) (off n : Z) (out : list Z) :
  0 <= off ->
  region (stream_rewrite s off n out) off n = fit (len (region s off n)) out.
Proof.
  intros Hoff. unfold stream_rewrite, stream_store, region. cbn [s_data].
  set (d := s_data s).
  set (bs := fit (len (peek d off n)) out).
  assert (Hbs : len bs = len (peek d off n)).
  { subst bs. rewrite len_fit. pose proof (len_nonneg (peek d off n)). lia. }
  assert (Hq : List.length (peek d off n)
               = Init.Nat.min (Z.to_nat n) (List.length d - Z.to_nat off)).
  { unfold peek. now rewrite length_firstn, length_skipn. }
  destruct (Z.le_gt_cases off (len d)) as [Hin|Hout].
  - apply nth_error_ext. intros k.
    rewrite nth_error_peek, nth_error_poke
      by (try assumption; rewrite Hbs; unfold len in *; lia).
    unfold len in *.
    destruct (Nat.ltb_spec k (Z.to_nat n)).
    + destruct (Nat.ltb_spec (Z.to_nat off + k) (Z.to_nat off)); [lia|].
      destruct (Nat.ltb_spec (Z.to_nat off + k)
                  (Z.to_nat off + List.length bs)).
      * f_equal. lia.
      * transitivity (@None Z); [|symmetry]; apply nth_error_None; lia.
    + symmetry. apply nth_error_None. lia.
  - assert (E : peek d off n = []).
    { apply length_zero_iff_nil. unfold len in *. lia. }
    assert (Eb : bs = []).
    { apply length_zero_iff_nil. unfold len in *. rewrite E in Hbs.
      cbn in Hbs. lia. }
    rewrite Eb. unfold poke.
    destruct (Z.leb_spec (off + len []) (len d)) as [Hc|_].
    + cbn in Hc. lia.
    + rewrite andb_false_r. exact E.
Qed.

(** ** The security envelope, inbound *)

(** In FIPS mode a failed decryption makes [rdp_decrypt] fail. *)
Lemma rdp_decrypt_fips_decrypt_failure
  (w : World) (s : STREAM) (length securityFlags : Z) :
  encryption_method (settings (rdp w)) = ENCRYPTION_METHOD_FIPS ->
  let s12 := stream_seek s 12 in
  fst (fst (security_fips_decrypt X (rdp w)
              (region s12 (s_p s12) (length - 12)))) = false ->
  fst (fst (rdp_decrypt X w s length securityFlags)) = false.
Proof.
  intros Hf s12 Hd. unfold rdp_decrypt.
  replace (LLOGLN 10 "rdp_decrypt:" w) with w by reflexivity.
  rewrite Hf. cbn [Z.eqb ENCRYPTION_METHOD_FIPS Pos.eqb].
  unfold stream_read_uint16, stream_read_uint8, stream_seek, region in *.
  cbn [fst snd s_data s_p s_size] in *.
  subst s12. cbn [s_data s_p] in Hd.
  replace (s_p s + 2 + 1 + 1 + 8) with (s_p s + 12) by lia.
  destruct (security_fips_decrypt X (rdp w)
              (peek (s_data s) (s_p s + 12) (length - 12)))
    as [[ok r] out].
  cbn in Hd. subst ok. reflexivity.
Qed.

(** In FIPS mode a signature that does not verify makes [rdp_decrypt]
    fail. *)
Lemma rdp_decrypt_fips_signature_failure
  (w : World) (s : STREAM) (length securityFlags : Z) :
  encryption_method (settings (rdp w)) = ENCRYPTION_METHOD_FIPS ->
  let pad := byte_at (s_data s) (s_p s + 3) in
  let s12 := stream_seek s 12 in
  let dec := security_fips_decrypt X (rdp w)
               (region s12 (s_p s12) (length - 12)) in
  let s' := stream_rewrite s12 (s_p s12) (length - 12) (snd dec) in
  fst (security_fips_check_signature X (snd (fst dec))
         (region s' (s_p s') (length - 12 - pad))
         (region s' (s_p s + 4) 8)) = false ->
  fst (fst (rdp_decrypt X w s length securityFlags)) = false.
Proof.
  intros Hf pad s12 dec s' Hsig. unfold rdp_decrypt.
  replace (LLOGLN 10 "rdp_decrypt:" w) with w by reflexivity.
  rewrite Hf. cbn [Z.eqb ENCRYPTION_METHOD_FIPS Pos.eqb].
  unfold stream_read_uint16, stream_read_uint8, stream_seek in *.
  cbn [fst snd s_data s_p s_size] in *.
  subst s' dec s12 pad.
  replace (s_p s + 2 + 1 + 1 + 8) with (s_p s + 12) by lia.
  replace (s_p s + 2 + 1 + 1) with (s_p s + 4) by lia.
  replace (s_p s + 2 + 1) with (s_p s + 3) by lia.
  cbn [s_p s_data region] in *.
  destruct (security_fips_decrypt X (rdp w)
              (region
                 {| s_data := s_data s; s_p := s_p s + 12;
                    s_size := s_size s |} (s_p s + 12) (length - 12)))
    as [[ok r] out].
  cbn [fst snd] in Hsig.
  destruct ok; [|reflexivity].
  cbn [negb with_rdp rdp].
  match goal with
  | |- context [security_fips_check_signature X ?a ?b ?c] =>
      destruct (security_fips_check_signature X a b c) as [ok2 r2] eqn:E
  end.
  cbn in Hsig. subst ok2. reflexivity.
Qed.

(** A failing [rdp_decrypt] makes the TPKT receive fail. *)
Lemma rdp_recv_tpkt_pdu_decrypt_failure
  (fuel : nat) (w w1 : World) (s s1 : STREAM) (u : TpktLocals)
  (length channelId : Z) :
  rdp_read_header X w s (u_length u) (u_channelId u)
  = (true, w1, s1, length, channelId) ->
  disconnect (rdp w1) = false ->
  encryption (settings (rdp w1)) = true ->
  let flags := fst (rdp_read_security_header s1) in
  let s2 := snd (rdp_read_security_header s1) in
  Z.land flags (Z.lor SEC_ENCRYPT SEC_REDIRECTION_PKT) <> 0 ->
  fst (fst (rdp_decrypt X w1 s2 (length - 4) flags)) = false ->
  exists w' s',
    rdp_recv_tpkt_pdu X fuel w s u = Some (false, w', s').
Proof.
  intros Hh Hd He flags s2 Hfl Hdec. unfold rdp_recv_tpkt_pdu.
  replace (LLOGLN 10 "rdp_recv_tpkt_pdu:" w) with w by reflexivity.
  rewrite Hh. cbn [negb].
  replace (LLOGLN 10 "rdp_recv_tpkt_pdu: length %d" w1) with w1
    by reflexivity.
  rewrite Hd, He.
  subst flags s2.
  destruct (rdp_read_security_header s1) as [fl s2]. cbn [fst snd] in *.
  replace (LLOGLN 10 "rdp_recv_tpkt_pdu: securityFlags 0x%8.8x" w1)
    with w1 by reflexivity.
  destruct (Z.eqb_spec (Z.land fl (Z.lor SEC_ENCRYPT SEC_REDIRECTION_PKT)) 0)
    as [E|_]; [contradiction|].
  cbn [negb].
  destruct (rdp_decrypt X w1 s2 (length - 4) fl) as [[ok w2] s3].
  cbn in Hdec. subst ok. cbn [negb]. eauto.
Qed.

(** The fast-path receive does not look at what [rdp_decrypt] returns: for
    an encrypted fast-path PDU the result is that of
    [fastpath_recv_updates] on the world and stream [rdp_decrypt] left. *)
Lemma rdp_recv_fastpath_pdu_encrypted
  (w : World) (s s1 : STREAM) (r1 : rdpRdp) (length : Z) :
  fastpath_read_header_rdp X (rdp w) s = (length, r1, s1) ->
  to_uint16 length <> 0 ->
  to_uint16 length <= stream_get_left s1 ->
  Z.land (fastpath_encryptionFlags r1) FASTPATH_OUTPUT_ENCRYPTED <> 0 ->
  let securityFlags :=
    if negb (Z.land (fastpath_encryptionFlags r1)
               FASTPATH_OUTPUT_SECURE_CHECKSUM =? 0)
    then SEC_SECURE_CHECKSUM else 0 in
  let d := rdp_decrypt X (with_rdp w r1) s1 (to_uint16 length)
             securityFlags in
  rdp_recv_fastpath_pdu X w s
  = invoke X fastpath_recv_updates 0 (snd (fst d)) (snd d).
Proof.
  intros Hh Hnz Hle Henc securityFlags d. unfold rdp_recv_fastpath_pdu.
  rewrite !LLOGLN_quiet, Hh, LLOGLN_quiet.
  destruct (Z.eqb_spec (to_uint16 length) 0) as [E|_]; [contradiction|].
  destruct (Z.gtb_spec (to_uint16 length) (stream_get_left s1)) as [E|_];
    [lia|].
  cbn [orb with_rdp rdp].
  destruct (Z.eqb_spec
              (Z.land (fastpath_encryptionFlags r1)
                 FASTPATH_OUTPUT_ENCRYPTED) 0) as [E|_]; [contradiction|].
  cbn [negb]. subst d securityFlags. unfold with_rdp.
  match goal with
  | |- context [rdp_decrypt X ?a ?b ?c ?e] =>
      destruct (rdp_decrypt X a b c e) as [[ok w2] s2]
  end.
  rewrite LLOGLN_quiet. reflexivity.
Qed.

(** C2.  Outside FIPS mode a MAC that does not match is not fatal:
    [rdp_decrypt] returns success, the only trace it leaves is the printed
    warning, and the stream it hands back has the cursor on the payload,
    which holds what [security_decrypt] produced.  The computed MAC is the
    salted or the unsalted one according to [SEC_SECURE_CHECKSUM]. *)
Theorem legacy_mac_mismatch_not_fatal
  (w : World) (s : STREAM) (length securityFlags : Z) :
  encryption_method (settings (rdp w)) <> ENCRYPTION_METHOD_FIPS ->
  0 <= s_p s ->
  let wmac := region s (s_p s) 8 in
  let s8 := stream_seek s 8 in
  let n := length - 8 in
  let cipher := region s8 (s_p s8) n in
  let dec := security_decrypt X (rdp w) cipher in
  let s' := stream_rewrite s8 (s_p s8) n (snd dec) in
  let sig :=
    if negb (Z.land (to_uint16 securityFlags) SEC_SECURE_CHECKSUM =? 0)
    then security_salted_mac_signature X (fst dec)
           (region s' (s_p s') n) false
    else security_mac_signature X (fst dec) (region s' (s_p s') n) in
  fit 8 wmac <> fit 8 (snd sig) ->
  rdp_decrypt X w s length securityFlags
  = (true,
     emit (Print "WARNING: invalid packet signature non-FIPS")
       (with_rdp w (fst sig)),
     s')
  /\ s_p s' = s_p s + 8
  /\ region s' (s_p s') n = fit (len cipher) (snd dec).
Proof.
  intros Hm Hp wmac s8 n cipher dec s' sig Hneq.
  split; [|split].
  - unfold rdp_decrypt. rewrite LLOGLN_quiet.
    destruct (Z.eqb_spec (encryption_method (settings (rdp w)))
                ENCRYPTION_METHOD_FIPS) as [E|_]; [contradiction|].
    unfold stream_read. change (peek (s_data s) (s_p s) 8) with wmac.
    fold s8. fold n. fold cipher.
    change (security_decrypt X (rdp w) cipher) with dec.
    destruct dec as [r1 out] eqn:Ed.
    change (snd (r1, out)) with out in s'.
    change (fst (r1, out)) with r1 in sig.
    fold s'. fold sig.
    destruct sig as [r2 cmac] eqn:Es.
    cbn [snd fst] in *.
    destruct (list_eq_dec Z.eq_dec (fit 8 wmac) (fit 8 cmac)) as [E|_];
      [contradiction|].
    reflexivity.
  - reflexivity.
  - subst s'. cbn [stream_rewrite stream_store s_p].
    apply region_stream_rewrite. subst s8. cbn. lia.
Qed.

(** ** Frame acknowledge *)

Lemma rdp_security_stream_init_user_id (r : rdpRdp) (s : STREAM) :
  mcs_user_id (fst (rdp_security_stream_init r s)) = mcs_user_id r.
Proof.
  unfold rdp_security_stream_init.
  destruct (do_crypt r).
  - cbn. destruct (do_secure_checksum r); reflexivity.
  - destruct (sec_flags r =? 0); reflexivity.
Qed.

Lemma rdp_data_pdu_init_user_id (r : rdpRdp) :
  mcs_user_id (fst (rdp_data_pdu_init X r)) = mcs_user_id r.
Proof.
  unfold rdp_data_pdu_init.
  destruct (transport_send_stream_init X (transport r) 2048) as [t s].
  pose proof (rdp_security_stream_init_user_id (set_transport r t)
                (stream_seek s RDP_PACKET_HEADER_MAX_LENGTH)) as H.
  destruct (rdp_security_stream_init (set_transport r t)
              (stream_seek s RDP_PACKET_HEADER_MAX_LENGTH)) as [r1 s1].
  exact H.
Qed.

Lemma len_le32 (v : Z) : len (le32 v) = 4.
Proof. reflexivity. Qed.

(** C10.  With [frame_acknowledge] zero [rdp_send_frame_ack] returns 0 and
    leaves the session as it was (no stream is taken from the transport,
    nothing is written).  Otherwise it takes a Data PDU stream, writes the
    32-bit [frame] as the body and hands it to [rdp_send_data_pdu] with
    type 56 and the session's [user_id]; it returns 0 whatever the send
    returned. *)
Theorem rdp_send_frame_ack_behaviour (r : rdpRdp) (frame : Z) :
  (frame_acknowledge (settings r) = 0 ->
   rdp_send_frame_ack X r frame = (0, r))
  /\ (frame_acknowledge (settings r) <> 0 ->
      let r1 := fst (rdp_data_pdu_init X r) in
      let s0 := snd (rdp_data_pdu_init X r) in
      let s1 := stream_write_uint32 s0 frame in
      rdp_send_frame_ack X r frame
      = (0, snd (fst (rdp_send_data_pdu X r1 s1 56 (mcs_user_id r))))
      /\ stream_get_length s1 = stream_get_length s0 + 4
      /\ (0 <= s_p s0 -> s_p s0 + 4 <= len (s_data s0) ->
          region s1 (s_p s0) 4 = le32 frame)).
Proof.
  split.
  - intros H. unfold rdp_send_frame_ack. rewrite H. reflexivity.
  - intros H r1 s0 s1. split; [|split].
    + unfold rdp_send_frame_ack.
      destruct (Z.eqb_spec (frame_acknowledge (settings r)) 0) as [E|_];
        [contradiction|].
      pose proof (rdp_data_pdu_init_user_id r) as Hu.
      subst s1 s0 r1.
      destruct (rdp_data_pdu_init X r) as [r1 s0]. cbn [fst snd] in *.
      rewrite Hu.
      destruct (rdp_send_data_pdu X r1 (stream_write_uint32 s0 frame) 56
                  (mcs_user_id r)) as [[ok r2] s2].
      reflexivity.
    + reflexivity.
    + intros H0 H4. subst s1.
      unfold stream_write_uint32, stream_put, region. cbn [s_data].
      pose proof (peek_poke_same (s_data s0) (s_p s0) (le32 frame) H0) as P.
      rewrite len_le32 in P. apply P. assumption.
Qed.


(** ** The Share Control PDUs of one envelope *)

Section Envelope.

Hypothesis polite : polite_collaborators X.

Lemma invoke_polite (c : Collaborator) (a : Z) (w : World) (s : STREAM) :
  s_data (snd (invoke X c a w s)) = s_data s
  /\ s_size (snd (invoke X c a w s)) = s_size s
  /\ pdu_source (settings (rdp (snd (fst (invoke X c a w s)))))
     = pdu_source (settings (rdp w)).
Proof.
  destruct polite as (Hh & _ & _). specialize (Hh c a (rdp w) s).
  unfold invoke. destruct (handler X c a (rdp w) s) as [[ok r'] s'].
  exact Hh.
Qed.

Lemma rdp_recv_data_pdu_switch_polite (w : World) (s : STREAM) (type : Z) :
  s_data (snd (rdp_recv_data_pdu_switch X w s type)) = s_data s
  /\ s_size (snd (rdp_recv_data_pdu_switch X w s type)) = s_size s
  /\ pdu_source (settings (rdp (fst (rdp_recv_data_pdu_switch X w s type))))
     = pdu_source (settings (rdp w)).
Proof.
  unfold rdp_recv_data_pdu_switch.
  repeat match goal with
         | |- context [if ?b then _ else _] => destruct b
         end;
    try match goal with
        | |- context [invoke X ?c 0 w s] =>
            pose proof (invoke_polite c 0 w s) as H;
            destruct (invoke X c 0 w s) as [[ok w'] s']; exact H
        end.
  - unfold rdp_recv_set_error_info_data_pdu, stream_read_uint32.
    cbn [fst snd with_rdp rdp].
    destruct (negb _); cbn; repeat split; reflexivity.
  - repeat split; reflexivity.
Qed.

Lemma rdp_read_share_data_header_buffer (s : STREAM) (h : ShareDataHeader) :
  s_data (snd (fst (rdp_read_share_data_header s h))) = s_data s
  /\ s_size (snd (fst (rdp_read_share_data_header s h))) = s_size s.
Proof.
  unfold rdp_read_share_data_header.
  destruct (stream_get_left s <? 12); split; reflexivity.
Qed.

Lemma rdp_recv_data_pdu_polite (w : World) (s : STREAM)
  (u : ShareDataHeader) :
  fst (fst (rdp_recv_data_pdu X w s u)) = true
  /\ s_data (snd (rdp_recv_data_pdu X w s u)) = s_data s
  /\ s_size (snd (rdp_recv_data_pdu X w s u)) = s_size s
  /\ pdu_source (settings (rdp (snd (fst (rdp_recv_data_pdu X w s u)))))
     = pdu_source (settings (rdp w)).
Proof.
  unfold rdp_recv_data_pdu.
  destruct (rdp_read_share_data_header_buffer s u) as (Hd & Hz).
  destruct (rdp_read_share_data_header s u) as [[ok s1] h].
  cbn [fst snd] in Hd, Hz.
  unfold rdp_recv_data_pdu_dispatch.
  destruct (negb (Z.land (sd_compressed_type h) PACKET_COMPRESSED =? 0)).
  - destruct polite as (_ & Hdec & _).
    specialize (Hdec (rdp w)
                  (region s1 (s_p s1) (sd_compressed_len h - 18))
                  (sd_compressed_type h)).
    destruct (decompress_rdp X (rdp w) _ (sd_compressed_type h))
      as [[[okd r] roff] rlen].
    cbn [fst snd] in Hdec. destruct Hdec as (-> & Hsrc).
    match goal with
    | |- context [rdp_recv_data_pdu_switch X ?a ?b ?c] =>
        destruct (rdp_recv_data_pdu_switch_polite a b c) as (_ & _ & Hp);
        destruct (rdp_recv_data_pdu_switch X a b c) as [w' cs]
    end.
    cbn [fst snd with_rdp rdp] in *. repeat split; congruence.
  - destruct (rdp_recv_data_pdu_switch_polite w s1 (sd_type h))
      as (Hd' & Hz' & Hp).
    destruct (rdp_recv_data_pdu_switch X w s1 (sd_type h)) as [w' s'].
    cbn [fst snd] in *. repeat split; congruence.
Qed.

Lemma rdp_recv_tpkt_pdu_switch_polite (w : World) (s : STREAM)
  (type : Z) (u : ShareDataHeader) :
  fst (fst (rdp_recv_tpkt_pdu_switch X w s type u)) = true
  /\ s_data (snd (rdp_recv_tpkt_pdu_switch X w s type u)) = s_data s
  /\ s_size (snd (rdp_recv_tpkt_pdu_switch X w s type u)) = s_size s
  /\ pdu_source
       (settings (rdp (snd (fst (rdp_recv_tpkt_pdu_switch X w s type u)))))
     = pdu_source (settings (rdp w)).
Proof.
  unfold rdp_recv_tpkt_pdu_switch.
  destruct (type =? PDU_TYPE_DATA).
  { destruct (rdp_recv_data_pdu_polite w s u) as (Hok & H).
    destruct (rdp_recv_data_pdu X w s u) as [[ok w'] s'].
    cbn [fst snd] in *. subst ok. cbn [negb fst snd]. split; [reflexivity|].
    exact H. }
  destruct (type =? PDU_TYPE_DEACTIVATE_ALL).
  { destruct polite as (_ & _ & Hok).
    specialize (Hok 0 (rdp w) s).
    pose proof (invoke_polite rdp_recv_deactivate_all 0 w s) as H.
    unfold invoke in *.
    destruct (handler X rdp_recv_deactivate_all 0 (rdp w) s)
      as [[ok r'] s'].
    cbn [fst snd] in *. split; assumption. }
  destruct (type =? PDU_TYPE_SERVER_REDIRECTION).
  { pose proof (invoke_polite rdp_recv_enhanced_security_redirection_packet
                  0 w s) as H.
    destruct (invoke X rdp_recv_enhanced_security_redirection_packet 0 w s)
      as [[ok w'] s'].
    cbn [fst snd] in *. split; [reflexivity|exact H]. }
  repeat split; reflexivity.
Qed.

Lemma last_cons (A : Type) (x d : A) (l : list A) :
  last (x :: l) d = last l x.
Proof.
  revert x d. induction l as [|y l IH]; intros x d; [reflexivity|].
  change (last (x :: y :: l) d) with (last (y :: l) d).
  rewrite (IH y d), (IH y x). reflexivity.
Qed.

Lemma rdp_read_share_control_header_length (s : STREAM) (t c : Z) :
  0 <= snd (fst (fst (rdp_read_share_control_header s t c))).
Proof.
  unfold rdp_read_share_control_header, stream_read_uint16.
  pose proof (byte_at_range (s_data s) (s_p s)) as H0.
  pose proof (byte_at_range (s_data s) (s_p s + 1)) as H1.
  assert (H : 0 <= byte_at (s_data s) (s_p s)
                   + Z.shiftl (byte_at (s_data s) (s_p s + 1)) 8).
  { rewrite Z.shiftl_mul_pow2 by lia. lia. }
  repeat match goal with
         | |- context [if ?b then _ else _] => destruct b
         end; exact H.
Qed.

(** The loop is left, with success, as soon as fewer than 4 bytes remain. *)
Lemma rdp_recv_tpkt_pdu_loop_end
  (fuel : nat) (w : World) (s : STREAM) (t c : Z) (u : ShareDataHeader) :
  stream_get_left s <= 3 ->
  rdp_recv_tpkt_pdu_loop X fuel w s t c u = Some (true, w, s).
Proof.
  intros H.
  destruct fuel; cbn [rdp_recv_tpkt_pdu_loop];
    destruct (Z.gtb_spec (stream_get_left s) 3); try lia; reflexivity.
Qed.

(** In an envelope each PDU starts where the one before it ends, which is
    not before that one's start. *)
Lemma envelope_chain (pdus : list SharePdu) :
  forall (s : STREAM) (i : nat) (q q' : SharePdu),
    envelope s pdus ->
    nth_error pdus i = Some q -> nth_error pdus (S i) = Some q' ->
    pdu_start q' = pdu_end q /\ pdu_start q <= pdu_start q'.
Proof.
  induction pdus as [|p rest IH]; intros s i q q' He Hq Hq'.
  - destruct i; discriminate.
  - destruct He as (_ & Hst & Hrd & Hrest).
    destruct i as [|i].
    + cbn in Hq. injection Hq as <-.
      destruct rest as [|p' rest']; [discriminate|].
      cbn in Hq'. injection Hq' as <-.
      destruct Hrest as (_ & Hst' & _).
      cbn [stream_set_pos s_p] in Hst'.
      pose proof (rdp_read_share_control_header_length s 0 0) as Hl.
      rewrite (Hrd 0 0) in Hl. cbn [fst snd] in Hl.
      unfold pdu_end in *. lia.
    + exact (IH _ i q q' Hrest Hq Hq').
Qed.

(** C7.  On an envelope that reads as the PDUs [pdus], with collaborators
    that accept them, the loop of [rdp_recv_tpkt_pdu] ends with success in
    the state reached by taking the PDUs left to right, recording each
    [pduSource], dispatching each on its type and putting the cursor at its
    start plus its declared length; [settings->pdu_source] ends as the
    source of the last PDU, the cursor at the end of the last PDU, and the
    PDU starts never go backwards. *)
Theorem share_control_pdus_in_arrival_order (pdus : list SharePdu) :
  forall (fuel : nat) (w : World) (s : STREAM) (t0 c0 : Z)
         (u : ShareDataHeader),
    envelope s pdus -> (List.length pdus <= fuel)%nat ->
    rdp_recv_tpkt_pdu_loop X fuel w s t0 c0 u
    = Some (true, fst (dispatch_in_order X w s pdus u),
            snd (dispatch_in_order X w s pdus u))
    /\ pdu_source (settings (rdp (fst (dispatch_in_order X w s pdus u))))
       = last (map pdu_src pdus) (pdu_source (settings (rdp w)))
    /\ s_p (snd (dispatch_in_order X w s pdus u))
       = last (map pdu_end pdus) (s_p s)
    /\ forall (i : nat) (q q' : SharePdu),
         nth_error pdus i = Some q -> nth_error pdus (S i) = Some q' ->
         pdu_start q' = pdu_end q /\ pdu_start q <= pdu_start q'.
Proof.
  intros fuel w s t0 c0 u He Hfuel.
  refine ((fun H => conj (proj1 H)
                      (conj (proj1 (proj2 H))
                         (conj (proj2 (proj2 H))
                            (fun i q q' => envelope_chain pdus s i q q' He))))
            _).
  revert fuel w s t0 c0 He Hfuel.
  induction pdus as [|q rest IH]; intros fuel w s t0 c0 He Hfuel.
  - cbn in He. cbn [dispatch_in_order fst snd map last].
    split; [|split; reflexivity].
    now apply rdp_recv_tpkt_pdu_loop_end.
  - destruct He as (Hleft & Hst & Hrd & Hrest).
    destruct fuel as [|fuel]; [cbn in Hfuel; lia|].
    cbn [rdp_recv_tpkt_pdu_loop dispatch_in_order].
    destruct (Z.gtb_spec (stream_get_left s) 3) as [_|E]; [|lia].
    rewrite (Hrd t0 c0). unfold stream_get_mark.
    set (w1 := with_rdp w (set_pdu_source (rdp w) (pdu_src q))).
    destruct (rdp_recv_tpkt_pdu_switch_polite w1
                (stream_set_pos s (pdu_payload q)) (pdu_type q) u)
      as (Hok & Hd & Hz & Hsrc).
    destruct (rdp_recv_tpkt_pdu_switch X w1
                (stream_set_pos s (pdu_payload q)) (pdu_type q) u)
      as [[ok w2] s2].
    cbn [fst snd stream_set_pos s_data s_size] in Hok, Hd, Hz, Hsrc.
    subst ok. cbn [negb].
    assert (Es : stream_set_mark s2 (s_p s + pdu_length q)
                 = stream_set_pos s (pdu_end q)).
    { unfold stream_set_mark, stream_set_pos, pdu_end.
      rewrite Hd, Hz, Hst. reflexivity. }
    assert (Es' : stream_set_pos s2 (pdu_end q)
                  = stream_set_pos s (pdu_end q)).
    { unfold stream_set_pos. rewrite Hd, Hz. reflexivity. }
    rewrite Es, Es'.
    destruct (IH fuel w2 (stream_set_pos s (pdu_end q)) (pdu_type q)
                (pdu_src q) Hrest ltac:(cbn in Hfuel; lia))
      as (Hloop & Hps & Hcur).
    split; [exact Hloop|]. split.
    + rewrite Hps, Hsrc. cbn [map]. rewrite last_cons. reflexivity.
    + rewrite Hcur. cbn [map stream_set_pos s_p]. rewrite last_cons.
      reflexivity.
Qed.


(** On the global channel of a session without encryption
    [rdp_recv_tpkt_pdu] is its loop, entered where [rdp_read_header]
    stopped. *)
Lemma rdp_recv_tpkt_pdu_global_channel
  (fuel : nat) (w w1 : World) (s s1 : STREAM) (u : TpktLocals)
  (length : Z) :
  rdp_read_header X w s (u_length u) (u_channelId u)
  = (true, w1, s1, length, MCS_GLOBAL_CHANNEL_ID) ->
  disconnect (rdp w1) = false ->
  encryption (settings (rdp w1)) = false ->
  rdp_recv_tpkt_pdu X fuel w s u
  = rdp_recv_tpkt_pdu_loop X fuel w1 s1 (u_pduType u) (u_pduSource u)
      (u_data u).
Proof.
  intros Hh Hd He. unfold rdp_recv_tpkt_pdu.
  rewrite LLOGLN_quiet, Hh. cbn [negb].
  rewrite LLOGLN_quiet, Hd, He. reflexivity.
Qed.


End Envelope.


(** ** FIPS padding *)

Lemma fips_pad_arith (n : Z) :
  0 <= n ->
  let pad := (8 - n mod 8) mod 8 in
  to_uint32 (Z.land (8 - Z.rem n 8) 7) = pad
  /\ 0 <= pad <= 7
  /\ (n + pad) mod 8 = 0.
Proof.
  intros Hn pad.
  assert (Hb : 0 <= pad <= 7).
  { subst pad. pose proof (Z.mod_pos_bound (8 - n mod 8) 8). lia. }
  split; [|split; [exact Hb|]].
  - rewrite Z.rem_mod_nonneg by lia.
    change 7 with (Z.ones 3). rewrite Z.land_ones by lia.
    change (2 ^ 3) with 8. fold pad. apply to_uint32_small. lia.
  - subst pad. clear Hb.
    pose proof (Z.mod_pos_bound n 8 ltac:(lia)) as Hq.
    pose proof (Z.div_mod n 8 ltac:(lia)) as Hd.
    set (q := n mod 8) in *.
    destruct (Z.eq_dec q 0) as [E|E].
    + rewrite E. change ((8 - 0) mod 8) with 0.
      replace (n + 0) with (0 + n / 8 * 8) by lia.
      apply Z_mod_plus_full.
    + rewrite (Z.mod_small (8 - q)) by lia.
      replace (n + (8 - q)) with (0 + (n / 8 + 1) * 8) by lia.
      apply Z_mod_plus_full.
Qed.

Lemma rdp_write_header_length_fips (r : rdpRdp) (length : Z) :
  Z.land (sec_flags r) SEC_ENCRYPT <> 0 ->
  encryption_method (settings r) = ENCRYPTION_METHOD_FIPS ->
  31 <= length -> length + 7 <= 0xFFFF ->
  rdp_write_header_length r length
  = length + (8 - (length - 31) mod 8) mod 8.
Proof.
  intros He Hf Hlo Hhi. unfold rdp_write_header_length.
  destruct (Z.eqb_spec (Z.land (sec_flags r) SEC_ENCRYPT) 0) as [E|_];
    [contradiction|].
  rewrite Hf. cbn [negb andb]. rewrite Z.eqb_refl.
  replace (length - RDP_PACKET_HEADER_MAX_LENGTH - 16) with (length - 31)
    by (unfold RDP_PACKET_HEADER_MAX_LENGTH; lia).
  rewrite Z.rem_mod_nonneg by lia.
  pose proof (Z.mod_pos_bound (length - 31) 8 ltac:(lia)) as Hq.
  set (q := (length - 31) mod 8) in *.
  destruct (Z.eqb_spec (8 - q) 8) as [E|E]; cbn [negb].
  - replace q with 0 by lia. change ((8 - 0) mod 8) with 0. lia.
  - rewrite (Z.mod_small (8 - q)) by lia. apply to_uint16_small. lia.
Qed.


Lemma stream_put_p (s : STREAM) (bs : list Z) :
  s_p (stream_put s bs) = s_p s + len bs.
Proof. reflexivity. Qed.

(** The FIPS branch of [rdp_security_stream_out], for a stream with the
    cursor after the 15 bytes of the MCS header. *)
Lemma rdp_security_stream_out_fips (r : rdpRdp) (s : STREAM) (length : Z) :
  Z.land (sec_flags r) SEC_ENCRYPT <> 0 ->
  encryption_method (settings r) = ENCRYPTION_METHOD_FIPS ->
  s_p s = 15 -> 31 <= length -> length + 7 <= len (s_data s) ->
  let n := length - 31 in
  let pad := (8 - n mod 8) mod 8 in
  let plain := peek (s_data s) 31 n in
  let h := security_hmac_signature X r plain in
  let e := security_fips_encrypt X (fst h)
             (plain ++ repeat 0 (Z.to_nat pad)) in
  let res := rdp_security_stream_out X r s length in
  fst (fst res) = pad
  /\ snd (fst res) = set_sec_flags (fst e) 0
  /\ s_p (snd res) = 31
  /\ s_size (snd res) = s_size s
  /\ len (s_data (snd res)) = len (s_data s)
  /\ peek (s_data (snd res)) 19 4 = [0x10; 0; 1; pad]
  /\ peek (s_data (snd res)) 23 8 = fit 8 (snd h)
  /\ peek (s_data (snd res)) 31 (n + pad) = fit (n + pad) (snd e)
  /\ forall j k, 0 <= j -> 0 <= k -> j + k <= 15 ->
       peek (s_data (snd res)) j k = peek (s_data s) j k.
Proof.
  intros He Hf Hp Hlo Hfit n pad plain h e res.
  pose proof (fips_pad_arith n ltac:(subst n; lia)) as Hx. cbv zeta in Hx.
  change ((8 - n mod 8) mod 8) with pad in Hx.
  destruct Hx as (Hpad & Hb & Hm).
  subst res. unfold rdp_security_stream_out.
  destruct (Z.eqb_spec (sec_flags r) 0) as [E|_].
  { rewrite E in He. now cbn in He. }
  destruct (Z.eqb_spec (Z.land (sec_flags r) SEC_ENCRYPT) 0) as [E|_];
    [contradiction|].
  rewrite Hf, Z.eqb_refl. cbn [negb].
  unfold rdp_write_security_header, stream_write_uint16, stream_write_uint8.
  set (F := le16 (to_uint16 (sec_flags r))).
  destruct (stream_put_spec s F) as (p1 & z1 & l1 & _ & o1);
    [lia|change (len F) with 2; lia|].
  set (a1 := stream_put s F) in *. change (len F) with 2 in *.
  destruct (stream_put_spec a1 (le16 0)) as (p2 & z2 & l2 & _ & o2);
    [lia|change (len (le16 0)) with 2; lia|].
  set (a2 := stream_put a1 (le16 0)) in *. change (len (le16 0)) with 2 in *.
  assert (q2 : s_p a2 = 19) by lia.
  rewrite q2. replace (length - (19 + 12)) with n by (subst n; lia).
  change (19 + 12) with 31.
  rewrite Hpad.
  destruct (stream_put_spec a2 (le16 16)) as (p3 & z3 & l3 & s3 & o3);
    [lia|change (len (le16 16)) with 2; lia|].
  set (a3 := stream_put a2 (le16 16)) in *.
  change (len (le16 16)) with 2 in *.
  destruct (stream_put_spec a3 [Z.land 1 255]) as (p4 & z4 & l4 & s4 & o4);
    [lia|change (len [Z.land 1 255]) with 1; lia|].
  set (a4 := stream_put a3 [Z.land 1 255]) in *.
  change (len [Z.land 1 255]) with 1 in *.
  set (Zs := repeat 0 (Z.to_nat pad)).
  assert (HZ : len Zs = pad) by (subst Zs; rewrite len_repeat; lia).
  destruct (stream_store_spec a4 (31 + n) Zs) as (p5 & z5 & l5 & s5 & o5).
  set (a5 := stream_store a4 (31 + n) Zs) in *.
  specialize (s5 ltac:(lia) ltac:(lia)). rewrite HZ in *.
  destruct (stream_put_spec a5 [Z.land pad 255])
    as (p6 & z6 & l6 & s6 & o6);
    [lia|change (len [Z.land pad 255]) with 1; lia|].
  set (a6 := stream_put a5 [Z.land pad 255]) in *.
  change (len [Z.land pad 255]) with 1 in *.
  assert (q6 : s_p a6 = 23) by lia.
  assert (Hplain : region a6 31 n = plain).
  { unfold region. rewrite o6, o5, o4, o3, o2, o1 by lia. reflexivity. }
  rewrite Hplain. fold h.
  destruct h as [r1 sig] eqn:Eh. cbn [fst snd] in *.
  rewrite q6.
  destruct (stream_store_spec a6 23 (fit 8 sig)) as (p7 & z7 & l7 & s7 & o7).
  set (a7 := stream_store a6 23 (fit 8 sig)) in *.
  rewrite len_fit in *. change (Z.max 0 8) with 8 in *.
  specialize (s7 ltac:(lia) ltac:(lia)).
  set (a8 := stream_seek a7 8).
  assert (Hreg : region a8 31 (n + pad) = plain ++ Zs).
  { unfold region. subst a8. cbn [stream_seek s_data].
    rewrite peek_app_split by lia. f_equal.
    - rewrite o7, o6, o5, o4, o3, o2, o1 by lia. reflexivity.
    - rewrite o7, o6 by lia. exact s5. }
  rewrite Hreg. change (security_fips_encrypt X r1 (plain ++ Zs)) with e.
  destruct e as [r2 out] eqn:Ee. cbn [fst snd] in *.
  unfold stream_rewrite. rewrite Hreg.
  assert (Hl : len (plain ++ Zs) = n + pad).
  { rewrite <- Hreg. unfold region. apply len_peek; subst a8;
      cbn [stream_seek s_data]; lia. }
  rewrite Hl.
  destruct (stream_store_spec a8 31 (fit (n + pad) out))
    as (p9 & z9 & l9 & s9 & o9).
  set (a9 := stream_store a8 31 (fit (n + pad) out)) in *.
  rewrite len_fit in *. replace (Z.max 0 (n + pad)) with (n + pad) in * by lia.
  assert (l8 : len (s_data a8) = len (s_data a7)) by reflexivity.
  assert (p8 : s_p a8 = 31) by (subst a8; cbn [stream_seek s_p]; lia).
  specialize (s9 ltac:(lia) ltac:(lia)).
  cbn [fst snd].
  split; [reflexivity|]. split; [reflexivity|].
  split; [lia|]. split; [subst a8; cbn [stream_seek s_size] in *; congruence|].
  split; [lia|].
  assert (E8 : s_data a8 = s_data a7) by reflexivity.
  split.
  { rewrite o9, E8, o7 by lia.
    change 4 with (2 + (1 + 1)).
    rewrite !peek_app_split by lia.
    rewrite (o6 19 2), (o6 (19 + 2) 1), (o5 19 2), (o5 (19 + 2) 1),
      (o4 19 2) by lia.
    assert (b22 : peek (s_data a6) 22 1 = [Z.land pad 255])
      by (replace 22 with (s_p a5) by lia; exact s6).
    assert (b21 : peek (s_data a4) 21 1 = [Z.land 1 255])
      by (replace 21 with (s_p a3) by lia; exact s4).
    assert (b19 : peek (s_data a3) 19 2 = le16 16)
      by (replace 19 with (s_p a2) by lia; exact s3).
    change (19 + 2 + 1) with 22. change (19 + 2) with 21.
    rewrite b19, b21, b22, (land_0xFF_small pad) by lia. reflexivity. }
  split; [rewrite o9, E8 by lia; exact s7|].
  split; [exact s9|].
  intros j k Hj Hk Hjk.
  rewrite o9, E8, o7, o6, o5, o4, o3, o2, o1 by lia. reflexivity.
Qed.


Lemma stream_put_frame (s : STREAM) (bs : list Z) :
  s_size (stream_put s bs) = s_size s
  /\ len (s_data (stream_put s bs)) = len (s_data s)
  /\ forall j n, 0 <= j -> 0 <= n -> j + n <= s_p s ->
       peek (s_data (stream_put s bs)) j n = peek (s_data s) j n.
Proof.
  unfold stream_put. cbn [s_size s_data]. repeat split.
  - apply len_poke.
  - intros. apply peek_poke_other; lia.
Qed.

(** The Share headers are written at the cursor and after it. *)
Lemma rdp_write_share_control_header_frame (s : STREAM) (l t c : Z) :
  0 <= s_p s ->
  let s' := rdp_write_share_control_header s l t c in
  s_p s' = s_p s + 6 /\ s_size s' = s_size s
  /\ len (s_data s') = len (s_data s)
  /\ forall j n, 0 <= j -> 0 <= n -> j + n <= s_p s ->
       peek (s_data s') j n = peek (s_data s) j n.
Proof.
  intros Hp s'. subst s'. unfold rdp_write_share_control_header.
  unfold stream_write_uint16.
  match goal with
  | |- context [stream_put (stream_put (stream_put s ?a) ?b) ?c] =>
      destruct (stream_put_frame s a) as (z1 & l1 & o1);
      destruct (stream_put_frame (stream_put s a) b) as (z2 & l2 & o2);
      destruct (stream_put_frame (stream_put (stream_put s a) b) c)
        as (z3 & l3 & o3)
  end.
  rewrite !stream_put_p in *. change (len (le16 _)) with 2 in *.
  split; [lia|]. split; [congruence|]. split; [congruence|].
  intros j n Hj Hn Hjn. rewrite o3, o2, o1 by lia. reflexivity.
Qed.

Lemma rdp_write_share_data_header_frame (s : STREAM) (l t c : Z) :
  0 <= s_p s ->
  let s' := rdp_write_share_data_header s l t c in
  s_p s' = s_p s + 12 /\ s_size s' = s_size s
  /\ len (s_data s') = len (s_data s)
  /\ forall j n, 0 <= j -> 0 <= n -> j + n <= s_p s ->
       peek (s_data s') j n = peek (s_data s) j n.
Proof.
  intros Hp s'. subst s'. unfold rdp_write_share_data_header.
  unfold stream_write_uint32, stream_write_uint16, stream_write_uint8.
  set (a1 := stream_put s _).
  set (a2 := stream_put a1 _).
  set (a3 := stream_put a2 _).
  set (a4 := stream_put a3 _).
  set (a5 := stream_put a4 _).
  set (a6 := stream_put a5 _).
  set (a7 := stream_put a6 _).
  destruct (stream_put_frame s (le32 c)) as (z1 & l1 & o1). fold a1 in z1, l1, o1.
  destruct (stream_put_frame a1 [Z.land 0 255]) as (z2 & l2 & o2).
  fold a2 in z2, l2, o2.
  destruct (stream_put_frame a2 [Z.land STREAM_LOW 255]) as (z3 & l3 & o3).
  fold a3 in z3, l3, o3.
  match goal with
  | a4 := stream_put a3 ?b |- _ =>
      destruct (stream_put_frame a3 b) as (z4 & l4 & o4)
  end.
  fold a4 in z4, l4, o4.
  destruct (stream_put_frame a4 [Z.land t 255]) as (z5 & l5 & o5).
  fold a5 in z5, l5, o5.
  destruct (stream_put_frame a5 [Z.land 0 255]) as (z6 & l6 & o6).
  fold a6 in z6, l6, o6.
  destruct (stream_put_frame a6 (le16 0)) as (z7 & l7 & o7).
  fold a7 in z7, l7, o7.
  assert (q1 : s_p a1 = s_p s + 4) by reflexivity.
  assert (q2 : s_p a2 = s_p a1 + 1) by reflexivity.
  assert (q3 : s_p a3 = s_p a2 + 1) by reflexivity.
  assert (q4 : s_p a4 = s_p a3 + 2) by reflexivity.
  assert (q5 : s_p a5 = s_p a4 + 1) by reflexivity.
  assert (q6 : s_p a6 = s_p a5 + 1) by reflexivity.
  assert (q7 : s_p a7 = s_p a6 + 2) by reflexivity.
  split; [lia|]. split; [congruence|]. split; [congruence|].
  intros j n Hj Hn Hjn.
  rewrite o7, o6, o5, o4, o3, o2, o1 by lia. reflexivity.
Qed.


Lemma rdp_write_share_control_header_spec (s : STREAM) (l t c : Z) :
  0 <= s_p s -> s_p s + 6 <= len (s_data s) ->
  let s' := rdp_write_share_control_header s l t c in
  s_p s' = s_p s + 6 /\ s_size s' = s_size s
  /\ len (s_data s') = len (s_data s)
  /\ peek (s_data s') (s_p s) 2
     = le16 (to_uint16 (to_uint16 l - RDP_PACKET_HEADER_MAX_LENGTH))
  /\ peek (s_data s') (s_p s + 2) 2 = le16 (Z.lor (to_uint16 t) 0x10)
  /\ peek (s_data s') (s_p s + 4) 2 = le16 (to_uint16 c)
  /\ forall j n, 0 <= j -> 0 <= n -> j + n <= s_p s \/ s_p s + 6 <= j ->
       peek (s_data s') j n = peek (s_data s) j n.
Proof.
  intros Hp Hfit s'. subst s'. unfold rdp_write_share_control_header.
  unfold stream_write_uint16.
  set (A := le16 (to_uint16 (to_uint16 l - RDP_PACKET_HEADER_MAX_LENGTH))).
  set (B := le16 (Z.lor (to_uint16 t) 16)).
  set (C := le16 (to_uint16 c)).
  destruct (stream_put_spec s A) as (p1 & z1 & l1 & s1 & o1);
    [lia|change (len A) with 2; lia|].
  set (a1 := stream_put s A) in *. change (len A) with 2 in *.
  destruct (stream_put_spec a1 B) as (p2 & z2 & l2 & s2 & o2);
    [lia|change (len B) with 2; lia|].
  set (a2 := stream_put a1 B) in *. change (len B) with 2 in *.
  destruct (stream_put_spec a2 C) as (p3 & z3 & l3 & s3 & o3);
    [lia|change (len C) with 2; lia|].
  set (a3 := stream_put a2 C) in *. change (len C) with 2 in *.
  rewrite p1 in s2. rewrite p2, p1 in s3.
  replace (s_p s + 2 + 2) with (s_p s + 4) in s3 by lia.
  split; [lia|]. split; [congruence|]. split; [lia|].
  split; [rewrite o3, o2 by lia; exact s1|].
  split; [rewrite o3 by lia; exact s2|].
  split; [exact s3|].
  intros j n Hj Hn Hjn. rewrite o3, o2, o1 by lia. reflexivity.
Qed.

Lemma rdp_security_stream_out_idle (r : rdpRdp) (s : STREAM) (length : Z) :
  sec_flags r = 0 -> rdp_security_stream_out X r s length = (0, r, s).
Proof.
  intros H. unfold rdp_security_stream_out. rewrite H. reflexivity.
Qed.

(** ** Outbound headers, byte by byte *)

Section Wire.

Variable L : WireLaws X.

Lemma rdp_write_header_spec (r : rdpRdp) (s : STREAM) (length ch : Z) :
  s_p s = 0 -> 15 <= len (s_data s) ->
  let m := if server_mode (settings r)
           then DomainMCSPDU_SendDataIndication
           else DomainMCSPDU_SendDataRequest in
  let outer := rdp_write_header_length r (to_uint16 length) in
  let s1 := rdp_write_header X r s length ch in
  s_p s1 = 15 /\ s_size s1 = s_size s
  /\ len (s_data s1) = len (s_data s)
  /\ peek (s_data s1) 0 8 = mcs_enc L m outer 0
  /\ peek (s_data s1) 8 2 = per16_enc L (mcs_user_id r) MCS_BASE_CHANNEL_ID
  /\ peek (s_data s1) 10 2 = per16_enc L (to_uint16 ch) 0
  /\ peek (s_data s1) 13 2
     = be16 (to_uint16 (Z.lor (outer - RDP_PACKET_HEADER_MAX_LENGTH) 0x8000))
  /\ forall j n, 15 <= j -> 0 <= n ->
       peek (s_data s1) j n = peek (s_data s) j n.
Proof.
  intros Hp Hlen m outer s1. subst s1. unfold rdp_write_header.
  fold m. fold outer.
  rewrite (mcs_write_law X L), !(per_write_law X L).
  unfold stream_write_uint8, stream_write_uint16_be.
  set (A := mcs_enc L m outer 0).
  set (B := per16_enc L (mcs_user_id r) MCS_BASE_CHANNEL_ID).
  set (C := per16_enc L (to_uint16 ch) 0).
  set (D := [Z.land 0x70 0xFF]).
  set (E := be16 (to_uint16
                    (Z.lor (outer - RDP_PACKET_HEADER_MAX_LENGTH) 0x8000))).
  assert (HA : len A = 8) by apply mcs_enc_len.
  assert (HB : len B = 2) by apply per16_enc_len.
  assert (HC : len C = 2) by apply per16_enc_len.
  assert (HD : len D = 1) by reflexivity.
  assert (HE : len E = 2) by reflexivity.
  destruct (stream_put_spec s A) as (p1 & z1 & l1 & same1 & other1);
    [lia|lia|].
  set (h1 := stream_put s A) in *.
  destruct (stream_put_spec h1 B) as (p2 & z2 & l2 & same2 & other2);
    [lia|lia|].
  set (h2 := stream_put h1 B) in *.
  destruct (stream_put_spec h2 C) as (p3 & z3 & l3 & same3 & other3);
    [lia|lia|].
  set (h3 := stream_put h2 C) in *.
  destruct (stream_put_spec h3 D) as (p4 & z4 & l4 & same4 & other4);
    [lia|lia|].
  set (h4 := stream_put h3 D) in *.
  destruct (stream_put_spec h4 E) as (p5 & z5 & l5 & same5 & other5);
    [lia|lia|].
  set (h5 := stream_put h4 E) in *.
  assert (q1 : s_p h1 = 8) by lia.
  assert (q2 : s_p h2 = 10) by lia.
  assert (q3 : s_p h3 = 12) by lia.
  assert (q4 : s_p h4 = 13) by lia.
  rewrite Hp, HA in same1. rewrite q1, HB in same2.
  rewrite q2, HC in same3. rewrite q4, HE in same5.
  split; [lia|]. split; [congruence|]. split; [lia|].
  split; [rewrite other5, other4, other3, other2 by lia; exact same1|].
  split; [rewrite other5, other4, other3 by lia; exact same2|].
  split; [rewrite other5, other4 by lia; exact same3|].
  split; [exact same5|].
  intros j n Hj Hn.
  rewrite other5, other4, other3, other2, other1 by lia. reflexivity.
Qed.

(** The part the three senders share: from the stream with the headers
    written, the security envelope is put out at offset 15 and the cursor
    set to the final length. *)
Lemma fips_tail (r : rdpRdp) (s2 : STREAM) (length : Z) :
  Z.land (sec_flags r) SEC_ENCRYPT <> 0 ->
  encryption_method (settings r) = ENCRYPTION_METHOD_FIPS ->
  31 <= length -> length + 7 <= 0xFFFF -> length + 7 <= len (s_data s2) ->
  let m := if server_mode (settings r)
           then DomainMCSPDU_SendDataIndication
           else DomainMCSPDU_SendDataRequest in
  let outer := rdp_write_header_length r length in
  peek (s_data s2) 0 8 = mcs_enc L m outer 0 ->
  peek (s_data s2) 13 2
  = be16 (to_uint16 (Z.lor (outer - RDP_PACKET_HEADER_MAX_LENGTH) 0x8000)) ->
  let res := rdp_security_stream_out X r (stream_set_mark s2 15) length in
  fips_frame X L r length
    (stream_set_pos (snd res) (to_uint16 (length + fst (fst res)))).
Proof.
  intros He Hf Hlo Hhi Hfit m outer H0 H13 res.
  pose proof (rdp_write_header_length_fips r length He Hf Hlo Hhi) as Ho.
  fold outer in Ho.
  pose proof (rdp_security_stream_out_fips r (stream_set_mark s2 15) length
                He Hf eq_refl Hlo Hfit) as Hs.
  cbv zeta in Hs. fold res in Hs. cbn [stream_set_mark s_data s_size] in Hs.
  set (n := length - 31) in *.
  set (pad := (8 - n mod 8) mod 8) in *.
  destruct (fips_pad_arith n ltac:(subst n; lia)) as (_ & Hb & Hm).
  fold pad in Hb, Hm.
  destruct Hs as (Epad & _ & _ & _ & Hlen & H19 & _ & H31 & Hlow).
  set (s3 := snd res) in *.
  assert (Hbyte : byte_at (s_data s3) 22 = pad).
  { replace 22 with (19 + 3) by lia.
    rewrite <- (byte_at_peek (s_data s3) 19 4 3) by lia. rewrite H19.
    change (byte_at [16; 0; 1; pad] 3) with (Z.land pad 0xFF).
    apply land_0xFF_small. lia. }
  unfold fips_frame. cbn [stream_set_pos s_data].
  fold n. rewrite Hbyte, Epad.
  split; [exact Hb|]. split; [exact Hm|].
  split; [unfold stream_get_length; cbn [s_p]; apply to_uint16_small; lia|].
  split; [exact Ho|].
  unfold region. cbn [s_data].
  split; [rewrite Hlow by lia; rewrite H0, Ho; reflexivity|].
  split; [rewrite Hlow by lia; rewrite H13, Ho; reflexivity|].
  eexists _, (peek (s_data s2) 31 n).
  split; [apply len_peek; subst n; lia|exact H31].
Qed.

(** C5.  A frame sent with [SEC_ENCRYPT] staged in FIPS mode, by any of the
    three senders, from a stream whose [length] bytes include the 31 bytes
    reserved for the headers: the pad in the FIPS header is in [0,7], the
    encrypted region is a multiple of 8 bytes and ends with [pad] zero
    bytes before encryption, and the length [rdp_write_header] puts in the
    MCS header is [length] plus that same pad. *)
Theorem fips_padding (r : rdpRdp) (s : STREAM) (type channel_id : Z) :
  Z.land (sec_flags r) SEC_ENCRYPT <> 0 ->
  encryption_method (settings r) = ENCRYPTION_METHOD_FIPS ->
  31 <= s_p s -> s_p s + 7 <= 0xFFFF -> s_p s + 7 <= len (s_data s) ->
  fips_frame X L r (s_p s) (snd (rdp_send X r s channel_id))
  /\ fips_frame X L r (s_p s) (snd (rdp_send_pdu X r s type channel_id))
  /\ fips_frame X L r (s_p s)
       (snd (rdp_send_data_pdu X r s type channel_id)).
Proof.
  intros He Hf Hlo Hhi Hfit.
  assert (Hsec : rdp_get_sec_bytes r = 16).
  { unfold rdp_get_sec_bytes.
    destruct (Z.eqb_spec (Z.land (sec_flags r) SEC_ENCRYPT) 0) as [E|_];
      [contradiction|].
    rewrite Hf. reflexivity. }
  assert (Hu : to_uint16 (s_p s) = s_p s) by (apply to_uint16_small; lia).
  destruct (rdp_write_header_spec r (stream_set_pos s 0) (s_p s) channel_id)
    as (p1 & z1 & l1 & h0 & _ & _ & h13 & _);
    [reflexivity|cbn [stream_set_pos s_data]; lia|].
  destruct (rdp_write_header_spec r (stream_set_pos s 0) (s_p s)
              MCS_GLOBAL_CHANNEL_ID)
    as (p1' & z1' & l1' & h0' & _ & _ & h13' & _);
    [reflexivity|cbn [stream_set_pos s_data]; lia|].
  rewrite Hu in *. cbn [stream_set_pos s_data] in l1, l1'.
  split; [|split].
  - unfold rdp_send. unfold stream_get_length. rewrite Hu, Hsec.
    set (s1 := rdp_write_header X r (stream_set_pos s 0) (s_p s) channel_id)
      in *.
    pose proof (fips_tail r (stream_seek s1 16) (s_p s) He Hf Hlo Hhi
                  ltac:(cbn [stream_seek s_data]; lia) h0 h13) as T.
    cbv zeta in T.
    change (stream_set_mark (stream_seek s1 16) 15)
      with (stream_set_mark (stream_seek s1 16) (s_p s1)) in T
      || rewrite <- p1 in T.
    destruct (rdp_security_stream_out X r
                (stream_set_mark (stream_seek s1 16) (s_p s1)) (s_p s))
      as [[pad r'] s3].
    cbn [fst snd] in T.
    destruct (transport_write X (transport r') _) as [st t].
    destruct (st <? 0); exact T.
  - unfold rdp_send_pdu. unfold stream_get_length. rewrite Hu, Hsec.
    set (s1 := rdp_write_header X r (stream_set_pos s 0) (s_p s)
                 MCS_GLOBAL_CHANNEL_ID) in *.
    destruct (rdp_write_share_control_header_frame (stream_seek s1 16)
                (s_p s - 16) type channel_id)
      as (_ & _ & l2 & o2); [cbn [stream_seek s_p]; lia|].
    set (s2 := rdp_write_share_control_header (stream_seek s1 16)
                 (s_p s - 16) type channel_id) in *.
    cbn [stream_seek s_p s_data] in l2, o2.
    pose proof (fips_tail r s2 (s_p s) He Hf Hlo Hhi ltac:(lia)
                  ltac:(rewrite o2 by lia; exact h0')
                  ltac:(rewrite o2 by lia; exact h13')) as T.
    cbv zeta in T. rewrite <- p1' in T.
    destruct (rdp_security_stream_out X r (stream_set_mark s2 (s_p s1))
                (s_p s)) as [[pad r'] s3].
    cbn [fst snd] in T.
    destruct (transport_write X (transport r') _) as [st t].
    destruct (st <? 0); exact T.
  - unfold rdp_send_data_pdu. unfold stream_get_length. rewrite Hu, Hsec.
    set (s1 := rdp_write_header X r (stream_set_pos s 0) (s_p s)
                 MCS_GLOBAL_CHANNEL_ID) in *.
    destruct (rdp_write_share_control_header_frame (stream_seek s1 16)
                (s_p s - 16) PDU_TYPE_DATA channel_id)
      as (p2 & _ & l2 & o2); [cbn [stream_seek s_p]; lia|].
    set (s2 := rdp_write_share_control_header (stream_seek s1 16)
                 (s_p s - 16) PDU_TYPE_DATA channel_id) in *.
    cbn [stream_seek s_p s_data] in p2, l2, o2.
    destruct (rdp_write_share_data_header_frame s2 (s_p s - 16) type
                (share_id (settings r)))
      as (_ & _ & l3 & o3); [lia|].
    set (s2' := rdp_write_share_data_header s2 (s_p s - 16) type
                  (share_id (settings r))) in *.
    pose proof (fips_tail r s2' (s_p s) He Hf Hlo Hhi ltac:(lia)
                  ltac:(rewrite o3, o2 by lia; exact h0')
                  ltac:(rewrite o3, o2 by lia; exact h13')) as T.
    cbv zeta in T. rewrite <- p1' in T.
    destruct (rdp_security_stream_out X r (stream_set_mark s2' (s_p s1))
                (s_p s)) as [[pad r'] s3].
    cbn [fst snd] in T.
    destruct (transport_write X (transport r') _) as [st t].
    destruct (st <? 0); exact T.
Qed.


(** The frame [rdp_send_pdu] emits when no security flags are staged,
    field by field. *)
Lemma rdp_send_pdu_plain_frame
  (r : rdpRdp) (s : STREAM) (type channel_id : Z) :
  sec_flags r = 0 ->
  21 <= s_p s <= 0xFFFF -> s_p s <= len (s_data s) ->
  let m := if server_mode (settings r)
           then DomainMCSPDU_SendDataIndication
           else DomainMCSPDU_SendDataRequest in
  let F := stream_frame (snd (rdp_send_pdu X r s type channel_id)) in
  len F = s_p s
  /\ peek F 0 8 = mcs_enc L m (s_p s) 0
  /\ peek F 10 2 = per16_enc L MCS_GLOBAL_CHANNEL_ID 0
  /\ peek F 13 2 = be16 (to_uint16 (Z.lor (s_p s - 15) 0x8000))
  /\ peek F 15 2 = le16 (s_p s - 15)
  /\ peek F 17 2 = le16 (Z.lor (to_uint16 type) 0x10)
  /\ peek F 19 2 = le16 (to_uint16 channel_id)
  /\ peek F 21 (s_p s - 21) = peek (s_data s) 21 (s_p s - 21).
Proof.
  intros Hz Hlo Hfit m F.
  assert (Hu : to_uint16 (s_p s) = s_p s) by (apply to_uint16_small; lia).
  assert (Hsec : rdp_get_sec_bytes r = 0).
  { unfold rdp_get_sec_bytes. rewrite Hz. reflexivity. }
  assert (Hout : rdp_write_header_length r (s_p s) = s_p s).
  { unfold rdp_write_header_length. rewrite Hz. reflexivity. }
  destruct (rdp_write_header_spec r (stream_set_pos s 0) (s_p s)
              MCS_GLOBAL_CHANNEL_ID)
    as (p1 & z1 & l1 & h0 & _ & h10 & h13 & o1);
    [reflexivity|cbn [stream_set_pos s_data]; lia|].
  rewrite Hu, Hout in *. cbn [stream_set_pos s_data] in l1, o1.
  fold m in h0.
  set (s1 := rdp_write_header X r (stream_set_pos s 0) (s_p s)
               MCS_GLOBAL_CHANNEL_ID) in *.
  destruct (rdp_write_share_control_header_spec (stream_seek s1 0)
              (s_p s - 0) type channel_id)
    as (p2 & z2 & l2 & c15 & c17 & c19 & o2);
    [cbn [stream_seek s_p]; lia|cbn [stream_seek s_p s_data]; lia|].
  cbn [stream_seek s_p s_data] in p2, l2, c15, c17, c19, o2.
  rewrite p1 in p2, c15, c17, c19, o2.
  change (15 + 2) with 17 in c17. change (15 + 4) with 19 in c19.
  replace (to_uint16 (s_p s - 0)) with (s_p s) in c15
    by (rewrite Z.sub_0_r; now rewrite Hu).
  replace (to_uint16 (s_p s - RDP_PACKET_HEADER_MAX_LENGTH))
    with (s_p s - 15) in c15
    by (symmetry; apply to_uint16_small;
        unfold RDP_PACKET_HEADER_MAX_LENGTH; lia).
  set (s2 := rdp_write_share_control_header (stream_seek s1 0) (s_p s - 0)
               type channel_id) in *.
  assert (EF : F = peek (s_data s2) 0 (s_p s)).
  { subst F. unfold rdp_send_pdu, stream_get_length.
    rewrite Hu, Hsec. fold s1. fold s2.
    rewrite rdp_security_stream_out_idle by exact Hz.
    rewrite Z.add_0_r, Hu.
    destruct (transport_write X (transport r) _) as [st t].
    destruct (st <? 0); reflexivity. }
  rewrite EF.
  split; [apply len_peek; lia|].
  rewrite !peek_peek by lia.
  split; [rewrite o2 by lia; exact h0|].
  split; [rewrite o2 by lia; exact h10|].
  split; [rewrite o2 by lia; exact h13|].
  split; [exact c15|]. split; [exact c17|]. split; [exact c19|].
  rewrite o2, o1 by lia. reflexivity.
Qed.


(** C4 as amended.  A frame [rdp_send_pdu] emits with no security flags
    staged and a type that fits the type nibble, read by a peer in the
    opposite MCS direction: [rdp_read_header] accepts it on the global
    channel, [rdp_read_share_control_header] returns the type and the
    channel the sender was given, and what is left in the stream is the
    body the caller wrote. *)
Theorem rdp_send_pdu_roundtrip
  (r : rdpRdp) (rx : World) (s : STREAM)
  (type channel_id l0 c0 t0 c1 : Z) :
  sec_flags r = 0 ->
  0 <= type <= 15 -> 0 <= channel_id <= 0xFFFF ->
  21 <= s_p s <= 0x7FFF -> s_p s <= len (s_data s) ->
  server_mode (settings (rdp rx)) = negb (server_mode (settings r)) ->
  let body := region s 21 (s_p s - 21) in
  let F := stream_frame (snd (rdp_send_pdu X r s type channel_id)) in
  exists s1 s2,
    rdp_read_header X rx (stream_of F) l0 c0
    = (true, rx, s1, s_p s - 15, MCS_GLOBAL_CHANNEL_ID)
    /\ rdp_read_share_control_header s1 t0 c1
       = (true, s2, s_p s - 15, type, channel_id)
    /\ region s2 (s_p s2) (stream_get_left s2) = body.
Proof.
  intros Hz Ht Hc Hlo Hfit Hmode body F.
  destruct (rdp_send_pdu_plain_frame r s type channel_id Hz ltac:(lia) Hfit)
    as (HlenF & f0 & f10 & f13 & f15 & f17 & f19 & f21).
  fold F in HlenF, f0, f10, f13, f15, f17, f19, f21.
  clearbody F.
  set (m := if server_mode (settings r)
            then DomainMCSPDU_SendDataIndication
            else DomainMCSPDU_SendDataRequest) in *.
  set (at_ := fun k => mkSTREAM F k (len F)).
  assert (Hm : m = DomainMCSPDU_SendDataRequest
               \/ m = DomainMCSPDU_SendDataIndication)
    by (subst m; destruct (server_mode (settings r)); auto).
  exists (at_ 15), (at_ 21).
  split; [|split].
  - unfold rdp_read_header. rewrite Hmode.
    replace (if negb (server_mode (settings r))
             then DomainMCSPDU_SendDataRequest
             else DomainMCSPDU_SendDataIndication) with m
      by (subst m; destruct (server_mode (settings r)); reflexivity).
    rewrite (mcs_read_law X L (stream_of F) m (s_p s) l0);
      [|unfold at_, stream_of; cbn [s_p]; lia|lia|exact Hm|exact f0].
    cbn [negb].
    change (stream_seek (stream_of F) 8) with (at_ 8).
    unfold stream_get_left at 1. cbn [at_ s_size s_p]. rewrite HlenF.
    destruct (Z.gtb_spec (s_p s - 8) (s_p s - 8)) as [E|_]; [lia|].
    replace (m =? DomainMCSPDU_DisconnectProviderUltimatum) with false
      by (destruct Hm as [-> | ->]; reflexivity).
    unfold stream_get_left at 1. cbn [at_ s_size s_p]. rewrite HlenF.
    destruct (Z.ltb_spec (s_p s - 8) 5) as [E|_]; [lia|].
    pose proof (per_read_seek_law X L (at_ 8) 0 MCS_BASE_CHANNEL_ID) as S1.
    destruct (per_read_integer16 X (at_ 8) 0 MCS_BASE_CHANNEL_ID)
      as [[ok1 sB] ini].
    cbn [fst snd] in S1. subst sB.
    change (stream_seek (at_ 8) 2) with (at_ 10).
    pose proof (per_read_seek_law X L (at_ 10) c0 0) as S2.
    pose proof (per_read_law X L (at_ 10) MCS_GLOBAL_CHANNEL_ID c0
                  ltac:(unfold at_, stream_of; cbn [s_p]; lia)
                  ltac:(unfold MCS_GLOBAL_CHANNEL_ID; lia) f10) as V2.
    destruct (per_read_integer16 X (at_ 10) c0 0) as [[ok2 sC] ch].
    cbn [fst snd] in S2, V2. subst sC ch.
    change (stream_seek (stream_seek (at_ 10) 2) 1) with (at_ 13).
    assert (Hlor : to_uint16 (Z.lor (s_p s - 15) 0x8000)
                   = Z.lor (s_p s - 15) 0x8000).
    { apply to_uint16_small.
      pose proof (lor_pow2_small (s_p s - 15) 15 ltac:(lia)
                    ltac:(change (2 ^ 15) with 32768; lia)) as E.
      change (2 ^ 15) with 32768 in E. rewrite E. lia. }
    rewrite Hlor in f13.
    rewrite (per_read_length_law X L (at_ 13) (s_p s - 15) (s_p s));
      [|unfold at_, stream_of; cbn [s_p]; lia|lia|exact f13].
    cbn [negb].
    change (stream_seek (at_ 13) 2) with (at_ 15).
    unfold stream_get_left. cbn [at_ s_size s_p]. rewrite HlenF.
    destruct (Z.gtb_spec (s_p s - 15) (s_p s - 15)) as [E|_]; [lia|].
    reflexivity.
  - unfold rdp_read_share_control_header.
    rewrite (stream_read_uint16_le16 (at_ 15) (s_p s - 15));
      [|unfold at_, stream_of; cbn [s_p]; lia|lia|exact f15].
    change (stream_seek (at_ 15) 2) with (at_ 17).
    unfold stream_get_left. cbn [at_ s_size s_p]. rewrite HlenF.
    destruct (Z.gtb_spec (s_p s - 15 - 2) (s_p s - 17)) as [E|_]; [lia|].
    destruct (type_nibble type Ht) as (Hnib & Hsum).
    assert (Hty : to_uint16 type = type) by (apply to_uint16_small; lia).
    rewrite Hty in f17.
    rewrite (stream_read_uint16_le16 (at_ 17) (Z.lor type 0x10));
      [|unfold at_, stream_of; cbn [s_p]; lia|rewrite Hsum; lia|exact f17].
    change (stream_seek (at_ 17) 2) with (at_ 19).
    rewrite Hnib.
    destruct (Z.gtb_spec (s_p s - 15) 4) as [_|E]; [|lia].
    assert (Hch : to_uint16 channel_id = channel_id)
      by (apply to_uint16_small; lia).
    rewrite Hch in f19.
    rewrite (stream_read_uint16_le16 (at_ 19) channel_id);
      [|unfold at_, stream_of; cbn [s_p]; lia|lia|exact f19].
    reflexivity.
  - subst body. unfold region, stream_get_left. cbn [at_ s_p s_size s_data].
    rewrite HlenF. exact f21.
Qed.


End Wire.


End Properties.


(** * The reference codecs obey the wire laws *)

Lemma byte_at_region (s : STREAM) (n i : Z) (bs : list Z) :
  0 <= s_p s -> 0 <= i < n ->
  region s (s_p s) n = bs ->
  byte_at (s_data s) (s_p s + i) = byte_at bs i.
Proof.
  intros Hp Hi H. rewrite <- H. unfold region.
  symmetry. now apply byte_at_peek.
Qed.

Lemma ref_mcs_read_law (s : STREAM) (m l l0 : Z) :
  0 <= s_p s -> 0 <= l <= 0xFFFF ->
  m = DomainMCSPDU_SendDataRequest \/ m = DomainMCSPDU_SendDataIndication ->
  region s (s_p s) 8 = Ref.mcs_header m l 0 ->
  Ref.mcs_read_domain_mcspdu_header s m l0 = (true, stream_seek s 8, m, l).
Proof.
  intros Hp Hl Hm H.
  unfold Ref.mcs_read_domain_mcspdu_header, Ref.read_uint16_be,
    stream_read_uint8, stream_seek.
  cbn [s_data s_p s_size fst snd].
  rewrite (byte_at_region s 8 2 _ Hp ltac:(lia) H).
  replace (s_p s + 2 + 1) with (s_p s + 3) by lia.
  rewrite (byte_at_region s 8 3 _ Hp ltac:(lia) H).
  rewrite (byte_at_region s 8 7 _ Hp ltac:(lia) H).
  replace (s_p s + 7 + 1) with (s_p s + 8) by lia.
  change (byte_at (Ref.mcs_header m l 0) 2)
    with (Z.land (Z.land (Z.shiftr l 8) 0xFF) 0xFF).
  change (byte_at (Ref.mcs_header m l 0) 3)
    with (Z.land (Z.land l 0xFF) 0xFF).
  rewrite be16_value by lia.
  destruct Hm as [-> | ->]; reflexivity.
Qed.

Lemma ref_per_read_law (s : STREAM) (v v0 : Z) :
  0 <= s_p s -> 0 <= v <= 0xFFFF ->
  region s (s_p s) 2 = be16 (v - 0) ->
  snd (Ref.per_read_integer16 s v0 0) = v.
Proof.
  intros Hp Hv H. unfold Ref.per_read_integer16, Ref.read_uint16_be.
  pose proof (byte_at_region s 2 0 _ Hp ltac:(lia) H) as B0.
  pose proof (byte_at_region s 2 1 _ Hp ltac:(lia) H) as B1.
  rewrite Z.add_0_r, Z.sub_0_r in B0. rewrite Z.sub_0_r in B1.
  rewrite !B0, !B1.
  change (byte_at (be16 v) 0) with (Z.land (Z.land (Z.shiftr v 8) 0xFF) 0xFF).
  change (byte_at (be16 v) 1) with (Z.land (Z.land v 0xFF) 0xFF).
  rewrite !be16_value by lia.
  destruct (Z.gtb_spec (v + 0) 0xFFFF); [lia|]. cbn [snd]. lia.
Qed.

Lemma ref_per_read_length_law (s : STREAM) (l l0 : Z) :
  0 <= s_p s -> 0 <= l < 0x8000 ->
  region s (s_p s) 2 = be16 (Z.lor l 0x8000) ->
  Ref.per_read_length s l0 = (true, stream_seek s 2, l).
Proof.
  intros Hp Hl H. unfold Ref.per_read_length, stream_read_uint8, stream_seek.
  cbn [s_data s_p s_size fst snd].
  pose proof (byte_at_region s 2 0 _ Hp ltac:(lia) H) as B0.
  pose proof (byte_at_region s 2 1 _ Hp ltac:(lia) H) as B1.
  rewrite Z.add_0_r in B0.
  rewrite !B0, !B1.
  destruct (long_length_value l Hl) as (Hhi & Hval).
  change (byte_at (be16 (Z.lor l 0x8000)) 0)
    with (Z.land (Z.land (Z.shiftr (Z.lor l 0x8000) 8) 0xFF) 0xFF).
  change (byte_at (be16 (Z.lor l 0x8000)) 1)
    with (Z.land (Z.land (Z.lor l 0x8000) 0xFF) 0xFF).
  destruct (Z.eqb_spec
              (Z.land (Z.land (Z.land (Z.shiftr (Z.lor l 0x8000) 8) 0xFF)
                         0xFF) 0x80) 0) as [E|_]; [contradiction|].
  cbn [negb]. rewrite Hval.
  replace (s_p s + 1 + 1) with (s_p s + 2) by lia.
  reflexivity.
Qed.

Lemma ref_per_read_seek_law (s : STREAM) (v0 m : Z) :
  snd (fst (Ref.per_read_integer16 s v0 m)) = stream_seek s 2.
Proof.
  unfold Ref.per_read_integer16.
  destruct (Ref.read_uint16_be s + m >? 0xFFFF); reflexivity.
Qed.

(** The reference collaborators as an instance of the wire laws. *)
Lemma Ref_laws : WireLaws Ref.X.
Proof.
  refine (mkWireLaws _ _ Ref.X Ref.mcs_header (fun v m => be16 (v - m))
            _ _ _ _ _ _ _ _).
  - reflexivity.
  - reflexivity.
  - reflexivity.
  - reflexivity.
  - exact ref_mcs_read_law.
  - exact ref_per_read_seek_law.
  - exact ref_per_read_law.
  - exact ref_per_read_length_law.
Defined.


Lemma Ref_polite : polite_collaborators Ref.X.
Proof. repeat split; reflexivity. Qed.

Lemma three_pdus_envelope : envelope Ref.three_pdus Ref.three_pdus_parsed.
Proof.
  cbn [envelope Ref.three_pdus_parsed].
  repeat split; try (intros t c; reflexivity);
    vm_compute; discriminate.
Qed.


(** * The theorems at concrete inputs *)

Lemma sec_flags_zero_after_successful_send_witness :
  sec_flags (snd (fst (rdp_send Ref.X Ref.staged0 Ref.raw_stream 1003))) = 0
  /\ sec_flags
       (snd (fst (rdp_send_pdu Ref.X Ref.staged0 Ref.raw_stream 7 1007))) = 0
  /\ sec_flags
       (snd (fst (rdp_send_data_pdu Ref.X Ref.staged0 Ref.raw_stream
                    56 1007))) = 0.
Proof.
  destruct (sec_flags_zero_after_successful_send Ref.X Ref.staged0
              Ref.raw_stream 7 1003) as (H1 & H2 & _).
  destruct (sec_flags_zero_after_successful_send Ref.X Ref.staged0
              Ref.raw_stream 56 1007) as (_ & _ & H3).
  split; [apply H1; reflexivity|].
  split; [|apply H3; reflexivity].
  exact (proj1 (proj2 (sec_flags_zero_after_successful_send Ref.X
                         Ref.staged0 Ref.raw_stream 7 1007)) eq_refl).
Defined.

Lemma short_share_control_header_witness :
  rdp_read_share_control_header Ref.short_deactivate_all 77 99
  = (true, mkSTREAM [0x04; 0x00; 0x16; 0x00] 4 4, 4, 6, 0).
Proof.
  apply (short_share_control_header Ref.short_deactivate_all 77 99);
    vm_compute; discriminate.
Defined.

Lemma disconnect_provider_ultimatum_witness :
  rdp_read_header Ref.X (Ref.world Ref.rdp0) Ref.dpu_frame 0 0
  = (true, Ref.world (set_disconnect Ref.rdp0 true),
     stream_seek Ref.dpu_frame 9, 9, 1003)
  /\ rdp_recv_tpkt_pdu Ref.X 0 (Ref.world Ref.rdp0) Ref.dpu_frame Ref.locals0
     = Some (false,
             mkWorld (set_disconnect Ref.rdp0 true)
               [Print "rdp_recv_tpkt_pdu: disconnect"],
             stream_seek Ref.dpu_frame 9).
Proof.
  destruct (disconnect_provider_ultimatum Ref.X 0 (Ref.world Ref.rdp0)
              Ref.dpu_frame (stream_seek Ref.dpu_frame 8)
              (stream_seek Ref.dpu_frame 9) Ref.locals0 9 0x80)
    as (H1 & _ & H2);
    [reflexivity | vm_compute; discriminate | reflexivity |].
  split; [exact H1|exact H2].
Defined.

Lemma rdp_recv_data_pdu_ignores_header_failure_witness :
  rdp_recv_data_pdu Ref.X (Ref.world Ref.rdp0) Ref.short_data_pdu
    (mkShareData 0 DATA_PDU_TYPE_SET_ERROR_INFO 0 0 0)
  = (true,
     mkWorld (set_errorInfo Ref.rdp0 0x04030201)
       [Call rdp_print_errinfo 0x04030201],
     stream_seek Ref.short_data_pdu 4).
Proof.
  destruct (rdp_recv_data_pdu_ignores_header_failure Ref.X
              (Ref.world Ref.rdp0) Ref.short_data_pdu
              (mkShareData 0 DATA_PDU_TYPE_SET_ERROR_INFO 0 0 0))
    as (_ & _ & H).
  - vm_compute; reflexivity.
  - rewrite H; reflexivity.
Defined.

Lemma legacy_mac_mismatch_not_fatal_witness :
  rdp_decrypt Ref.X (Ref.world Ref.legacy0) Ref.legacy_bad_mac 12 0
  = (true,
     mkWorld Ref.legacy0
       [Print "WARNING: invalid packet signature non-FIPS"],
     mkSTREAM (repeat 0 8 ++ [1; 2; 3; 4]) 8 12).
Proof.
  destruct (legacy_mac_mismatch_not_fatal Ref.X (Ref.world Ref.legacy0)
              Ref.legacy_bad_mac 12 0) as (H & _ & _).
  - vm_compute; discriminate.
  - vm_compute; discriminate.
  - vm_compute; congruence.
  - exact H.
Defined.

Lemma rdp_send_frame_ack_behaviour_witness :
  rdp_send_frame_ack Ref.X Ref.rdp0 7 = (0, Ref.rdp0)
  /\ transport (snd (rdp_send_frame_ack Ref.X Ref.acking0 0x01020304))
     = [[3; 0; 0; 37; 2; 0xF0; 0x80; 0x64; 0; 6; 0x03; 0xEB; 0x70; 0x80; 22;
         22; 0; 0x17; 0; 0xEF; 0x03;
         0xEF; 0xBE; 0xAD; 0xDE; 0; 1; 4; 0; 56; 0; 0; 0;
         4; 3; 2; 1]].
Proof.
  destruct (rdp_send_frame_ack_behaviour Ref.X Ref.rdp0 7) as (H0 & _).
  destruct (rdp_send_frame_ack_behaviour Ref.X Ref.acking0 0x01020304)
    as (_ & H1).
  split; [apply H0; reflexivity|].
  destruct H1 as (H1 & _ & _); [vm_compute; discriminate|].
  rewrite H1. reflexivity.
Defined.

(** C1 (the fast-path half does not hold).  A FIPS envelope whose signature
    does not verify, received as an encrypted fast-path PDU: [rdp_decrypt]
    fails on it and prints the fatal line, yet [rdp_recv_fastpath_pdu]
    goes on to [fastpath_recv_updates] and returns its success.  The same
    envelope in a TPKT frame makes [rdp_recv_tpkt_pdu] fail. *)
Theorem fastpath_fips_signature_failure_not_fatal :
  fst (fst (rdp_decrypt Ref.X
              (Ref.world
                 (snd (fst (fastpath_read_header_rdp Ref.X Ref.fips0
                              Ref.fastpath_bad_signature))))
              (snd (fastpath_read_header_rdp Ref.X Ref.fips0
                      Ref.fastpath_bad_signature))
              20 0)) = false
  /\ fst (fst (rdp_recv_fastpath_pdu Ref.X (Ref.world Ref.fips0)
                 Ref.fastpath_bad_signature)) = true
  /\ trace (snd (fst (rdp_recv_fastpath_pdu Ref.X (Ref.world Ref.fips0)
                        Ref.fastpath_bad_signature)))
     = [Print "FATAL: invalid packet signature FIPS";
        Call fastpath_recv_updates 14]
  /\ option_map (fun res => fst (fst res))
       (rdp_recv_tpkt_pdu Ref.X 0 (Ref.world Ref.fips0)
          Ref.tpkt_bad_signature Ref.locals0)
     = Some false.
Proof. repeat split; vm_compute; reflexivity. Qed.

Lemma fips_padding_witness :
  fips_frame Ref.X Ref_laws Ref.fips_staged 36
    (snd (rdp_send Ref.X Ref.fips_staged Ref.fips_stream 1003))
  /\ fips_frame Ref.X Ref_laws Ref.fips_staged 36
       (snd (rdp_send_pdu Ref.X Ref.fips_staged Ref.fips_stream 7 1007))
  /\ fips_frame Ref.X Ref_laws Ref.fips_staged 36
       (snd (rdp_send_data_pdu Ref.X Ref.fips_staged Ref.fips_stream
               56 1007)).
Proof.
  destruct (fips_padding Ref.X Ref_laws Ref.fips_staged Ref.fips_stream
              7 1003) as (H1 & _ & _);
    [vm_compute; discriminate | reflexivity | vm_compute; discriminate ..
    | ].
  destruct (fips_padding Ref.X Ref_laws Ref.fips_staged Ref.fips_stream
              7 1007) as (_ & H2 & _);
    [vm_compute; discriminate | reflexivity | vm_compute; discriminate ..
    | ].
  destruct (fips_padding Ref.X Ref_laws Ref.fips_staged Ref.fips_stream
              56 1007) as (_ & _ & H3);
    [vm_compute; discriminate | reflexivity | vm_compute; discriminate ..
    | ].
  exact (conj H1 (conj H2 H3)).
Defined.

Lemma rdp_send_pdu_roundtrip_witness :
  exists s1 s2,
    rdp_read_header Ref.X (Ref.world Ref.server0)
      (stream_of
         (stream_frame
            (snd (rdp_send_pdu Ref.X Ref.rdp0 Ref.plain_stream 7 1007))))
      0 0
    = (true, Ref.world Ref.server0, s1, 11, 1003)
    /\ rdp_read_share_control_header s1 0 0 = (true, s2, 11, 7, 1007)
    /\ region s2 (s_p s2) (stream_get_left s2) = [1; 2; 3; 4; 5].
Proof.
  apply (rdp_send_pdu_roundtrip Ref.X Ref_laws Ref.rdp0
           (Ref.world Ref.server0) Ref.plain_stream 7 1007 0 0 0 0);
    first [ reflexivity | vm_compute; split; discriminate
          | vm_compute; discriminate ].
Defined.

(** C4 as stated fails.  On a session with encryption the frame carries the
    security header and the MAC before the (encrypted) Share Control
    header, so the two readers alone return another type and channel; and a
    type above 15 does not survive the type nibble. *)
Lemma rdp_send_pdu_roundtrip_counterexample :
  Ref.decode
    (stream_frame
       (snd (rdp_send_pdu Ref.X Ref.legacy_staged Ref.legacy_stream
               PDU_TYPE_DATA 1007)))
  <> (true, PDU_TYPE_DATA, 1007, [1; 2; 3; 4; 5])
  /\ Ref.decode
       (stream_frame
          (snd (rdp_send_pdu Ref.X Ref.rdp0 Ref.plain_stream 0x17 1007)))
     <> (true, 0x17, 1007, [1; 2; 3; 4; 5]).
Proof. split; vm_compute; intro H; discriminate H. Qed.

Lemma share_control_pdus_in_arrival_order_witness :
  rdp_recv_tpkt_pdu_loop Ref.X 3 (Ref.world Ref.rdp0) Ref.three_pdus 0 0
    Ref.no_data
  = Some (true,
          mkWorld (set_pdu_source Ref.rdp0 0)
            [Call update_recv 18; Call update_recv_pointer 48;
             Call rdp_recv_deactivate_all 84],
          stream_set_pos Ref.three_pdus 84).
Proof.
  destruct (share_control_pdus_in_arrival_order Ref.X Ref_polite
              Ref.three_pdus_parsed 3 (Ref.world Ref.rdp0) Ref.three_pdus
              0 0 Ref.no_data three_pdus_envelope)
    as (H & _); [simpl; lia|].
  rewrite H. reflexivity.
Defined.

(** The three PDUs in a TPKT frame from the server, through
    [rdp_recv_pdu]. *)
Lemma three_pdus_received :
  rdp_recv_pdu Ref.X 3 (Ref.world Ref.rdp0)
    (stream_of ([3; 0; 0; 99; 2; 0xF0; 0x80; 0x68; 0; 1; 0x03; 0xEB; 0x70;
                 0x80; 84] ++ Ref.pdu_A ++ Ref.pdu_B ++ Ref.pdu_C))
    Ref.locals0
  = Some (true,
          mkWorld (set_pdu_source Ref.rdp0 0)
            [Call update_recv 33; Call update_recv_pointer 63;
             Call rdp_recv_deactivate_all 99],
          mkSTREAM ([3; 0; 0; 99; 2; 0xF0; 0x80; 0x68; 0; 1; 0x03; 0xEB;
                     0x70; 0x80; 84] ++ Ref.pdu_A ++ Ref.pdu_B ++ Ref.pdu_C)
            99 99).
Proof. vm_compute. reflexivity. Qed.

(** * Further properties of the send and receive paths *)

Section Further.

Context {Transport Ext : Type}.
Variable X : Externals Transport Ext.

Local Abbreviation rdpRdp := (rdpRdp Transport Ext).
Local Abbreviation World := (World Transport Ext).

(** ** The bytes reserved for the security header *)

Lemma land_lor_same (a b : Z) : b <> 0 -> Z.land (Z.lor a b) b <> 0.
Proof.
  intros Hb H. rewrite Z.land_lor_distr_l, Z.land_diag in H.
  apply Z.lor_eq_0_iff in H. tauto.
Qed.

(** [rdp_security_stream_init] skips as many bytes as [rdp_get_sec_bytes]
    counts on the session it returns, except when [SEC_ENCRYPT] is staged
    on a session that does not encrypt. *)
Lemma rdp_security_stream_init_reserves (r : rdpRdp) (s : STREAM) :
  s_p (snd (rdp_security_stream_init r s))
  = s_p s + rdp_get_sec_bytes (fst (rdp_security_stream_init r s))
  <-> do_crypt r = true \/ Z.land (sec_flags r) SEC_ENCRYPT = 0.
Proof.
  unfold rdp_security_stream_init, rdp_get_sec_bytes.
  destruct (do_crypt r) eqn:Hc.
  - split; [auto|intros _].
    assert (He : forall r0 : rdpRdp,
               Z.land (sec_flags r0) SEC_ENCRYPT <> 0 ->
               Z.land (sec_flags
                         (if do_secure_checksum r0
                          then set_sec_flags r0
                                 (Z.lor (sec_flags r0) SEC_SECURE_CHECKSUM)
                          else r0)) SEC_ENCRYPT <> 0
               /\ settings (if do_secure_checksum r0
                            then set_sec_flags r0
                                   (Z.lor (sec_flags r0) SEC_SECURE_CHECKSUM)
                            else r0) = settings r0).
    { intros r0 H0. destruct (do_secure_checksum r0); [|auto].
      cbn [set_sec_flags sec_flags settings]. split; [|reflexivity].
      rewrite Z.land_lor_distr_l.
      change (Z.land SEC_SECURE_CHECKSUM SEC_ENCRYPT) with 0.
      now rewrite Z.lor_0_r. }
    destruct (He (set_sec_flags r (Z.lor (sec_flags r) SEC_ENCRYPT)))
      as (Hn & Hs).
    { cbn [set_sec_flags sec_flags]. apply land_lor_same. discriminate. }
    cbn [fst snd]. rewrite Hs.
    destruct (Z.eqb_spec
                (Z.land (sec_flags
                           (if do_secure_checksum
                                 (set_sec_flags r
                                    (Z.lor (sec_flags r) SEC_ENCRYPT))
                            then set_sec_flags
                                   (set_sec_flags r
                                      (Z.lor (sec_flags r) SEC_ENCRYPT))
                                   (Z.lor
                                      (sec_flags
                                         (set_sec_flags r
                                            (Z.lor (sec_flags r) SEC_ENCRYPT)))
                                      SEC_SECURE_CHECKSUM)
                            else set_sec_flags r
                                   (Z.lor (sec_flags r) SEC_ENCRYPT)))
                   SEC_ENCRYPT) 0) as [E|_]; [contradiction|].
    cbn [negb set_sec_flags settings].
    destruct (encryption_method (settings r) =? ENCRYPTION_METHOD_FIPS);
      cbn [stream_seek s_p]; lia.
  - destruct (Z.eqb_spec (sec_flags r) 0) as [Ez|Ez]; cbn [negb fst snd].
    + rewrite Ez. cbn. split; [auto|lia].
    + destruct (Z.eqb_spec (Z.land (sec_flags r) SEC_ENCRYPT) 0) as [E|E];
        cbn [negb stream_seek s_p].
      * destruct (Z.eqb_spec (sec_flags r) 0); [contradiction|].
        cbn [negb]. split; [auto|lia].
      * split.
        -- destruct (encryption_method (settings r) =? ENCRYPTION_METHOD_FIPS);
             lia.
        -- intros [H|H]; [discriminate|contradiction].
Qed.

(** X11.  The three stream initialisers leave the cursor after the 15 bytes of
    the MCS header, the bytes [rdp_get_sec_bytes] will count at send time, and
    the Share headers of the PDU kind: what the senders then write lands in
    front of the caller's body. *)
Theorem stream_init_reserves_what_send_counts (r : rdpRdp) :
  do_crypt r = true \/ Z.land (sec_flags r) SEC_ENCRYPT = 0 ->
  let s0 := snd (transport_send_stream_init X (transport r) 2048) in
  s_p (snd (rdp_send_stream_init X r))
  = s_p s0 + 15 + rdp_get_sec_bytes (fst (rdp_send_stream_init X r))
  /\ s_p (snd (rdp_pdu_init X r))
     = s_p s0 + 15 + rdp_get_sec_bytes (fst (rdp_pdu_init X r)) + 6
  /\ s_p (snd (rdp_data_pdu_init X r))
     = s_p s0 + 15 + rdp_get_sec_bytes (fst (rdp_data_pdu_init X r)) + 6 + 12.
Proof.
  intros H s0.
  unfold rdp_send_stream_init, rdp_pdu_init, rdp_data_pdu_init. subst s0.
  destruct (transport_send_stream_init X (transport r) 2048) as [t s].
  cbn [snd].
  pose proof (proj2 (rdp_security_stream_init_reserves (set_transport r t)
                       (stream_seek s RDP_PACKET_HEADER_MAX_LENGTH)) H) as E.
  destruct (rdp_security_stream_init (set_transport r t)
              (stream_seek s RDP_PACKET_HEADER_MAX_LENGTH)) as [r1 s1].
  cbn [fst snd stream_seek s_p] in *.
  unfold RDP_PACKET_HEADER_MAX_LENGTH, RDP_SHARE_CONTROL_HEADER_LENGTH,
    RDP_SHARE_DATA_HEADER_LENGTH in *.
  repeat split; lia.
Qed.

(** ** What [rdp_read_header] does to the session *)

Lemma set_disconnect_latched (r : rdpRdp) :
  disconnect r = true -> set_disconnect r true = r.
Proof. destruct r. cbn. now intros ->. Qed.

Lemma LLOGLN_loud (msg : string) (w : World) :
  LLOGLN 0 msg w = emit (Print msg) w.
Proof. reflexivity. Qed.

(** X16.  [rdp_read_header] changes nothing in the session but the [disconnect]
    latch, which it only ever sets. When it succeeds and the session is not
    disconnecting afterwards, nothing was printed and the user-data length it
    returns is no more than what is left in the stream. *)
Theorem rdp_read_header_postcondition
  (w : World) (s : STREAM) (length channel_id : Z) :
  let res := rdp_read_header X w s length channel_id in
  let ok := fst (fst (fst (fst res))) in
  let w' := snd (fst (fst (fst res))) in
  let s' := snd (fst (fst res)) in
  let length' := snd (fst res) in
  (rdp w' = rdp w \/ rdp w' = set_disconnect (rdp w) true)
  /\ (disconnect (rdp w) = true -> disconnect (rdp w') = true)
  /\ (ok = true -> disconnect (rdp w') = false ->
      w' = w /\ length' <= stream_get_left s').
Proof.
  intros res ok w' s' length'. subst ok w' s' length' res.
  unfold rdp_read_header.
  assert (fail : forall msg (s0 : STREAM) (l0 c0 : Z),
             let res := (false, LLOGLN 0 msg w, s0, l0, c0) in
             (rdp (snd (fst (fst (fst res)))) = rdp w
              \/ rdp (snd (fst (fst (fst res)))) = set_disconnect (rdp w) true)
             /\ (disconnect (rdp w) = true ->
                 disconnect (rdp (snd (fst (fst (fst res))))) = true)
             /\ (fst (fst (fst (fst res))) = true ->
                 disconnect (rdp (snd (fst (fst (fst res))))) = false ->
                 snd (fst (fst (fst res))) = w
                 /\ snd (fst res) <= stream_get_left (snd (fst (fst res))))).
  { intros msg s0 l0 c0. cbn. split; [auto|]. split; [auto|]. discriminate. }
  destruct (mcs_read_domain_mcspdu_header X s _ length)
    as [[[ok1 s1] m] l1].
  destruct ok1; cbn [negb]; [|apply fail].
  destruct (Z.gtb_spec (l1 - 8) (stream_get_left s1)); [apply fail|].
  destruct (m =? DomainMCSPDU_DisconnectProviderUltimatum).
  { destruct (per_read_enumerated X s1 0) as [[ok2 s2] reason].
    destruct ok2; cbn [negb]; [|apply fail].
    cbn. split; [auto|]. split; [auto|]. discriminate. }
  destruct (Z.ltb_spec (stream_get_left s1) 5); [apply fail|].
  destruct (per_read_integer16 X s1 0 MCS_BASE_CHANNEL_ID) as [[ok3 s3] ini].
  destruct (per_read_integer16 X s3 channel_id 0) as [[ok4 s4] ch].
  destruct (per_read_length X (stream_seek s4 1) l1) as [[ok5 s5] l5].
  destruct ok5; cbn [negb]; [|apply fail].
  destruct (Z.gtb_spec l5 (stream_get_left s5)); cbn [fst snd].
  - split; [auto|]. split; [auto|]. discriminate.
  - split; [auto|]. split; [auto|]. intros _ _. split; [reflexivity|lia].
Qed.

(** ** The disconnect latch *)

(** X15.  Once [disconnect] is latched no TPKT frame is processed any more:
    whatever the frame, [rdp_recv_tpkt_pdu] returns failure, the session is as
    before, and the trace grows by printed lines only (no collaborator is
    called). *)
Theorem disconnect_is_sticky
  (fuel : nat) (w : World) (s : STREAM) (u : TpktLocals) :
  disconnect (rdp w) = true ->
  exists msgs s',
    rdp_recv_tpkt_pdu X fuel w s u
    = Some (false, mkWorld (rdp w) (trace w ++ map Print msgs), s').
Proof.
  intros Hd. unfold rdp_recv_tpkt_pdu. rewrite LLOGLN_quiet.
  unfold rdp_read_header.
  destruct (mcs_read_domain_mcspdu_header X s _ (u_length u))
    as [[[ok1 s1] m] l1].
  assert (two : forall a b (s0 : STREAM),
             exists msgs s',
               Some (false, LLOGLN 0 b (LLOGLN 0 a w), s0)
               = Some (false, mkWorld (rdp w) (trace w ++ map Print msgs), s')).
  { intros a b s0. exists [a; b], s0. rewrite !LLOGLN_loud. unfold emit.
    cbn [rdp trace map]. now rewrite <- app_assoc. }
  assert (one : forall (w0 : World) a (s0 : STREAM),
             rdp w0 = rdp w -> trace w0 = trace w ->
             exists msgs s',
               Some (false, LLOGLN 0 a w0, s0)
               = Some (false, mkWorld (rdp w) (trace w ++ map Print msgs), s')).
  { intros w0 a s0 Hr Ht. exists [a], s0. rewrite LLOGLN_loud. unfold emit.
    rewrite Hr, Ht. reflexivity. }
  destruct ok1; cbn [negb]; [|apply two].
  destruct (l1 - 8 >? stream_get_left s1); [apply two|].
  destruct (m =? DomainMCSPDU_DisconnectProviderUltimatum).
  { destruct (per_read_enumerated X s1 0) as [[ok2 s2] reason].
    destruct ok2; cbn [negb]; [|apply two].
    rewrite LLOGLN_quiet. cbn [with_rdp rdp disconnect set_disconnect].
    apply one; [|reflexivity].
    cbn [rdp]. now apply set_disconnect_latched. }
  destruct (stream_get_left s1 <? 5); [apply two|].
  destruct (per_read_integer16 X s1 0 MCS_BASE_CHANNEL_ID) as [[ok3 s3] ini].
  destruct (per_read_integer16 X s3 (u_channelId u) 0) as [[ok4 s4] ch].
  destruct (per_read_length X (stream_seek s4 1) l1) as [[ok5 s5] l5].
  destruct ok5; cbn [negb]; [|apply two].
  destruct (l5 >? stream_get_left s5); cbn [negb].
  - apply one; reflexivity.
  - rewrite LLOGLN_quiet, Hd. apply one; reflexivity.
Qed.

(** ** A Share Control PDU that declares no length *)

(** X13.  A Share Control header whose [totalLength] is 0 stops the receive
    loop from advancing: the cursor is put back at the start of the same PDU,
    which is dispatched again, and again. With collaborators that accept the
    PDU the loop of [rdp_recv_tpkt_pdu] therefore never ends: no number of
    iterations reaches its exit. *)
Theorem zero_length_pdu_never_ends (s : STREAM) :
  polite_collaborators X ->
  3 < stream_get_left s ->
  fst (stream_read_uint16 s) = 0 ->
  forall (fuel : nat) (w : World) (t c : Z) (u : ShareDataHeader),
    rdp_recv_tpkt_pdu_loop X fuel w s t c u = None.
Proof.
  intros polite Hleft Hz fuel.
  induction fuel as [|fuel IH]; intros w t c u;
    cbn [rdp_recv_tpkt_pdu_loop];
    destruct (Z.gtb_spec (stream_get_left s) 3) as [_|E]; try lia;
    [reflexivity|].
  unfold rdp_read_share_control_header.
  destruct (stream_read_uint16 s) as [l s2] eqn:E2.
  cbn [fst] in Hz. subst l.
  assert (Es2 : s2 = stream_seek s 2)
    by (unfold stream_read_uint16 in E2; now injection E2 as _ <-).
  subst s2. unfold stream_get_left in *. cbn [stream_seek s_p s_size].
  destruct (Z.gtb_spec (0 - 2) (s_size s - (s_p s + 2))) as [E|_]; [lia|].
  destruct (stream_read_uint16 (stream_seek s 2)) as [ty s4] eqn:E4.
  assert (Es4 : s4 = stream_seek (stream_seek s 2) 2)
    by (unfold stream_read_uint16 in E4; now injection E4 as _ <-).
  cbn [Z.gtb Z.compare].
  match goal with
  | |- context [rdp_recv_tpkt_pdu_switch X ?a ?b ?d ?e] =>
      destruct (rdp_recv_tpkt_pdu_switch_polite X polite a b d e)
        as (Hok & Hd & Hs & _);
      destruct (rdp_recv_tpkt_pdu_switch X a b d e) as [[ok w2] s5]
  end.
  cbn [fst snd] in Hok, Hd, Hs. subst ok s4. cbn [negb].
  cbn [stream_seek s_data s_size] in Hd, Hs.
  replace (stream_set_mark s5 (stream_get_mark s + 0)) with s; [apply IH|].
  unfold stream_set_mark, stream_get_mark. rewrite Hd, Hs, Z.add_0_r.
  now destruct s.
Qed.

(** ** When the dispatch of a Share Control PDU fails *)

(** X17.  The dispatch inside the receive loop fails in two cases only: a Data
    PDU that is flagged compressed and whose decompression fails, and a
    DEACTIVATE_ALL its handler refuses. Every other PDU is accepted: the Data
    PDU handlers' results are not looked at, nor is that of the redirection
    handler, and an unknown type is only logged. *)
Theorem rdp_recv_tpkt_pdu_switch_failure
  (w : World) (s : STREAM) (pduType : Z) (u : ShareDataHeader) :
  let h := snd (rdp_read_share_data_header s u) in
  let s1 := snd (fst (rdp_read_share_data_header s u)) in
  fst (fst (rdp_recv_tpkt_pdu_switch X w s pduType u)) = false
  <-> (pduType = PDU_TYPE_DATA
       /\ Z.land (sd_compressed_type h) PACKET_COMPRESSED <> 0
       /\ fst (fst (fst (decompress_rdp X (rdp w)
                           (region s1 (s_p s1) (sd_compressed_len h - 18))
                           (sd_compressed_type h)))) = false)
      \/ (pduType = PDU_TYPE_DEACTIVATE_ALL
          /\ fst (fst (handler X rdp_recv_deactivate_all 0 (rdp w) s))
             = false).
Proof.
  intros h s1. subst h s1. unfold rdp_recv_tpkt_pdu_switch.
  destruct (Z.eqb_spec pduType PDU_TYPE_DATA) as [Et|Et].
  { subst pduType. unfold rdp_recv_data_pdu.
    destruct (rdp_read_share_data_header s u) as [[okh s1] h].
    cbn [fst snd]. unfold rdp_recv_data_pdu_dispatch.
    destruct (Z.eqb_spec (Z.land (sd_compressed_type h) PACKET_COMPRESSED) 0)
      as [Ec|Ec]; cbn [negb].
    - destruct (rdp_recv_data_pdu_switch X w s1 (sd_type h)) as [w' s'].
      cbn. split; [discriminate|].
      intros [(_ & H & _)|(H & _)]; [contradiction|discriminate].
    - destruct (decompress_rdp X (rdp w) _ (sd_compressed_type h))
        as [[[okd r] roff] rlen].
      cbn [fst snd]. destruct okd.
      + match goal with
        | |- context [rdp_recv_data_pdu_switch X ?a ?b ?c] =>
            destruct (rdp_recv_data_pdu_switch X a b c) as [w' s']
        end.
        cbn. split; [discriminate|].
        intros [(_ & _ & H)|(H & _)]; discriminate.
      + cbn. split; [auto|reflexivity]. }
  destruct (Z.eqb_spec pduType PDU_TYPE_DEACTIVATE_ALL) as [Ed|Ed].
  { subst pduType. unfold invoke.
    destruct (handler X rdp_recv_deactivate_all 0 (rdp w) s)
      as [[ok r'] s'].
    cbn [fst snd]. split; [auto|].
    intros [(H & _)|(_ & H)]; [discriminate|exact H]. }
  destruct (pduType =? PDU_TYPE_SERVER_REDIRECTION).
  { destruct (invoke X rdp_recv_enhanced_security_redirection_packet 0 w s)
      as [[ok w'] s'].
    cbn. split; [discriminate|]. intros [(H & _)|(H & _)]; contradiction. }
  cbn. split; [discriminate|]. intros [(H & _)|(H & _)]; contradiction.
Qed.

(** ** Typed reads of what the typed writes put *)

Lemma le32_value (v : Z) :
  0 <= v <= 0xFFFFFFFF ->
  Z.land (Z.land v 0xFF) 0xFF
  + Z.shiftl (Z.land (Z.land (Z.shiftr v 8) 0xFF) 0xFF) 8
  + Z.shiftl (Z.land (Z.land (Z.shiftr v 16) 0xFF) 0xFF) 16
  + Z.shiftl (Z.land (Z.land (Z.shiftr v 24) 0xFF) 0xFF) 24 = v.
Proof.
  intros H. change 0xFF with (Z.ones 8).
  rewrite !Z.land_ones, !Z.shiftr_div_pow2, !Z.shiftl_mul_pow2 by lia.
  change (2 ^ 8) with 256. change (2 ^ 16) with 65536.
  change (2 ^ 24) with 16777216.
  rewrite !Z.mod_mod by lia.
  pose proof (Z.div_mod v 256 ltac:(lia)).
  pose proof (Z.div_mod (v / 256) 256 ltac:(lia)).
  pose proof (Z.div_mod (v / 256 / 256) 256 ltac:(lia)).
  pose proof (Z.mod_pos_bound v 256 ltac:(lia)).
  pose proof (Z.mod_pos_bound (v / 256) 256 ltac:(lia)).
  pose proof (Z.mod_pos_bound (v / 256 / 256) 256 ltac:(lia)).
  replace (v / 65536) with (v / 256 / 256)
    by (rewrite Z.div_div by lia; reflexivity).
  replace (v / 16777216) with (v / 256 / 256 / 256)
    by (rewrite !Z.div_div by lia; reflexivity).
  assert (0 <= v / 256 / 256 / 256 < 256).
  { split; [repeat apply Z.div_pos; lia|].
    repeat (apply Z.div_lt_upper_bound; [lia|]). lia. }
  rewrite (Z.mod_small (v / 256 / 256 / 256)) by lia.
  pose proof (Z.div_mod (v / 256 / 256) 256 ltac:(lia)). lia.
Qed.

Lemma byte_at_of_peek4 (d : list Z) (i a b c e : Z) :
  0 <= i -> peek d i 4 = [a; b; c; e] ->
  byte_at d i = Z.land a 0xFF /\ byte_at d (i + 1) = Z.land b 0xFF
  /\ byte_at d (i + 2) = Z.land c 0xFF /\ byte_at d (i + 3) = Z.land e 0xFF.
Proof.
  intros Hi H.
  rewrite <- (Z.add_0_r i) at 1.
  rewrite <- !(byte_at_peek d i 4) by lia. rewrite H.
  repeat split; reflexivity.
Qed.

Lemma stream_read_uint32_le32 (s : STREAM) (v : Z) :
  0 <= s_p s -> 0 <= v <= 0xFFFFFFFF ->
  region s (s_p s) 4 = le32 v ->
  stream_read_uint32 s = (v, stream_seek s 4).
Proof.
  intros Hp Hv H. unfold stream_read_uint32.
  destruct (byte_at_of_peek4 (s_data s) (s_p s) _ _ _ _ Hp H)
    as (E0 & E1 & E2 & E3).
  rewrite E0, E1, E2, E3. now rewrite le32_value.
Qed.

(** ** Set Error Info *)

(** X18.  A Data PDU of type Set Error Info that is not flagged compressed: the
    32-bit code after the Share Data header becomes [errorInfo], it is printed
    only when it is not [ERRINFO_SUCCESS], and the PDU is accepted either way
    (the session is not ended here). The code is read whether or not four bytes
    are left after the header. *)
Theorem set_error_info_data_pdu
  (w : World) (s : STREAM) (u : ShareDataHeader) (code : Z) :
  0 <= s_p s -> 12 <= stream_get_left s ->
  byte_at (s_data s) (s_p s + 8) = DATA_PDU_TYPE_SET_ERROR_INFO ->
  Z.land (byte_at (s_data s) (s_p s + 9)) PACKET_COMPRESSED = 0 ->
  0 <= code <= 0xFFFFFFFF ->
  region s (s_p s + 12) 4 = le32 code ->
  let w' := with_rdp w (set_errorInfo (rdp w) code) in
  rdp_recv_data_pdu X w s u
  = (true,
     (if code =? ERRINFO_SUCCESS then w'
      else emit (Call rdp_print_errinfo code) w'),
     stream_seek s 16).
Proof.
  intros Hp Hleft Hty Hct Hcode Hreg w'. subst w'.
  unfold rdp_recv_data_pdu, rdp_read_share_data_header.
  destruct (Z.ltb_spec (stream_get_left s) 12) as [E|_]; [lia|].
  unfold stream_read_uint32 at 1, stream_seek_uint8, stream_read_uint16,
    stream_read_uint8, stream_seek.
  cbn [fst snd s_data s_p s_size].
  replace (s_p s + 4 + 1 + 1 + 2) with (s_p s + 8) by lia.
  replace (s_p s + 8 + 1) with (s_p s + 9) by lia.
  rewrite Hty.
  unfold rdp_recv_data_pdu_dispatch. cbn [sd_compressed_type sd_type].
  rewrite Hct. cbn [Z.eqb negb].
  unfold rdp_recv_data_pdu_switch.
  change (DATA_PDU_TYPE_SET_ERROR_INFO =? DATA_PDU_TYPE_UPDATE) with false.
  change (DATA_PDU_TYPE_SET_ERROR_INFO =? DATA_PDU_TYPE_CONTROL) with false.
  change (DATA_PDU_TYPE_SET_ERROR_INFO =? DATA_PDU_TYPE_POINTER) with false.
  change (DATA_PDU_TYPE_SET_ERROR_INFO =? DATA_PDU_TYPE_SYNCHRONIZE)
    with false.
  change (DATA_PDU_TYPE_SET_ERROR_INFO =? DATA_PDU_TYPE_PLAY_SOUND)
    with false.
  change (DATA_PDU_TYPE_SET_ERROR_INFO =? DATA_PDU_TYPE_SAVE_SESSION_INFO)
    with false.
  change (DATA_PDU_TYPE_SET_ERROR_INFO =? DATA_PDU_TYPE_FONT_MAP) with false.
  change (DATA_PDU_TYPE_SET_ERROR_INFO =? DATA_PDU_TYPE_SET_ERROR_INFO)
    with true.
  cbv iota.
  unfold rdp_recv_set_error_info_data_pdu.
  replace (s_p s + 9 + 1 + 2) with (s_p s + 12) by lia.
  rewrite (stream_read_uint32_le32
             (mkSTREAM (s_data s) (s_p s + 12) (s_size s)) code);
    [|cbn [s_p]; lia|exact Hcode|exact Hreg].
  unfold stream_seek.
  cbn [with_rdp rdp errorInfo set_errorInfo s_data s_p s_size].
  replace (s_p s + 12 + 4) with (s_p s + 16) by lia.
  destruct (code =? ERRINFO_SUCCESS); reflexivity.
Qed.

(** ** Compressed Data PDUs *)

(** X28.  A Data PDU flagged compressed whose payload decompresses: the bytes
    handed to the decompressor are the [compressedLength - 18] bytes after the
    Share Data header, the handler for the data type reads a fresh stream over
    the history buffer (from [roff], [rlen] bytes long, cursor at its start),
    not the bytes of the frame, and the frame's own cursor stays right after
    the Share Data header. ([compressedLength] of at least 18: below that the C
    code passes a negative length.) *)
Theorem compressed_data_pdu_reads_the_history_buffer
  (w : World) (s : STREAM) (u : ShareDataHeader) (ty ct cl roff rlen : Z)
  (r1 : rdpRdp) :
  12 <= stream_get_left s ->
  byte_at (s_data s) (s_p s + 8) = ty ->
  byte_at (s_data s) (s_p s + 9) = ct ->
  Z.land ct PACKET_COMPRESSED <> 0 ->
  fst (stream_read_uint16 (stream_seek s 10)) = cl -> 18 <= cl ->
  decompress_rdp X (rdp w) (region s (s_p s + 12) (cl - 18)) ct
  = (true, r1, roff, rlen) ->
  rdp_recv_data_pdu X w s u
  = (true,
     fst (rdp_recv_data_pdu_switch X (with_rdp w r1)
            (mkSTREAM (skipn (Z.to_nat roff) (mppc_history_buf r1)) 0 rlen)
            ty),
     stream_seek s 12).
Proof.
  intros Hleft Hty Hct Hc Hcl _ Hdec.
  unfold rdp_recv_data_pdu, rdp_read_share_data_header.
  destruct (Z.ltb_spec (stream_get_left s) 12) as [E|_]; [lia|].
  unfold stream_read_uint32, stream_seek_uint8.
  unfold stream_read_uint16 in *. unfold stream_read_uint8.
  unfold stream_seek in *.
  cbn [fst snd s_data s_p s_size] in *.
  replace (s_p s + 4 + 1 + 1 + 2) with (s_p s + 8) by lia.
  replace (s_p s + 8 + 1) with (s_p s + 9) by lia.
  replace (s_p s + 9 + 1) with (s_p s + 10) by lia.
  replace (s_p s + 10 + 2) with (s_p s + 12) by lia.
  rewrite Hty, Hct, Hcl.
  unfold rdp_recv_data_pdu_dispatch.
  cbn [sd_compressed_type sd_type sd_compressed_len].
  destruct (Z.eqb_spec (Z.land ct PACKET_COMPRESSED) 0) as [E|_];
    [contradiction|].
  cbn [negb]. unfold region at 1. cbn [s_data s_p].
  unfold region in Hdec. rewrite Hdec.
  cbn [with_rdp rdp].
  destruct (rdp_recv_data_pdu_switch X _ _ ty) as [w' cs]. reflexivity.
Qed.

(** ** Fast-path: the length check *)

(** X19.  A fast-path PDU whose header gives length 0, or more than the stream
    has left, is rejected before anything else is done: nothing is decrypted
    and [fastpath_recv_updates] is not called. *)
Theorem fastpath_bad_length_rejected (w : World) (s : STREAM) :
  let hdr := fastpath_read_header_rdp X (rdp w) s in
  let length := to_uint16 (fst (fst hdr)) in
  length = 0 \/ stream_get_left (snd hdr) < length ->
  rdp_recv_fastpath_pdu X w s
  = (false,
     emit
       (Print "rdp_recv_fastpath_pdu: incorrect FastPath PDU header length %d")
       (with_rdp w (snd (fst hdr))),
     snd hdr).
Proof.
  intros hdr length H. subst length hdr. unfold rdp_recv_fastpath_pdu.
  rewrite LLOGLN_quiet.
  destruct (fastpath_read_header_rdp X (rdp w) s) as [[l r1] s1].
  cbn [fst snd] in *. rewrite LLOGLN_quiet.
  destruct (Z.eqb_spec (to_uint16 l) 0) as [E|E]; [reflexivity|].
  destruct (Z.gtb_spec (to_uint16 l) (stream_get_left s1)) as [G|G];
    [reflexivity|].
  lia.
Qed.

(** ** Frames on other channels *)

(** X20.  A frame that is not on the global channel, on a session without
    encryption: the payload goes to [freerdp_channel_process] with the channel
    id, once, and the receive reports success whatever that call returned; no
    Share Control header is read. *)
Theorem other_channel_goes_to_channel_process
  (fuel : nat) (w w1 : World) (s s1 : STREAM) (u : TpktLocals)
  (length channelId : Z) :
  rdp_read_header X w s (u_length u) (u_channelId u)
  = (true, w1, s1, length, channelId) ->
  disconnect (rdp w1) = false ->
  encryption (settings (rdp w1)) = false ->
  channelId <> MCS_GLOBAL_CHANNEL_ID ->
  let res := handler X freerdp_channel_process channelId (rdp w1) s1 in
  rdp_recv_tpkt_pdu X fuel w s u
  = Some (true,
          mkWorld (snd (fst res))
            (trace w1 ++ [Call freerdp_channel_process (s_p s1)]),
          snd res).
Proof.
  intros Hh Hd He Hc res. subst res. unfold rdp_recv_tpkt_pdu.
  rewrite LLOGLN_quiet, Hh. cbn [negb].
  rewrite LLOGLN_quiet, Hd, He.
  destruct (Z.eqb_spec channelId MCS_GLOBAL_CHANNEL_ID) as [E|_];
    [contradiction|].
  cbn [negb]. unfold invoke.
  destruct (handler X freerdp_channel_process channelId (rdp w1) s1)
    as [[ok r'] s'].
  reflexivity.
Qed.

(** ** The three headers: what the writer puts, the reader takes back *)

Lemma to_uint16_range (v : Z) : 0 <= to_uint16 v <= 0xFFFF.
Proof.
  unfold to_uint16. change (Z.land v 0xFFFF) with (Z.land v (Z.ones 16)).
  rewrite Z.land_ones by lia. change (2 ^ 16) with 65536.
  pose proof (Z.mod_pos_bound v 65536). lia.
Qed.

Lemma to_uint16_idem (v : Z) : to_uint16 (to_uint16 v) = to_uint16 v.
Proof. apply to_uint16_small, to_uint16_range. Qed.

Lemma stream_eq (a b : STREAM) :
  s_data a = s_data b -> s_p a = s_p b -> s_size a = s_size b -> a = b.
Proof. destruct a, b. cbn. now intros -> -> ->. Qed.

(** X8.  The security header: the reader, put back where the writer started,
    returns the low 16 bits of the flags that were written and stops where the
    writer stopped. *)
Theorem security_header_roundtrip (s : STREAM) (flags : Z) :
  0 <= s_p s -> s_p s + 4 <= len (s_data s) ->
  let s' := rdp_write_security_header s flags in
  rdp_read_security_header (stream_set_pos s' (s_p s))
  = (to_uint16 flags, s').
Proof.
  intros Hp Hfit s'. subst s'.
  unfold rdp_write_security_header, stream_write_uint16.
  set (F := le16 (to_uint16 flags)).
  destruct (stream_put_spec s F) as (p1 & z1 & l1 & s1 & o1);
    [lia|change (len F) with 2; lia|].
  set (a1 := stream_put s F) in *. change (len F) with 2 in *.
  destruct (stream_put_spec a1 (le16 0)) as (p2 & z2 & l2 & s2 & o2);
    [lia|change (len (le16 0)) with 2; lia|].
  set (a2 := stream_put a1 (le16 0)) in *. change (len (le16 0)) with 2 in *.
  unfold rdp_read_security_header.
  rewrite (stream_read_uint16_le16 (stream_set_pos a2 (s_p s))
             (to_uint16 flags));
    [|cbn [stream_set_pos s_p]; lia|apply to_uint16_range|].
  - reflexivity.
  - unfold region. cbn [stream_set_pos s_data s_p].
    rewrite o2 by lia. exact s1.
Qed.

(** X9.  The Share Control header: the reader returns the [totalLength] the
    writer derived from the frame length (the frame length less the 15 bytes of
    the MCS header), the type and the channel id, and stops where the writer
    stopped. *)
Theorem share_control_header_roundtrip
  (s : STREAM) (length type channel_id t0 c0 : Z) :
  0 <= s_p s -> s_p s + 6 <= len (s_data s) ->
  19 < length <= 0xFFFF -> length - 15 <= stream_get_left s ->
  0 <= type <= 15 -> 0 <= channel_id <= 0xFFFF ->
  let s' := rdp_write_share_control_header s length type channel_id in
  rdp_read_share_control_header (stream_set_pos s' (s_p s)) t0 c0
  = (true, s', length - 15, type, channel_id).
Proof.
  intros Hp Hfit Hl Hleft Ht Hc s'.
  destruct (rdp_write_share_control_header_spec s length type channel_id
              Hp Hfit) as (p1 & z1 & l1 & c0' & c2 & c4 & _).
  fold s' in p1, z1, l1, c0', c2, c4.
  rewrite (to_uint16_small length) in c0' by lia.
  unfold RDP_PACKET_HEADER_MAX_LENGTH in c0'.
  rewrite (to_uint16_small (length - 15)) in c0' by lia.
  rewrite (to_uint16_small type) in c2 by lia.
  rewrite (to_uint16_small channel_id) in c4 by lia.
  rewrite (rdp_read_share_control_header_bytes
             (stream_set_pos s' (s_p s)) (length - 15) type channel_id t0 c0).
  - f_equal. f_equal. f_equal. f_equal.
    apply stream_eq; cbn [stream_seek stream_set_pos s_data s_p s_size];
      [reflexivity|lia|reflexivity].
  - cbn [stream_set_pos s_p]. lia.
  - lia.
  - unfold stream_get_left in *. cbn [stream_set_pos s_p s_size]. lia.
  - lia.
  - lia.
  - unfold region. cbn [stream_set_pos s_p s_data].
    change 6 with (2 + (2 + 2)). rewrite !peek_app_split by lia.
    replace (s_p s + 2 + 2) with (s_p s + 4) by lia.
    rewrite c0', c2, c4. reflexivity.
Qed.

(** The twelve bytes of the Share Data header, as written. *)
Lemma rdp_write_share_data_header_spec (s : STREAM) (l t c : Z) :
  0 <= s_p s -> s_p s + 12 <= len (s_data s) ->
  let s' := rdp_write_share_data_header s l t c in
  let total :=
    to_uint16 (to_uint16 (to_uint16 (to_uint16 l
                                     - RDP_PACKET_HEADER_MAX_LENGTH)
                          - RDP_SHARE_CONTROL_HEADER_LENGTH)
               - RDP_SHARE_DATA_HEADER_LENGTH) in
  s_p s' = s_p s + 12 /\ s_size s' = s_size s
  /\ len (s_data s') = len (s_data s)
  /\ peek (s_data s') (s_p s) 12
     = le32 c ++ [0; STREAM_LOW] ++ le16 total ++ [Z.land t 0xFF; 0]
       ++ le16 0
  /\ forall j n, 0 <= j -> 0 <= n -> j + n <= s_p s \/ s_p s + 12 <= j ->
       peek (s_data s') j n = peek (s_data s) j n.
Proof.
  intros Hp Hfit s' total. subst s'. unfold rdp_write_share_data_header.
  fold total.
  unfold stream_write_uint32, stream_write_uint16, stream_write_uint8.
  destruct (stream_put_spec s (le32 c)) as (p1 & z1 & l1 & s1 & o1);
    [lia|change (len (le32 c)) with 4; lia|].
  set (a1 := stream_put s (le32 c)) in *. change (len (le32 c)) with 4 in *.
  destruct (stream_put_spec a1 [Z.land 0 255]) as (p2 & z2 & l2 & s2 & o2);
    [lia|change (len [Z.land 0 255]) with 1; lia|].
  set (a2 := stream_put a1 [Z.land 0 255]) in *.
  change (len [Z.land 0 255]) with 1 in *.
  destruct (stream_put_spec a2 [Z.land STREAM_LOW 255])
    as (p3 & z3 & l3 & s3 & o3);
    [lia|change (len [Z.land STREAM_LOW 255]) with 1; lia|].
  set (a3 := stream_put a2 [Z.land STREAM_LOW 255]) in *.
  change (len [Z.land STREAM_LOW 255]) with 1 in *.
  destruct (stream_put_spec a3 (le16 total)) as (p4 & z4 & l4 & s4 & o4);
    [lia|change (len (le16 total)) with 2; lia|].
  set (a4 := stream_put a3 (le16 total)) in *.
  change (len (le16 total)) with 2 in *.
  destruct (stream_put_spec a4 [Z.land t 255]) as (p5 & z5 & l5 & s5 & o5);
    [lia|change (len [Z.land t 255]) with 1; lia|].
  set (a5 := stream_put a4 [Z.land t 255]) in *.
  change (len [Z.land t 255]) with 1 in *.
  destruct (stream_put_spec a5 [Z.land 0 255]) as (p6 & z6 & l6 & s6 & o6);
    [lia|change (len [Z.land 0 255]) with 1; lia|].
  set (a6 := stream_put a5 [Z.land 0 255]) in *.
  change (len [Z.land 0 255]) with 1 in *.
  destruct (stream_put_spec a6 (le16 0)) as (p7 & z7 & l7 & s7 & o7);
    [lia|change (len (le16 0)) with 2; lia|].
  set (a7 := stream_put a6 (le16 0)) in *.
  change (len (le16 0)) with 2 in *.
  split; [lia|]. split; [congruence|]. split; [lia|].
  split.
  - change 12 with (4 + (1 + (1 + (2 + (1 + (1 + 2)))))).
    rewrite !peek_app_split by lia.
    rewrite (o7 (s_p s) 4), (o6 (s_p s) 4), (o5 (s_p s) 4), (o4 (s_p s) 4),
      (o3 (s_p s) 4), (o2 (s_p s) 4), s1 by lia.
    rewrite (o7 (s_p s + 4) 1), (o6 (s_p s + 4) 1), (o5 (s_p s + 4) 1),
      (o4 (s_p s + 4) 1), (o3 (s_p s + 4) 1) by lia.
    replace (s_p s + 4) with (s_p a1) at 1 by lia. rewrite s2.
    rewrite (o7 (s_p s + 4 + 1) 1), (o6 (s_p s + 4 + 1) 1),
      (o5 (s_p s + 4 + 1) 1), (o4 (s_p s + 4 + 1) 1) by lia.
    replace (s_p s + 4 + 1) with (s_p a2) at 1 by lia. rewrite s3.
    rewrite (o7 (s_p s + 4 + 1 + 1) 2), (o6 (s_p s + 4 + 1 + 1) 2),
      (o5 (s_p s + 4 + 1 + 1) 2) by lia.
    replace (s_p s + 4 + 1 + 1) with (s_p a3) at 1 by lia. rewrite s4.
    rewrite (o7 (s_p s + 4 + 1 + 1 + 2) 1), (o6 (s_p s + 4 + 1 + 1 + 2) 1)
      by lia.
    replace (s_p s + 4 + 1 + 1 + 2) with (s_p a4) at 1 by lia. rewrite s5.
    rewrite (o7 (s_p s + 4 + 1 + 1 + 2 + 1) 1) by lia.
    replace (s_p s + 4 + 1 + 1 + 2 + 1) with (s_p a5) at 1 by lia.
    rewrite s6.
    replace (s_p s + 4 + 1 + 1 + 2 + 1 + 1) with (s_p a6) by lia.
    rewrite s7. reflexivity.
  - intros j n Hj Hn Hjn.
    rewrite o7, o6, o5, o4, o3, o2, o1 by lia. reflexivity.
Qed.

(** The reader on the twelve bytes of a Share Data header. *)
Lemma rdp_read_share_data_header_bytes
  (s : STREAM) (u : ShareDataHeader) (share len16 ty ct cl b4 b5 : Z) :
  0 <= s_p s -> 12 <= stream_get_left s ->
  0 <= share <= 0xFFFFFFFF -> 0 <= len16 <= 0xFFFF -> 0 <= cl <= 0xFFFF ->
  0 <= ty <= 0xFF -> 0 <= ct <= 0xFF ->
  region s (s_p s) 12
  = le32 share ++ [b4; b5] ++ le16 len16 ++ [ty; ct] ++ le16 cl ->
  rdp_read_share_data_header s u
  = (true, stream_seek s 12, mkShareData len16 ty share ct cl).
Proof.
  intros Hp Hleft Hsh Hl Hcl Hty Hct H. unfold region in H.
  assert (R : peek (s_data s) (s_p s) 4 = le32 share
              /\ peek (s_data s) (s_p s + 4 + 1 + 1) 2 = le16 len16
              /\ peek (s_data s) (s_p s + 4 + 1 + 1 + 2 + 1 + 1) 2 = le16 cl).
  { rewrite <- (Z.add_0_r (s_p s)) at 1.
    replace (s_p s + 4 + 1 + 1) with (s_p s + 6) by lia.
    replace (s_p s + 6 + 2 + 1 + 1) with (s_p s + 10) by lia.
    rewrite <- !(peek_sub (s_data s) (s_p s) 12) by lia.
    rewrite H. repeat split; reflexivity. }
  destruct R as (R0 & R6 & R10).
  assert (B8 : byte_at (s_data s) (s_p s + 4 + 1 + 1 + 2) = ty).
  { replace (s_p s + 4 + 1 + 1 + 2) with (s_p s + 8) by lia.
    rewrite <- (byte_at_peek (s_data s) (s_p s) 12 8) by lia. rewrite H.
    change (byte_at _ 8) with (Z.land ty 0xFF). apply land_0xFF_small. lia. }
  assert (B9 : byte_at (s_data s) (s_p s + 4 + 1 + 1 + 2 + 1) = ct).
  { replace (s_p s + 4 + 1 + 1 + 2 + 1) with (s_p s + 9) by lia.
    rewrite <- (byte_at_peek (s_data s) (s_p s) 12 9) by lia. rewrite H.
    change (byte_at _ 9) with (Z.land ct 0xFF). apply land_0xFF_small. lia. }
  unfold rdp_read_share_data_header.
  destruct (Z.ltb_spec (stream_get_left s) 12) as [E|_]; [lia|].
  rewrite (stream_read_uint32_le32 s share Hp Hsh R0).
  unfold stream_seek_uint8.
  rewrite (stream_read_uint16_le16
             (stream_seek (stream_seek (stream_seek s 4) 1) 1) len16);
    [|cbn [stream_seek s_p]; lia|lia|exact R6].
  unfold stream_read_uint8. cbn [stream_seek s_data s_p s_size].
  rewrite B8, B9.
  rewrite (stream_read_uint16_le16
             (stream_seek
                (stream_seek
                   (stream_seek
                      (stream_seek (stream_seek (stream_seek s 4) 1) 1) 2)
                   1) 1) cl);
    [|cbn [stream_seek s_p]; lia|lia|exact R10].
  unfold stream_seek. cbn [s_data s_p s_size].
  replace (s_p s + 4 + 1 + 1 + 2 + 1 + 1 + 2) with (s_p s + 12) by lia.
  reflexivity.
Qed.

(** X10.  The Share Data header: the reader returns the share id and the type
    the writer was given, the body length the writer derived from the frame
    length (less 15, 6 and 12 bytes of headers), and no compression; it stops
    where the writer stopped. *)
Theorem share_data_header_roundtrip
  (s : STREAM) (length type share_id : Z) (u : ShareDataHeader) :
  0 <= s_p s -> s_p s + 12 <= len (s_data s) -> 12 <= stream_get_left s ->
  33 <= length <= 0xFFFF -> 0 <= type <= 0xFF ->
  0 <= share_id <= 0xFFFFFFFF ->
  let s' := rdp_write_share_data_header s length type share_id in
  rdp_read_share_data_header (stream_set_pos s' (s_p s)) u
  = (true, s', mkShareData (length - 33) type share_id 0 0).
Proof.
  intros Hp Hfit Hleft Hl Ht Hs s'.
  destruct (rdp_write_share_data_header_spec s length type share_id Hp Hfit)
    as (p1 & z1 & l1 & c & _).
  fold s' in p1, z1, l1, c.
  unfold RDP_PACKET_HEADER_MAX_LENGTH, RDP_SHARE_CONTROL_HEADER_LENGTH,
    RDP_SHARE_DATA_HEADER_LENGTH in c.
  rewrite (to_uint16_small length) in c by lia.
  rewrite (to_uint16_small (length - 15)) in c by lia.
  rewrite (to_uint16_small (length - 15 - 6)) in c by lia.
  rewrite (to_uint16_small (length - 15 - 6 - 12)) in c by lia.
  replace (length - 15 - 6 - 12) with (length - 33) in c by lia.
  rewrite (land_0xFF_small type) in c by lia.
  rewrite (rdp_read_share_data_header_bytes (stream_set_pos s' (s_p s)) u
             share_id (length - 33) type 0 0 0 STREAM_LOW).
  - f_equal. f_equal.
    apply stream_eq; cbn [stream_seek stream_set_pos s_data s_p s_size];
      [reflexivity|lia|reflexivity].
  - cbn [stream_set_pos s_p]. lia.
  - unfold stream_get_left in *. cbn [stream_set_pos s_p s_size]. lia.
  - lia.
  - lia.
  - lia.
  - lia.
  - lia.
  - unfold region. cbn [stream_set_pos s_p s_data]. exact c.
Qed.

(** ** A Share Control PDU longer than the stream *)

(** X14.  A Share Control header that declares more bytes than the stream has
    left fails its length check, but the loop of [rdp_recv_tpkt_pdu] does not
    look at that result: it dispatches anyway, on the type and source its
    variables held before (those of the previous PDU, or whatever the locals
    held on entry), with the cursor after the length field alone. With
    collaborators that accept the PDU the receive then ends in success, the
    cursor past the end of the stream. *)
Theorem overlong_share_control_pdu_is_dispatched
  (fuel : nat) (w : World) (s : STREAM) (t c : Z) (u : ShareDataHeader) :
  polite_collaborators X ->
  3 < stream_get_left s ->
  let declared := fst (stream_read_uint16 s) in
  stream_get_left s < declared ->
  let w1 := with_rdp w (set_pdu_source (rdp w) c) in
  rdp_read_share_control_header s t c
  = (false, stream_seek s 2, declared, t, c)
  /\ rdp_recv_tpkt_pdu_loop X (S fuel) w s t c u
     = Some (true,
             snd (fst (rdp_recv_tpkt_pdu_switch X w1 (stream_seek s 2) t u)),
             mkSTREAM (s_data s) (s_p s + declared) (s_size s)).
Proof.
  intros polite Hleft declared Hlong w1.
  assert (Hrd : rdp_read_share_control_header s t c
                = (false, stream_seek s 2, declared, t, c)).
  { unfold rdp_read_share_control_header. subst declared.
    unfold stream_read_uint16 in *. cbn [fst] in *.
    unfold stream_get_left in *. cbn [stream_seek s_p s_size].
    match goal with
    | |- context [?a >? ?b] => destruct (Z.gtb_spec a b) as [_|E]
    end; [reflexivity|lia]. }
  split; [exact Hrd|].
  cbn [rdp_recv_tpkt_pdu_loop].
  destruct (Z.gtb_spec (stream_get_left s) 3) as [_|E]; [|lia].
  rewrite Hrd. fold w1.
  destruct (rdp_recv_tpkt_pdu_switch_polite X polite w1 (stream_seek s 2) t u)
    as (Hok & Hd & Hs & _).
  destruct (rdp_recv_tpkt_pdu_switch X w1 (stream_seek s 2) t u)
    as [[ok w2] s2].
  cbn [fst snd stream_seek s_data s_size] in *. subst ok. cbn [negb].
  unfold stream_get_mark, stream_set_mark. rewrite Hd, Hs.
  apply rdp_recv_tpkt_pdu_loop_end.
  unfold stream_get_left in *. cbn [s_size s_p]. lia.
Qed.

(** ** Out-of-sequence PDUs *)

(** X22.  [rdp_recv_out_of_sequence_pdu] accepts two kinds of PDU only: a Data
    PDU that [rdp_recv_data_pdu] accepts, and a Server Redirection PDU
    (whatever its handler returns). A DEACTIVATE_ALL, which the loop of
    [rdp_recv_tpkt_pdu] handles, is refused here, as is every other type,
    without any collaborator being called. The type is the one the header
    reader returned, so after a failed header read it is what the local held on
    entry. *)
Theorem rdp_recv_out_of_sequence_pdu_accepts
  (w : World) (s : STREAM) (type channelId : Z) (u : ShareDataHeader) :
  let hdr := rdp_read_share_control_header s type channelId in
  let type' := snd (fst hdr) in
  let s1 := snd (fst (fst (fst hdr))) in
  let w1 := emit (Print "rdp_recv_out_of_sequence_pdu:") w in
  let res := rdp_recv_out_of_sequence_pdu X w s type channelId u in
  (fst (fst res) = true
   <-> (type' = PDU_TYPE_DATA
        /\ fst (fst (rdp_recv_data_pdu X w1 s1 u)) = true)
       \/ type' = PDU_TYPE_SERVER_REDIRECTION)
  /\ (type' <> PDU_TYPE_DATA -> type' <> PDU_TYPE_SERVER_REDIRECTION ->
      res = (false, w1, s1)).
Proof.
  intros hdr type' s1 w1 res. subst res type' s1 hdr.
  unfold rdp_recv_out_of_sequence_pdu. rewrite LLOGLN_loud. fold w1.
  destruct (rdp_read_share_control_header s type channelId)
    as [[[[okh s1] l] t'] c'].
  cbn [fst snd].
  destruct (Z.eqb_spec t' PDU_TYPE_DATA) as [Ed|Ed].
  { split; [|contradiction].
    split; [auto|]. intros [(_ & H)|H]; [exact H|].
    subst t'. discriminate. }
  destruct (Z.eqb_spec t' PDU_TYPE_SERVER_REDIRECTION) as [Er|Er].
  { split; [|contradiction].
    destruct (invoke X rdp_recv_enhanced_security_redirection_packet 0 w1 s1)
      as [[ok w2] s2].
    cbn. split; auto. }
  split; [|reflexivity].
  cbn. split; [discriminate|]. intros [(H & _)|H]; contradiction.
Qed.

(** ** Nothing stays staged after a send *)

Lemma sender_tail_clears (r : rdpRdp) (s : STREAM) (length : Z) :
  sec_flags
    (snd (fst (let '(pad, r, s) := rdp_security_stream_out X r s length in
               let length := to_uint16 (length + pad) in
               let s := stream_set_pos s length in
               let '(status, t) := transport_write X (transport r) s in
               if status <? 0 then (false, set_transport r t, s)
               else (true, set_transport r t, s)))) = 0.
Proof.
  pose proof (rdp_security_stream_out_clears X r s length) as Hc.
  destruct (rdp_security_stream_out X r s length) as [[pad r'] s'].
  cbn [fst snd] in Hc. cbv zeta.
  match goal with
  | |- context [transport_write X ?a ?b] =>
      destruct (transport_write X a b) as [st t]
  end.
  destruct (st <? 0); exact Hc.
Qed.

Lemma rdp_send_data_pdu_clears (r : rdpRdp) (s : STREAM) (type ch : Z) :
  sec_flags (snd (fst (rdp_send_data_pdu X r s type ch))) = 0.
Proof. unfold rdp_send_data_pdu. apply sender_tail_clears. Qed.

(** X12.  Whether the transport accepts the frame or not, a send consumes the
    staged security flags: after [rdp_send], [rdp_send_pdu] and
    [rdp_send_data_pdu], and after the helpers that drop the result of the send
    ([rdp_send_invalidate], [rdp_send_suppress_output], and
    [rdp_send_frame_ack] when it acknowledges), [sec_flags] is zero. *)
Theorem sec_flags_zero_after_any_send
  (r : rdpRdp) (v : World) (s : STREAM)
  (type channel_id code x y w h frame : Z) :
  sec_flags (snd (fst (rdp_send X r s channel_id))) = 0
  /\ sec_flags (snd (fst (rdp_send_pdu X r s type channel_id))) = 0
  /\ sec_flags (snd (fst (rdp_send_data_pdu X r s type channel_id))) = 0
  /\ sec_flags (snd (rdp_send_invalidate X r code x y w h)) = 0
  /\ sec_flags (rdp (snd (rdp_send_suppress_output X v code x y w h))) = 0
  /\ (frame_acknowledge (settings r) <> 0 ->
      sec_flags (snd (rdp_send_frame_ack X r frame)) = 0).
Proof.
  split; [unfold rdp_send; apply sender_tail_clears|].
  split; [unfold rdp_send_pdu; apply sender_tail_clears|].
  split; [apply rdp_send_data_pdu_clears|].
  split; [|split].
  - unfold rdp_send_invalidate.
    destruct (rdp_data_pdu_init X r) as [r1 s1].
    match goal with
    | |- context [rdp_send_data_pdu X ?a ?b ?c ?d] =>
        pose proof (rdp_send_data_pdu_clears a b c d) as H;
        destruct (rdp_send_data_pdu X a b c d) as [[ok r2] s2]
    end.
    exact H.
  - unfold rdp_send_suppress_output.
    destruct (rdp_data_pdu_init X _) as [r1 s1].
    match goal with
    | |- context [rdp_send_data_pdu X ?a ?b ?c ?d] =>
        pose proof (rdp_send_data_pdu_clears a b c d) as H;
        destruct (rdp_send_data_pdu X a b c d) as [[ok r2] s2]
    end.
    exact H.
  - intros Hf. unfold rdp_send_frame_ack.
    destruct (Z.eqb_spec (frame_acknowledge (settings r)) 0) as [E|_];
      [contradiction|].
    destruct (rdp_data_pdu_init X r) as [r1 s1].
    match goal with
    | |- context [rdp_send_data_pdu X ?a ?b ?c ?d] =>
        pose proof (rdp_send_data_pdu_clears a b c d) as H;
        destruct (rdp_send_data_pdu X a b c d) as [[ok r2] s2]
    end.
    exact H.
Qed.

(** ** Redirection packets *)

(** X21.  A frame whose security header carries [SEC_REDIRECTION_PKT], on a
    session with encryption: it goes through [rdp_decrypt] whether or not
    [SEC_ENCRYPT] is set; when that succeeds the redirection handler is called
    with the cursor two bytes before where [rdp_decrypt] left it, and the
    receive reports success whatever the handler returned. The channel id is
    not looked at and no Share Control header is read. *)
Theorem redirection_packet_goes_to_the_handler
  (fuel : nat) (w w1 w2 : World) (s s1 s3 : STREAM) (u : TpktLocals)
  (length channelId : Z) :
  rdp_read_header X w s (u_length u) (u_channelId u)
  = (true, w1, s1, length, channelId) ->
  disconnect (rdp w1) = false ->
  encryption (settings (rdp w1)) = true ->
  let flags := fst (rdp_read_security_header s1) in
  let s2 := snd (rdp_read_security_header s1) in
  Z.land flags SEC_REDIRECTION_PKT <> 0 ->
  rdp_decrypt X w1 s2 (length - 4) flags = (true, w2, s3) ->
  let res := handler X rdp_recv_enhanced_security_redirection_packet 0
               (rdp w2) (stream_seek s3 (-2)) in
  rdp_recv_tpkt_pdu X fuel w s u
  = Some (true,
          mkWorld (snd (fst res))
            (trace w2
             ++ [Print "rdp_recv_tpkt_pdu: got SEC_REDIRECTION_PKT securityFlags 0x%8.8x";
                 Call rdp_recv_enhanced_security_redirection_packet
                   (s_p s3 - 2)]),
          snd res).
Proof.
  intros Hh Hd He flags s2 Hr Hdec res. subst res.
  unfold rdp_recv_tpkt_pdu. rewrite LLOGLN_quiet, Hh. cbn [negb].
  rewrite LLOGLN_quiet, Hd, He.
  subst flags s2.
  destruct (rdp_read_security_header s1) as [fl s2]. cbn [fst snd] in *.
  rewrite LLOGLN_quiet.
  assert (Hany : Z.land fl (Z.lor SEC_ENCRYPT SEC_REDIRECTION_PKT) <> 0).
  { rewrite Z.land_lor_distr_r. intros H0.
    apply Z.lor_eq_0_iff in H0. tauto. }
  destruct (Z.eqb_spec (Z.land fl (Z.lor SEC_ENCRYPT SEC_REDIRECTION_PKT)) 0)
    as [E|_]; [contradiction|].
  cbn [negb]. rewrite Hdec. cbn [negb].
  destruct (Z.eqb_spec (Z.land fl SEC_REDIRECTION_PKT) 0) as [E|_];
    [contradiction|].
  cbn [negb]. rewrite LLOGLN_loud. unfold invoke, emit.
  cbn [rdp trace stream_seek s_p].
  destruct (handler X rdp_recv_enhanced_security_redirection_packet 0
              (rdp w2) _) as [[ok r'] s'].
  cbn [fst snd]. rewrite <- app_assoc. reflexivity.
Qed.

(** ** Frames without a security envelope, end to end *)

Section FurtherWire.

Variable L : WireLaws X.

(** [rdp_read_header] on a frame whose MCS header is as [rdp_write_header]
    writes it, read by the peer. *)
Lemma rdp_read_header_of_frame
  (rx : World) (F : list Z) (m ch l0 c0 : Z) :
  m = (if server_mode (settings (rdp rx))
       then DomainMCSPDU_SendDataRequest
       else DomainMCSPDU_SendDataIndication) ->
  15 <= len F <= 0x7FFF -> 0 <= ch <= 0xFFFF ->
  peek F 0 8 = mcs_enc L m (len F) 0 ->
  peek F 10 2 = per16_enc L ch 0 ->
  peek F 13 2 = be16 (to_uint16 (Z.lor (len F - 15) 0x8000)) ->
  rdp_read_header X rx (stream_of F) l0 c0
  = (true, rx, mkSTREAM F 15 (len F), len F - 15, ch).
Proof.
  intros Hm Hlen Hch f0 f10 f13.
  set (at_ := fun k => mkSTREAM F k (len F)).
  assert (Hm' : m = DomainMCSPDU_SendDataRequest
                \/ m = DomainMCSPDU_SendDataIndication)
    by (subst m; destruct (server_mode (settings (rdp rx))); auto).
  unfold rdp_read_header. rewrite <- Hm.
  rewrite (mcs_read_law X L (stream_of F) m (len F) l0);
    [|unfold stream_of; cbn [s_p]; lia|lia|exact Hm'|exact f0].
  cbn [negb].
  change (stream_seek (stream_of F) 8) with (at_ 8).
  unfold stream_get_left at 1. cbn [at_ s_size s_p].
  destruct (Z.gtb_spec (len F - 8) (len F - 8)) as [E|_]; [lia|].
  replace (m =? DomainMCSPDU_DisconnectProviderUltimatum) with false
    by (destruct Hm' as [-> | ->]; reflexivity).
  unfold stream_get_left at 1. cbn [at_ s_size s_p].
  destruct (Z.ltb_spec (len F - 8) 5) as [E|_]; [lia|].
  pose proof (per_read_seek_law X L (at_ 8) 0 MCS_BASE_CHANNEL_ID) as S1.
  destruct (per_read_integer16 X (at_ 8) 0 MCS_BASE_CHANNEL_ID)
    as [[ok1 sB] ini].
  cbn [fst snd] in S1. subst sB.
  change (stream_seek (at_ 8) 2) with (at_ 10).
  pose proof (per_read_seek_law X L (at_ 10) c0 0) as S2.
  pose proof (per_read_law X L (at_ 10) ch c0
                ltac:(unfold at_; cbn [s_p]; lia) Hch f10) as V2.
  destruct (per_read_integer16 X (at_ 10) c0 0) as [[ok2 sC] ch'].
  cbn [fst snd] in S2, V2. subst sC ch'.
  change (stream_seek (stream_seek (at_ 10) 2) 1) with (at_ 13).
  assert (Hlor : to_uint16 (Z.lor (len F - 15) 0x8000)
                 = Z.lor (len F - 15) 0x8000).
  { apply to_uint16_small.
    pose proof (lor_pow2_small (len F - 15) 15 ltac:(lia)
                  ltac:(change (2 ^ 15) with 32768; lia)) as E.
    change (2 ^ 15) with 32768 in E. rewrite E. lia. }
  rewrite Hlor in f13.
  rewrite (per_read_length_law X L (at_ 13) (len F - 15) (len F));
    [|unfold at_; cbn [s_p]; lia|lia|exact f13].
  cbn [negb].
  change (stream_seek (at_ 13) 2) with (at_ 15).
  unfold stream_get_left. cbn [at_ s_size s_p].
  destruct (Z.gtb_spec (len F - 15) (len F - 15)) as [E|_]; [lia|].
  reflexivity.
Qed.

(** The frame [rdp_send] emits when no security flags are staged. *)
Lemma rdp_send_plain_frame (r : rdpRdp) (s : STREAM) (channel_id : Z) :
  sec_flags r = 0 ->
  15 <= s_p s <= 0xFFFF -> s_p s <= len (s_data s) ->
  let m := if server_mode (settings r)
           then DomainMCSPDU_SendDataIndication
           else DomainMCSPDU_SendDataRequest in
  let F := stream_frame (snd (rdp_send X r s channel_id)) in
  len F = s_p s
  /\ peek F 0 8 = mcs_enc L m (s_p s) 0
  /\ peek F 10 2 = per16_enc L (to_uint16 channel_id) 0
  /\ peek F 13 2 = be16 (to_uint16 (Z.lor (s_p s - 15) 0x8000))
  /\ peek F 15 (s_p s - 15) = peek (s_data s) 15 (s_p s - 15).
Proof.
  intros Hz Hlo Hfit m F.
  assert (Hu : to_uint16 (s_p s) = s_p s) by (apply to_uint16_small; lia).
  assert (Hsec : rdp_get_sec_bytes r = 0).
  { unfold rdp_get_sec_bytes. rewrite Hz. reflexivity. }
  assert (Hout : rdp_write_header_length r (s_p s) = s_p s).
  { unfold rdp_write_header_length. rewrite Hz. reflexivity. }
  destruct (rdp_write_header_spec X L r (stream_set_pos s 0) (s_p s)
              channel_id)
    as (p1 & z1 & l1 & h0 & _ & h10 & h13 & o1);
    [reflexivity|cbn [stream_set_pos s_data]; lia|].
  rewrite Hu, Hout in *. cbn [stream_set_pos s_data] in l1, o1.
  fold m in h0.
  set (s1 := rdp_write_header X r (stream_set_pos s 0) (s_p s) channel_id)
    in *.
  assert (EF : F = peek (s_data s1) 0 (s_p s)).
  { subst F. unfold rdp_send, stream_get_length.
    rewrite Hu, Hsec. fold s1.
    rewrite rdp_security_stream_out_idle by exact Hz.
    rewrite Z.add_0_r, Hu.
    destruct (transport_write X (transport r) _) as [st t].
    destruct (st <? 0); reflexivity. }
  rewrite EF.
  split; [apply len_peek; lia|].
  rewrite !peek_peek by lia.
  split; [exact h0|]. split; [exact h10|]. split; [exact h13|].
  rewrite o1 by lia. reflexivity.
Qed.

(** X7.  A frame [rdp_send] emits on any channel with no security flags staged,
    read by a peer in the opposite MCS direction: [rdp_read_header] accepts it,
    returns the channel the sender was given and the number of bytes after the
    MCS header, and what is left in the stream is the body the caller wrote;
    the receiving session is untouched. *)
Theorem rdp_send_roundtrip
  (r : rdpRdp) (rx : World) (s : STREAM) (channel_id l0 c0 : Z) :
  sec_flags r = 0 ->
  0 <= channel_id <= 0xFFFF ->
  15 <= s_p s <= 0x7FFF -> s_p s <= len (s_data s) ->
  server_mode (settings (rdp rx)) = negb (server_mode (settings r)) ->
  let body := region s 15 (s_p s - 15) in
  let F := stream_frame (snd (rdp_send X r s channel_id)) in
  exists s1,
    rdp_read_header X rx (stream_of F) l0 c0
    = (true, rx, s1, s_p s - 15, channel_id)
    /\ stream_get_left s1 = len body
    /\ region s1 (s_p s1) (stream_get_left s1) = body.
Proof.
  intros Hz Hc Hlo Hfit Hmode body F.
  destruct (rdp_send_plain_frame r s channel_id Hz ltac:(lia) Hfit)
    as (HlenF & f0 & f10 & f13 & f15).
  fold F in HlenF, f0, f10, f13, f15. clearbody F.
  rewrite (to_uint16_small channel_id) in f10 by lia.
  exists (mkSTREAM F 15 (len F)).
  split; [|split].
  - rewrite <- HlenF.
    apply rdp_read_header_of_frame with
      (m := if server_mode (settings r)
            then DomainMCSPDU_SendDataIndication
            else DomainMCSPDU_SendDataRequest); try lia.
    + rewrite Hmode. destruct (server_mode (settings r)); reflexivity.
    + rewrite HlenF. exact f0.
    + exact f10.
    + rewrite HlenF. exact f13.
  - subst body. unfold region, stream_get_left. cbn [s_size s_p].
    rewrite len_peek by lia. lia.
  - subst body. unfold region, stream_get_left. cbn [s_size s_p s_data].
    rewrite HlenF. exact f15.
Qed.

(** The frame [rdp_send_data_pdu] emits when no security flags are staged,
    field by field. *)
Lemma rdp_send_data_pdu_plain_frame
  (r : rdpRdp) (s : STREAM) (type channel_id : Z) :
  sec_flags r = 0 ->
  33 <= s_p s <= 0xFFFF -> s_p s <= len (s_data s) ->
  let m := if server_mode (settings r)
           then DomainMCSPDU_SendDataIndication
           else DomainMCSPDU_SendDataRequest in
  let F := stream_frame (snd (rdp_send_data_pdu X r s type channel_id)) in
  len F = s_p s
  /\ peek F 0 8 = mcs_enc L m (s_p s) 0
  /\ peek F 10 2 = per16_enc L MCS_GLOBAL_CHANNEL_ID 0
  /\ peek F 13 2 = be16 (to_uint16 (Z.lor (s_p s - 15) 0x8000))
  /\ peek F 15 6
     = le16 (s_p s - 15) ++ le16 (Z.lor PDU_TYPE_DATA 0x10)
       ++ le16 (to_uint16 channel_id)
  /\ peek F 21 12
     = le32 (share_id (settings r)) ++ [0; STREAM_LOW] ++ le16 (s_p s - 33)
       ++ [Z.land type 0xFF; 0] ++ le16 0
  /\ peek F 33 (s_p s - 33) = peek (s_data s) 33 (s_p s - 33).
Proof.
  intros Hz Hlo Hfit m F.
  assert (Hu : to_uint16 (s_p s) = s_p s) by (apply to_uint16_small; lia).
  assert (Hsec : rdp_get_sec_bytes r = 0).
  { unfold rdp_get_sec_bytes. rewrite Hz. reflexivity. }
  assert (Hout : rdp_write_header_length r (s_p s) = s_p s).
  { unfold rdp_write_header_length. rewrite Hz. reflexivity. }
  destruct (rdp_write_header_spec X L r (stream_set_pos s 0) (s_p s)
              MCS_GLOBAL_CHANNEL_ID)
    as (p1 & z1 & l1 & h0 & _ & h10 & h13 & o1);
    [reflexivity|cbn [stream_set_pos s_data]; lia|].
  rewrite Hu, Hout in *. cbn [stream_set_pos s_data] in l1, o1.
  fold m in h0.
  set (s1 := rdp_write_header X r (stream_set_pos s 0) (s_p s)
               MCS_GLOBAL_CHANNEL_ID) in *.
  destruct (rdp_write_share_control_header_spec (stream_seek s1 0)
              (s_p s - 0) PDU_TYPE_DATA channel_id)
    as (p2 & z2 & l2 & c15 & c17 & c19 & o2);
    [cbn [stream_seek s_p]; lia|cbn [stream_seek s_p s_data]; lia|].
  cbn [stream_seek s_p s_data] in p2, l2, c15, c17, c19, o2.
  rewrite p1 in p2, c15, c17, c19, o2.
  change (15 + 0) with 15 in *.
  change (15 + 2) with 17 in c17. change (15 + 4) with 19 in c19.
  change (15 + 6) with 21 in *.
  replace (to_uint16 (s_p s - 0)) with (s_p s) in c15
    by (rewrite Z.sub_0_r; now rewrite Hu).
  replace (to_uint16 (s_p s - RDP_PACKET_HEADER_MAX_LENGTH))
    with (s_p s - 15) in c15
    by (symmetry; apply to_uint16_small;
        unfold RDP_PACKET_HEADER_MAX_LENGTH; lia).
  set (s2 := rdp_write_share_control_header (stream_seek s1 0) (s_p s - 0)
               PDU_TYPE_DATA channel_id) in *.
  destruct (rdp_write_share_data_header_spec s2 (s_p s - 0) type
              (share_id (settings r)))
    as (p3 & z3 & l3 & d21 & o3); [lia|lia|].
  rewrite p2 in p3, d21, o3. change (21 + 12) with 33 in *.
  unfold RDP_PACKET_HEADER_MAX_LENGTH, RDP_SHARE_CONTROL_HEADER_LENGTH,
    RDP_SHARE_DATA_HEADER_LENGTH in d21.
  replace (to_uint16 (s_p s - 0)) with (s_p s) in d21
    by (rewrite Z.sub_0_r; now rewrite Hu).
  rewrite (to_uint16_small (s_p s - 15)) in d21 by lia.
  rewrite (to_uint16_small (s_p s - 15 - 6)) in d21 by lia.
  rewrite (to_uint16_small (s_p s - 15 - 6 - 12)) in d21 by lia.
  replace (s_p s - 15 - 6 - 12) with (s_p s - 33) in d21 by lia.
  set (s3 := rdp_write_share_data_header s2 (s_p s - 0) type
               (share_id (settings r))) in *.
  assert (EF : F = peek (s_data s3) 0 (s_p s)).
  { subst F. unfold rdp_send_data_pdu, stream_get_length.
    rewrite Hu, Hsec. fold s1. fold s2. fold s3.
    rewrite rdp_security_stream_out_idle by exact Hz.
    rewrite Z.add_0_r, Hu.
    destruct (transport_write X (transport r) _) as [st t].
    destruct (st <? 0); reflexivity. }
  rewrite EF.
  split; [apply len_peek; lia|].
  rewrite !peek_peek by lia.
  split; [rewrite o3, o2 by lia; exact h0|].
  split; [rewrite o3, o2 by lia; exact h10|].
  split; [rewrite o3, o2 by lia; exact h13|].
  split.
  { rewrite o3 by lia. change 6 with (2 + (2 + 2)).
    rewrite !peek_app_split by lia. change (15 + 2 + 2) with 19.
    change (15 + 2) with 17. rewrite c15, c17, c19. reflexivity. }
  split; [exact d21|].
  rewrite o3, o2, o1 by lia. reflexivity.
Qed.

(** What the peer's readers make of such a frame. *)
Lemma rdp_send_data_pdu_decodes
  (r : rdpRdp) (rx : World) (s : STREAM)
  (type channel_id l0 c0 t0 c1 : Z) (u : ShareDataHeader) :
  sec_flags r = 0 ->
  0 <= type <= 0xFF -> 0 <= channel_id <= 0xFFFF ->
  0 <= share_id (settings r) <= 0xFFFFFFFF ->
  33 <= s_p s <= 0x7FFF -> s_p s <= len (s_data s) ->
  server_mode (settings (rdp rx)) = negb (server_mode (settings r)) ->
  let F := stream_frame (snd (rdp_send_data_pdu X r s type channel_id)) in
  let at_ := fun k => mkSTREAM F k (len F) in
  len F = s_p s
  /\ rdp_read_header X rx (stream_of F) l0 c0
     = (true, rx, at_ 15, s_p s - 15, MCS_GLOBAL_CHANNEL_ID)
  /\ rdp_read_share_control_header (at_ 15) t0 c1
     = (true, at_ 21, s_p s - 15, PDU_TYPE_DATA, channel_id)
  /\ rdp_read_share_data_header (at_ 21) u
     = (true, at_ 33,
        mkShareData (s_p s - 33) type (share_id (settings r)) 0 0)
  /\ region (at_ 33) 33 (s_p s - 33) = region s 33 (s_p s - 33).
Proof.
  intros Hz Ht Hc Hsh Hlo Hfit Hmode F at_.
  destruct (rdp_send_data_pdu_plain_frame r s type channel_id Hz
              ltac:(lia) Hfit)
    as (HlenF & f0 & f10 & f13 & f15 & f21 & f33).
  fold F in HlenF, f0, f10, f13, f15, f21, f33. clearbody F.
  rewrite (to_uint16_small channel_id) in f15 by lia.
  rewrite (land_0xFF_small type) in f21 by lia.
  split; [exact HlenF|]. split; [|split; [|split]].
  - rewrite <- HlenF. unfold at_.
    apply rdp_read_header_of_frame with
      (m := if server_mode (settings r)
            then DomainMCSPDU_SendDataIndication
            else DomainMCSPDU_SendDataRequest); try lia.
    + rewrite Hmode. destruct (server_mode (settings r)); reflexivity.
    + unfold MCS_GLOBAL_CHANNEL_ID. lia.
    + rewrite HlenF. exact f0.
    + exact f10.
    + rewrite HlenF. exact f13.
  - rewrite (rdp_read_share_control_header_bytes (at_ 15) (s_p s - 15)
               PDU_TYPE_DATA channel_id t0 c1); try reflexivity.
    + cbn [at_ s_p]. lia.
    + lia.
    + unfold stream_get_left. cbn [at_ s_p s_size]. lia.
    + unfold PDU_TYPE_DATA. lia.
    + lia.
    + exact f15.
  - rewrite (rdp_read_share_data_header_bytes (at_ 21) u
               (share_id (settings r)) (s_p s - 33) type 0 0 0 STREAM_LOW);
      try reflexivity; try lia.
    + cbn [at_ s_p]. lia.
    + unfold stream_get_left. cbn [at_ s_p s_size]. lia.
    + exact f21.
  - unfold region. cbn [at_ s_data]. exact f33.
Qed.

(** X6.  A Data PDU [rdp_send_data_pdu] emits with no security flags staged,
    read by a peer in the opposite MCS direction with the three header readers
    in turn: the frame is on the global channel, the Share Control header gives
    type DATA and the channel the sender was given, the Share Data header gives
    the sender's share id and the data type, the body length and no
    compression, and what is left is the body the caller wrote. *)
Theorem rdp_send_data_pdu_roundtrip
  (r : rdpRdp) (rx : World) (s : STREAM)
  (type channel_id l0 c0 t0 c1 : Z) (u : ShareDataHeader) :
  sec_flags r = 0 ->
  0 <= type <= 0xFF -> 0 <= channel_id <= 0xFFFF ->
  0 <= share_id (settings r) <= 0xFFFFFFFF ->
  33 <= s_p s <= 0x7FFF -> s_p s <= len (s_data s) ->
  server_mode (settings (rdp rx)) = negb (server_mode (settings r)) ->
  let body := region s 33 (s_p s - 33) in
  let F := stream_frame (snd (rdp_send_data_pdu X r s type channel_id)) in
  exists s1 s2 s3,
    rdp_read_header X rx (stream_of F) l0 c0
    = (true, rx, s1, s_p s - 15, MCS_GLOBAL_CHANNEL_ID)
    /\ rdp_read_share_control_header s1 t0 c1
       = (true, s2, s_p s - 15, PDU_TYPE_DATA, channel_id)
    /\ rdp_read_share_data_header s2 u
       = (true, s3,
          mkShareData (len body) type (share_id (settings r)) 0 0)
    /\ region s3 (s_p s3) (stream_get_left s3) = body.
Proof.
  intros Hz Ht Hc Hsh Hlo Hfit Hmode body F.
  destruct (rdp_send_data_pdu_decodes r rx s type channel_id l0 c0 t0 c1 u
              Hz Ht Hc Hsh Hlo Hfit Hmode)
    as (HlenF & H1 & H2 & H3 & H4).
  fold F in HlenF, H1, H2, H3, H4.
  eexists _, _, _. split; [exact H1|]. split; [exact H2|].
  split.
  - rewrite H3. subst body. unfold region. rewrite len_peek by lia.
    reflexivity.
  - unfold stream_get_left. cbn [s_p s_size]. rewrite HlenF. exact H4.
Qed.

(** X1.  Send to receive. A Data PDU [rdp_send_data_pdu] emits with no security
    flags staged, received by [rdp_recv_tpkt_pdu] on a peer session without
    encryption whose collaborators accept it: the receive succeeds, the
    sender's channel is recorded as [pdu_source], the PDU is dispatched on the
    data type the sender gave, with the cursor on the first byte of the body,
    and the frame is consumed to its end. *)
Theorem rdp_send_data_pdu_received
  (r : rdpRdp) (rx : World) (s : STREAM) (type channel_id : Z)
  (fuel : nat) (u : TpktLocals) :
  polite_collaborators X ->
  sec_flags r = 0 ->
  0 <= type <= 0xFF -> 0 <= channel_id <= 0xFFFF ->
  0 <= share_id (settings r) <= 0xFFFFFFFF ->
  33 <= s_p s <= 0x7FFF -> s_p s <= len (s_data s) ->
  server_mode (settings (rdp rx)) = negb (server_mode (settings r)) ->
  disconnect (rdp rx) = false -> encryption (settings (rdp rx)) = false ->
  let F := stream_frame (snd (rdp_send_data_pdu X r s type channel_id)) in
  let rx1 := with_rdp rx (set_pdu_source (rdp rx) channel_id) in
  rdp_recv_tpkt_pdu X (S fuel) rx (stream_of F) u
  = Some (true,
          fst (rdp_recv_data_pdu_switch X rx1 (mkSTREAM F 33 (len F)) type),
          mkSTREAM F (len F) (len F)).
Proof.
  intros polite Hz Ht Hc Hsh Hlo Hfit Hmode Hd He F rx1.
  destruct (rdp_send_data_pdu_decodes r rx s type channel_id
              (u_length u) (u_channelId u) (u_pduType u) (u_pduSource u)
              (u_data u) Hz Ht Hc Hsh Hlo Hfit Hmode)
    as (HlenF & H1 & H2 & H3 & _).
  fold F in HlenF, H1, H2, H3. clearbody F.
  rewrite (rdp_recv_tpkt_pdu_global_channel X (S fuel) rx rx (stream_of F)
             (mkSTREAM F 15 (len F)) u (s_p s - 15) H1 Hd He).
  cbn [rdp_recv_tpkt_pdu_loop].
  unfold stream_get_left at 1. cbn [s_size s_p].
  destruct (Z.gtb_spec (len F - 15) 3) as [_|E]; [|lia].
  rewrite H2. fold rx1.
  unfold rdp_recv_tpkt_pdu_switch.
  change (PDU_TYPE_DATA =? PDU_TYPE_DATA) with true. cbv iota.
  unfold rdp_recv_data_pdu. rewrite H3.
  unfold rdp_recv_data_pdu_dispatch. cbn [sd_compressed_type sd_type].
  change (negb (Z.land 0 PACKET_COMPRESSED =? 0)) with false. cbv iota.
  destruct (rdp_recv_data_pdu_switch_polite X polite rx1
              (mkSTREAM F 33 (len F)) type) as (Hdata & Hsize & _).
  destruct (rdp_recv_data_pdu_switch X rx1 (mkSTREAM F 33 (len F)) type)
    as [w2 s2].
  cbn [fst snd s_data s_size negb] in *.
  unfold stream_get_mark, stream_set_mark. cbn [s_p].
  rewrite Hdata, Hsize.
  replace (15 + (s_p s - 15)) with (len F) by lia.
  apply rdp_recv_tpkt_pdu_loop_end.
  unfold stream_get_left. cbn [s_size s_p]. lia.
Qed.


(** ** Encrypted frames, from [rdp_send] to [rdp_decrypt] *)

Lemma fit_exact (n : Z) (bs : list Z) : len bs = n -> fit n bs = bs.
Proof.
  intros H. unfold fit, len in *. rewrite firstn_app.
  replace (Z.to_nat n) with (List.length bs) by lia.
  rewrite firstn_all, Nat.sub_diag. cbn [firstn]. apply app_nil_r.
Qed.

Lemma peek_app_front (a b : list Z) : peek (a ++ b) 0 (len a) = a.
Proof.
  unfold peek, len. cbn [Z.to_nat skipn]. rewrite Nat2Z.id, firstn_app.
  rewrite firstn_all, Nat.sub_diag. cbn [firstn]. apply app_nil_r.
Qed.

Lemma peek_app_back (a b : list Z) (k : Z) :
  peek (a ++ b) (len a) k = peek b 0 k.
Proof.
  unfold peek, len. rewrite Nat2Z.id. cbn [Z.to_nat skipn].
  rewrite skipn_app, skipn_all, Nat.sub_diag. reflexivity.
Qed.

Lemma peek_all (a : list Z) : peek a 0 (len a) = a.
Proof.
  unfold peek, len. rewrite Nat2Z.id. cbn [Z.to_nat skipn].
  apply firstn_all.
Qed.

(** The frame [rdp_send] emits with [SEC_ENCRYPT] staged in FIPS mode, part
    by part: the FIPS header, the signature of the caller's body, and the
    cipher text of the body followed by the pad. *)
Lemma rdp_send_fips_frame (r : rdpRdp) (s : STREAM) (channel_id : Z) :
  Z.land (sec_flags r) SEC_ENCRYPT <> 0 ->
  encryption_method (settings r) = ENCRYPTION_METHOD_FIPS ->
  31 <= s_p s -> s_p s + 7 <= 0xFFFF -> s_p s + 7 <= len (s_data s) ->
  let n := s_p s - 31 in
  let pad := (8 - n mod 8) mod 8 in
  let plain := region s 31 n in
  let h := security_hmac_signature X r plain in
  let e := security_fips_encrypt X (fst h)
             (plain ++ repeat 0 (Z.to_nat pad)) in
  let F := stream_frame (snd (rdp_send X r s channel_id)) in
  len F = s_p s + pad
  /\ peek F 19 4 = [0x10; 0; 1; pad]
  /\ peek F 23 8 = fit 8 (snd h)
  /\ peek F 31 (n + pad) = fit (n + pad) (snd e).
Proof.
  intros He Hf Hlo Hhi Hfit n pad plain h e F.
  assert (Hsec : rdp_get_sec_bytes r = 16).
  { unfold rdp_get_sec_bytes.
    destruct (Z.eqb_spec (Z.land (sec_flags r) SEC_ENCRYPT) 0) as [E|_];
      [contradiction|].
    rewrite Hf. reflexivity. }
  assert (Hu : to_uint16 (s_p s) = s_p s) by (apply to_uint16_small; lia).
  destruct (rdp_write_header_spec X L r (stream_set_pos s 0) (s_p s)
              channel_id)
    as (p1 & z1 & l1 & _ & _ & _ & _ & o1);
    [reflexivity|cbn [stream_set_pos s_data]; lia|].
  cbn [stream_set_pos s_data] in l1, o1.
  set (s1 := rdp_write_header X r (stream_set_pos s 0) (s_p s) channel_id)
    in *.
  pose proof (rdp_security_stream_out_fips X r
                (stream_set_mark (stream_seek s1 16) 15) (s_p s)
                He Hf eq_refl Hlo
                ltac:(cbn [stream_set_mark stream_seek s_data]; lia)) as Hs.
  cbv zeta in Hs. cbn [stream_set_mark stream_seek s_data s_size] in Hs.
  fold n in Hs. fold pad in Hs.
  rewrite (o1 31 n) in Hs by (subst n; lia).
  change (peek (s_data s) 31 n) with plain in Hs. fold h in Hs. fold e in Hs.
  destruct (fips_pad_arith n ltac:(subst n; lia)) as (_ & Hb & _).
  fold pad in Hb.
  assert (EF : F = peek (s_data
                           (snd (rdp_security_stream_out X r
                                   (stream_set_mark (stream_seek s1 16) 15)
                                   (s_p s))))
                     0 (s_p s + pad)).
  { subst F. unfold rdp_send, stream_get_length. rewrite Hu, Hsec.
    fold s1. rewrite p1.
    destruct Hs as (Epad & _).
    destruct (rdp_security_stream_out X r
                (stream_set_mark (stream_seek s1 16) 15) (s_p s))
      as [[pad' r'] s3].
    cbn [fst snd] in *. subst pad'.
    rewrite (to_uint16_small (s_p s + pad)) by lia.
    destruct (transport_write X (transport r') _) as [st t].
    destruct (st <? 0); reflexivity. }
  destruct Hs as (_ & _ & _ & _ & Hlen & H19 & H23 & H31 & _).
  rewrite EF.
  split; [apply len_peek; lia|].
  rewrite !peek_peek by (subst n; lia).
  split; [exact H19|]. split; [exact H23|exact H31].
Qed.

(** What [rdp_decrypt] does, in FIPS mode, with an envelope that decrypts
    and verifies. *)
Lemma rdp_decrypt_fips_success
  (w : World) (F plain sig cipher : list Z) (pad b0 b1 b2 sflags : Z)
  (rd rc : rdpRdp) :
  encryption_method (settings (rdp w)) = ENCRYPTION_METHOD_FIPS ->
  0 <= pad <= 7 ->
  len F = 31 + len plain + pad ->
  peek F 19 4 = [b0; b1; b2; pad] ->
  peek F 23 8 = sig ->
  peek F 31 (len plain + pad) = cipher ->
  security_fips_decrypt X (rdp w) cipher
  = (true, rd, plain ++ repeat 0 (Z.to_nat pad)) ->
  security_fips_check_signature X rd plain sig = (true, rc) ->
  exists s',
    rdp_decrypt X w (mkSTREAM F 19 (len F)) (len F - 19) sflags
    = (true, with_rdp w rc, s')
    /\ s_p s' = 31 /\ s_size s' = len F - pad
    /\ region s' 31 (len plain) = plain
    /\ region s' 0 19 = peek F 0 19.
Proof.
  intros Hf Hpad HlenF H19 H23 H31 Hdec Hchk.
  pose proof (len_nonneg plain) as Hn.
  set (n := len plain) in *.
  set (Zs := repeat 0 (Z.to_nat pad)) in *.
  assert (HZ : len Zs = pad) by (subst Zs; rewrite len_repeat; lia).
  assert (Hbyte : byte_at F 22 = pad).
  { replace 22 with (19 + 3) by lia.
    rewrite <- (byte_at_peek F 19 4 3) by lia. rewrite H19.
    change (byte_at [b0; b1; b2; pad] 3) with (Z.land pad 0xFF).
    apply land_0xFF_small. lia. }
  unfold rdp_decrypt. rewrite LLOGLN_quiet, Hf, Z.eqb_refl.
  unfold stream_read_uint16, stream_read_uint8, stream_seek.
  cbn [fst snd s_data s_p s_size].
  change (19 + 2 + 1 + 1 + 8) with 31. change (19 + 2 + 1 + 1) with 23.
  change (19 + 2 + 1) with 22.
  rewrite Hbyte.
  replace (len F - 19 - 12) with (n + pad) by lia.
  assert (R : region (mkSTREAM F 31 (len F)) 31 (n + pad) = cipher)
    by exact H31.
  assert (Hlc : len cipher = n + pad).
  { rewrite <- H31. apply len_peek; lia. }
  rewrite R, Hdec. unfold stream_rewrite. rewrite R, Hlc.
  rewrite (fit_exact (n + pad) (plain ++ Zs))
    by (rewrite len_app; fold n; lia).
  destruct (stream_store_spec (mkSTREAM F 31 (len F)) 31 (plain ++ Zs))
    as (p9 & z9 & l9 & s9 & o9).
  set (a9 := stream_store (mkSTREAM F 31 (len F)) 31 (plain ++ Zs)) in *.
  cbn [s_data s_p s_size] in p9, z9, l9, s9, o9.
  assert (Hl : len (plain ++ Zs) = n + pad) by (rewrite len_app; fold n; lia).
  rewrite Hl in s9, o9.
  specialize (s9 ltac:(lia) ltac:(lia)).
  cbn [negb with_rdp rdp].
  assert (Hplain : region a9 (s_p a9) (n + pad - pad) = plain).
  { unfold region. rewrite p9. replace (n + pad - pad) with n by lia.
    replace 31 with (31 + 0) at 1 by lia.
    rewrite <- (peek_sub (s_data a9) 31 (n + pad) 0 n) by lia.
    rewrite s9. apply peek_app_front. }
  assert (Hsig : region a9 23 8 = sig).
  { unfold region. rewrite o9 by lia. exact H23. }
  rewrite Hplain, Hsig, Hchk. cbn [negb].
  eexists. split; [reflexivity|].
  cbn [s_p s_size s_data]. split; [exact p9|]. split; [reflexivity|].
  split.
  - unfold region. cbn [s_data]. rewrite p9 in Hplain.
    replace (n + pad - pad) with n in Hplain by lia. exact Hplain.
  - unfold region. cbn [s_data]. apply o9; lia.
Qed.

(** X4.  FIPS, encrypt then decrypt. A frame [rdp_send] emits with
    [SEC_ENCRYPT] staged in FIPS mode, handed to the [rdp_decrypt] of a peer
    whose cipher inverts the sender's and whose signature check accepts the
    sender's signature: [rdp_decrypt] succeeds, the cursor is on the payload,
    the stream ends where the caller's body ends (the pad is cut off), and the
    payload is the body the caller wrote. *)
Theorem fips_send_then_decrypt
  (r : rdpRdp) (w : World) (s : STREAM) (channel_id sflags : Z)
  (rd rc : rdpRdp) :
  Z.land (sec_flags r) SEC_ENCRYPT <> 0 ->
  encryption_method (settings r) = ENCRYPTION_METHOD_FIPS ->
  encryption_method (settings (rdp w)) = ENCRYPTION_METHOD_FIPS ->
  31 <= s_p s -> s_p s + 7 <= 0xFFFF -> s_p s + 7 <= len (s_data s) ->
  let n := s_p s - 31 in
  let pad := (8 - n mod 8) mod 8 in
  let body := region s 31 n in
  let h := security_hmac_signature X r body in
  let e := security_fips_encrypt X (fst h)
             (body ++ repeat 0 (Z.to_nat pad)) in
  security_fips_decrypt X (rdp w) (fit (n + pad) (snd e))
  = (true, rd, body ++ repeat 0 (Z.to_nat pad)) ->
  security_fips_check_signature X rd body (fit 8 (snd h)) = (true, rc) ->
  let F := stream_frame (snd (rdp_send X r s channel_id)) in
  exists s',
    rdp_decrypt X w (mkSTREAM F 19 (len F)) (len F - 19) sflags
    = (true, with_rdp w rc, s')
    /\ s_p s' = 31 /\ s_size s' = s_p s
    /\ region s' (s_p s') (stream_get_left s') = body.
Proof.
  intros He Hf Hfr Hlo Hhi Hfit n pad body h e Hdec Hchk F.
  destruct (rdp_send_fips_frame r s channel_id He Hf Hlo Hhi Hfit)
    as (HlenF & H19 & H23 & H31).
  fold n in HlenF, H19, H23, H31. fold pad in HlenF, H19, H23, H31.
  fold body in H23, H31. fold h in H23, H31. fold e in H31.
  fold F in HlenF, H19, H23, H31. clearbody F.
  destruct (fips_pad_arith n ltac:(subst n; lia)) as (_ & Hb & _).
  fold pad in Hb.
  assert (Hlb : len body = n).
  { subst body. unfold region. apply len_peek; subst n; lia. }
  destruct (rdp_decrypt_fips_success w F body (fit 8 (snd h))
              (fit (n + pad) (snd e)) pad 0x10 0 1 sflags rd rc Hfr Hb)
    as (s' & Hr & Hp & Hsz & Hreg & _).
  - rewrite Hlb, HlenF. subst n. lia.
  - exact H19.
  - exact H23.
  - rewrite Hlb. exact H31.
  - exact Hdec.
  - exact Hchk.
  - exists s'. split; [exact Hr|]. split; [exact Hp|].
    split; [rewrite Hsz, HlenF; lia|].
    unfold stream_get_left. rewrite Hp, Hsz, HlenF.
    replace (s_p s + pad - pad - 31) with n by (subst n; lia).
    rewrite <- Hlb at 1. exact Hreg.
Qed.

(** The legacy branch of [rdp_security_stream_out], for a stream with the
    cursor after the 15 bytes of the MCS header: the security header, the
    MAC of the plaintext, the cipher text in place of the plaintext, and no
    pad. *)
Lemma rdp_security_stream_out_legacy (r : rdpRdp) (s : STREAM) (length : Z) :
  Z.land (sec_flags r) SEC_ENCRYPT <> 0 ->
  encryption_method (settings r) <> ENCRYPTION_METHOD_FIPS ->
  s_p s = 15 -> 27 <= length -> length <= len (s_data s) ->
  let n := length - 27 in
  let plain := peek (s_data s) 27 n in
  let h := if negb (Z.land (sec_flags r) SEC_SECURE_CHECKSUM =? 0)
           then security_salted_mac_signature X r plain true
           else security_mac_signature X r plain in
  let e := security_encrypt X (fst h) plain in
  let res := rdp_security_stream_out X r s length in
  fst (fst res) = 0
  /\ snd (fst res) = set_sec_flags (fst e) 0
  /\ s_p (snd res) = 27
  /\ s_size (snd res) = s_size s
  /\ len (s_data (snd res)) = len (s_data s)
  /\ peek (s_data (snd res)) 15 2 = le16 (to_uint16 (sec_flags r))
  /\ peek (s_data (snd res)) 19 8 = fit 8 (snd h)
  /\ peek (s_data (snd res)) 27 n = fit n (snd e)
  /\ forall j k, 0 <= j -> 0 <= k -> j + k <= 15 \/ length <= j ->
       peek (s_data (snd res)) j k = peek (s_data s) j k.
Proof.
  intros He Hf Hp Hlo Hfit n plain h e res.
  subst res. unfold rdp_security_stream_out.
  destruct (Z.eqb_spec (sec_flags r) 0) as [E|_].
  { rewrite E in He. now cbn in He. }
  destruct (Z.eqb_spec (Z.land (sec_flags r) SEC_ENCRYPT) 0) as [E|_];
    [contradiction|].
  destruct (Z.eqb_spec (encryption_method (settings r))
              ENCRYPTION_METHOD_FIPS) as [E|_]; [contradiction|].
  cbn [negb].
  unfold rdp_write_security_header, stream_write_uint16.
  set (F := le16 (to_uint16 (sec_flags r))).
  destruct (stream_put_spec s F) as (p1 & z1 & l1 & s1 & o1);
    [lia|change (len F) with 2; lia|].
  set (a1 := stream_put s F) in *. change (len F) with 2 in *.
  destruct (stream_put_spec a1 (le16 0)) as (p2 & z2 & l2 & _ & o2);
    [lia|change (len (le16 0)) with 2; lia|].
  set (a2 := stream_put a1 (le16 0)) in *. change (len (le16 0)) with 2 in *.
  assert (q2 : s_p a2 = 19) by lia.
  rewrite q2. change (19 + 8) with 27.
  replace (length - 27) with n by reflexivity.
  assert (Hplain : region a2 27 n = plain).
  { unfold region. rewrite o2, o1 by lia. reflexivity. }
  rewrite Hplain. fold h.
  destruct h as [r1 sig] eqn:Eh. cbn [fst snd] in *.
  destruct (stream_store_spec a2 19 (fit 8 sig)) as (p3 & z3 & l3 & s3 & o3).
  set (a3 := stream_store a2 19 (fit 8 sig)) in *.
  rewrite len_fit in *. change (Z.max 0 8) with 8 in *.
  specialize (s3 ltac:(lia) ltac:(lia)).
  set (a4 := stream_seek a3 8).
  assert (p4 : s_p a4 = 27) by (subst a4; cbn [stream_seek s_p]; lia).
  assert (E4 : s_data a4 = s_data a3) by reflexivity.
  rewrite p4.
  assert (Hreg : region a4 27 n = plain).
  { unfold region. rewrite E4, o3, o2, o1 by lia. reflexivity. }
  rewrite Hreg. change (security_encrypt X r1 plain) with e.
  destruct e as [r2 out] eqn:Ee. cbn [fst snd] in *.
  unfold stream_rewrite. rewrite Hreg.
  assert (Hl : len plain = n).
  { subst plain. apply len_peek; subst n; lia. }
  rewrite Hl.
  destruct (stream_store_spec a4 27 (fit n out)) as (p5 & z5 & l5 & s5 & o5).
  set (a5 := stream_store a4 27 (fit n out)) in *.
  rewrite len_fit in *. replace (Z.max 0 n) with n in * by (subst n; lia).
  assert (l4 : len (s_data a4) = len (s_data a3)) by reflexivity.
  specialize (s5 ltac:(subst n; lia) ltac:(subst n; lia)).
  cbn [fst snd].
  split; [reflexivity|]. split; [reflexivity|].
  split; [lia|]. split; [subst a4; cbn [stream_seek s_size] in *; congruence|].
  split; [lia|].
  split; [rewrite o5, E4, o3, o2 by (subst n; lia); rewrite <- Hp; exact s1|].
  split; [rewrite o5, E4 by (subst n; lia); exact s3|].
  split; [exact s5|].
  intros j k Hj Hk Hjk.
  rewrite o5, E4, o3, o2, o1 by (subst n; lia). reflexivity.
Qed.

(** The frame [rdp_send] emits with [SEC_ENCRYPT] staged outside FIPS mode:
    it is as long as the stream the caller filled (nothing is padded). *)
Lemma rdp_send_legacy_frame (r : rdpRdp) (s : STREAM) (channel_id : Z) :
  Z.land (sec_flags r) SEC_ENCRYPT <> 0 ->
  encryption_method (settings r) <> ENCRYPTION_METHOD_FIPS ->
  27 <= s_p s <= 0xFFFF -> s_p s <= len (s_data s) ->
  let n := s_p s - 27 in
  let plain := region s 27 n in
  let h := if negb (Z.land (sec_flags r) SEC_SECURE_CHECKSUM =? 0)
           then security_salted_mac_signature X r plain true
           else security_mac_signature X r plain in
  let e := security_encrypt X (fst h) plain in
  let F := stream_frame (snd (rdp_send X r s channel_id)) in
  len F = s_p s
  /\ peek F 15 2 = le16 (to_uint16 (sec_flags r))
  /\ peek F 19 8 = fit 8 (snd h)
  /\ peek F 27 n = fit n (snd e).
Proof.
  intros He Hf Hlo Hfit n plain h e F.
  assert (Hsec : rdp_get_sec_bytes r = 12).
  { unfold rdp_get_sec_bytes.
    destruct (Z.eqb_spec (Z.land (sec_flags r) SEC_ENCRYPT) 0) as [E|_];
      [contradiction|].
    destruct (Z.eqb_spec (encryption_method (settings r))
                ENCRYPTION_METHOD_FIPS) as [E|_]; [contradiction|].
    reflexivity. }
  assert (Hu : to_uint16 (s_p s) = s_p s) by (apply to_uint16_small; lia).
  destruct (rdp_write_header_spec X L r (stream_set_pos s 0) (s_p s)
              channel_id)
    as (p1 & z1 & l1 & _ & _ & _ & _ & o1);
    [reflexivity|cbn [stream_set_pos s_data]; lia|].
  cbn [stream_set_pos s_data] in l1, o1.
  set (s1 := rdp_write_header X r (stream_set_pos s 0) (s_p s) channel_id)
    in *.
  pose proof (rdp_security_stream_out_legacy r
                (stream_set_mark (stream_seek s1 12) 15) (s_p s)
                He Hf eq_refl ltac:(lia)
                ltac:(cbn [stream_set_mark stream_seek s_data]; lia)) as Hs.
  cbv zeta in Hs. cbn [stream_set_mark stream_seek s_data s_size] in Hs.
  fold n in Hs.
  rewrite (o1 27 n) in Hs by (subst n; lia).
  change (peek (s_data s) 27 n) with plain in Hs. fold h in Hs. fold e in Hs.
  assert (EF : F = peek (s_data
                           (snd (rdp_security_stream_out X r
                                   (stream_set_mark (stream_seek s1 12) 15)
                                   (s_p s))))
                     0 (s_p s)).
  { subst F. unfold rdp_send, stream_get_length. rewrite Hu, Hsec.
    fold s1. rewrite p1.
    destruct Hs as (Epad & _).
    destruct (rdp_security_stream_out X r
                (stream_set_mark (stream_seek s1 12) 15) (s_p s))
      as [[pad' r'] s3].
    cbn [fst snd] in *. subst pad'.
    rewrite Z.add_0_r, Hu.
    destruct (transport_write X (transport r') _) as [st t].
    destruct (st <? 0); reflexivity. }
  destruct Hs as (_ & _ & _ & _ & Hlen & H15 & H19 & H27 & _).
  rewrite EF.
  split; [apply len_peek; lia|].
  rewrite !peek_peek by (subst n; lia).
  split; [exact H15|]. split; [exact H19|exact H27].
Qed.

Lemma land_uint16_checksum (v : Z) :
  Z.land (to_uint16 v) SEC_SECURE_CHECKSUM = Z.land v SEC_SECURE_CHECKSUM.
Proof.
  unfold to_uint16. rewrite <- Z.land_assoc. reflexivity.
Qed.

(** X5.  Legacy encryption, encrypt then decrypt. A frame [rdp_send] emits with
    [SEC_ENCRYPT] staged outside FIPS mode, read by a peer whose cipher inverts
    the sender's and whose MAC of the body agrees with the sender's: the
    security header gives back the sender's flags, [rdp_decrypt] succeeds
    without the signature warning (nothing is printed), the cursor is on the
    payload and the payload is the body the caller wrote. The peer computes the
    salted MAC exactly when the sender had [SEC_SECURE_CHECKSUM] staged. *)
Theorem legacy_send_then_decrypt
  (r : rdpRdp) (w : World) (s : STREAM) (channel_id : Z) (rd : rdpRdp) :
  Z.land (sec_flags r) SEC_ENCRYPT <> 0 ->
  encryption_method (settings r) <> ENCRYPTION_METHOD_FIPS ->
  encryption_method (settings (rdp w)) <> ENCRYPTION_METHOD_FIPS ->
  27 <= s_p s <= 0xFFFF -> s_p s <= len (s_data s) ->
  let n := s_p s - 27 in
  let body := region s 27 n in
  let salted := negb (Z.land (sec_flags r) SEC_SECURE_CHECKSUM =? 0) in
  let h := if salted then security_salted_mac_signature X r body true
           else security_mac_signature X r body in
  let e := security_encrypt X (fst h) body in
  security_decrypt X (rdp w) (fit n (snd e)) = (rd, body) ->
  let c := if salted then security_salted_mac_signature X rd body false
           else security_mac_signature X rd body in
  fit 8 (snd c) = fit 8 (snd h) ->
  let F := stream_frame (snd (rdp_send X r s channel_id)) in
  exists s',
    rdp_read_security_header (mkSTREAM F 15 (len F))
    = (to_uint16 (sec_flags r), mkSTREAM F 19 (len F))
    /\ rdp_decrypt X w (mkSTREAM F 19 (len F)) (len F - 19)
         (to_uint16 (sec_flags r))
       = (true, with_rdp w (fst c), s')
    /\ s_p s' = 27 /\ s_size s' = s_p s
    /\ region s' (s_p s') (stream_get_left s') = body.
Proof.
  intros He Hf Hfr Hlo Hfit n body salted h e Hdec c Hmac F.
  destruct (rdp_send_legacy_frame r s channel_id He Hf Hlo Hfit)
    as (HlenF & H15 & H19 & H27).
  fold n in HlenF, H15, H19, H27. fold body in H19, H27.
  fold salted in H19, H27. fold h in H19, H27. fold e in H27.
  fold F in HlenF, H15, H19, H27. clearbody F.
  assert (Hlb : len body = n).
  { subst body. unfold region. apply len_peek; subst n; lia. }
  destruct (stream_store_spec (mkSTREAM F 27 (len F)) 27 body)
    as (p9 & z9 & l9 & s9 & o9).
  set (a9 := stream_store (mkSTREAM F 27 (len F)) 27 body) in *.
  cbn [s_data s_p s_size] in p9, z9, l9, s9, o9.
  rewrite Hlb in s9, o9.
  specialize (s9 ltac:(lia) ltac:(subst n; lia)).
  exists a9.
  split; [|split; [|split; [|split]]].
  - unfold rdp_read_security_header.
    rewrite (stream_read_uint16_le16 (mkSTREAM F 15 (len F))
               (to_uint16 (sec_flags r)));
      [reflexivity|cbn [s_p]; lia|apply to_uint16_range|exact H15].
  - unfold rdp_decrypt. rewrite LLOGLN_quiet.
    destruct (Z.eqb_spec (encryption_method (settings (rdp w)))
                ENCRYPTION_METHOD_FIPS) as [E|_]; [contradiction|].
    unfold stream_read, stream_seek. cbn [s_data s_p s_size].
    change (19 + 8) with 27.
    replace (len F - 19 - 8) with n by (subst n; lia).
    assert (R : region (mkSTREAM F 27 (len F)) 27 n = fit n (snd e))
      by exact H27.
    rewrite R, Hdec. unfold stream_rewrite. rewrite R.
    rewrite len_fit. replace (Z.max 0 n) with n by (subst n; lia).
    rewrite (fit_exact n body Hlb). fold a9.
    assert (Hreg : region a9 (s_p a9) n = body).
    { unfold region. rewrite p9. exact s9. }
    rewrite Hreg, to_uint16_idem, land_uint16_checksum.
    fold salted. fold c.
    destruct c as [rc cmac] eqn:Ec. cbn [fst snd] in *.
    rewrite H19.
    rewrite (fit_exact 8 (fit 8 (snd h)))
      by (rewrite len_fit; reflexivity).
    destruct (list_eq_dec Z.eq_dec (fit 8 (snd h)) (fit 8 cmac)) as [_|N];
      [|congruence].
    rewrite LLOGLN_quiet. reflexivity.
  - exact p9.
  - rewrite z9. exact HlenF.
  - unfold stream_get_left. rewrite p9, z9, HlenF.
    unfold region. replace (s_p s - 27) with n by reflexivity. exact s9.
Qed.

(** ** An encrypted Data PDU, from [rdp_send_data_pdu] to the dispatch *)

(** The FIPS branch of [rdp_security_stream_out] leaves the security header
    it wrote first as it is. *)
Lemma rdp_security_stream_out_fips_flags
  (r : rdpRdp) (s : STREAM) (length : Z) :
  Z.land (sec_flags r) SEC_ENCRYPT <> 0 ->
  encryption_method (settings r) = ENCRYPTION_METHOD_FIPS ->
  s_p s = 15 -> 31 <= length -> length + 7 <= len (s_data s) ->
  peek (s_data (snd (rdp_security_stream_out X r s length))) 15 2
  = le16 (to_uint16 (sec_flags r)).
Proof.
  intros He Hf Hp Hlo Hfit.
  set (n := length - 31).
  pose proof (fips_pad_arith n ltac:(subst n; lia)) as Hx. cbv zeta in Hx.
  set (pad := (8 - n mod 8) mod 8) in *.
  destruct Hx as (Hpad & Hb & Hm).
  unfold rdp_security_stream_out.
  destruct (Z.eqb_spec (sec_flags r) 0) as [E|_].
  { rewrite E in He. now cbn in He. }
  destruct (Z.eqb_spec (Z.land (sec_flags r) SEC_ENCRYPT) 0) as [E|_];
    [contradiction|].
  rewrite Hf, Z.eqb_refl. cbn [negb].
  unfold rdp_write_security_header, stream_write_uint16, stream_write_uint8.
  set (F := le16 (to_uint16 (sec_flags r))).
  destruct (stream_put_spec s F) as (p1 & z1 & l1 & s1 & o1);
    [lia|change (len F) with 2; lia|].
  set (a1 := stream_put s F) in *. change (len F) with 2 in *.
  destruct (stream_put_spec a1 (le16 0)) as (p2 & z2 & l2 & _ & o2);
    [lia|change (len (le16 0)) with 2; lia|].
  set (a2 := stream_put a1 (le16 0)) in *. change (len (le16 0)) with 2 in *.
  assert (q2 : s_p a2 = 19) by lia.
  rewrite q2. replace (length - (19 + 12)) with n by (subst n; lia).
  change (19 + 12) with 31.
  rewrite Hpad.
  destruct (stream_put_spec a2 (le16 16)) as (p3 & z3 & l3 & _ & o3);
    [lia|change (len (le16 16)) with 2; lia|].
  set (a3 := stream_put a2 (le16 16)) in *.
  change (len (le16 16)) with 2 in *.
  destruct (stream_put_spec a3 [Z.land 1 255]) as (p4 & z4 & l4 & _ & o4);
    [lia|change (len [Z.land 1 255]) with 1; lia|].
  set (a4 := stream_put a3 [Z.land 1 255]) in *.
  change (len [Z.land 1 255]) with 1 in *.
  set (Zs := repeat 0 (Z.to_nat pad)).
  assert (HZ : len Zs = pad) by (subst Zs; rewrite len_repeat; lia).
  destruct (stream_store_spec a4 (31 + n) Zs) as (p5 & z5 & l5 & _ & o5).
  set (a5 := stream_store a4 (31 + n) Zs) in *.
  rewrite HZ in *.
  destruct (stream_put_spec a5 [Z.land pad 255])
    as (p6 & z6 & l6 & _ & o6);
    [lia|change (len [Z.land pad 255]) with 1; subst n; lia|].
  set (a6 := stream_put a5 [Z.land pad 255]) in *.
  change (len [Z.land pad 255]) with 1 in *.
  assert (q6 : s_p a6 = 23) by lia.
  destruct (security_hmac_signature X r (region a6 31 n)) as [r1 sig].
  rewrite q6.
  destruct (stream_store_spec a6 23 (fit 8 sig)) as (p7 & z7 & l7 & _ & o7).
  set (a7 := stream_store a6 23 (fit 8 sig)) in *.
  rewrite len_fit in *. change (Z.max 0 8) with 8 in *.
  set (a8 := stream_seek a7 8).
  assert (E8 : s_data a8 = s_data a7) by reflexivity.
  destruct (security_fips_encrypt X r1 (region a8 31 (n + pad)))
    as [r2 out].
  unfold stream_rewrite.
  match goal with
  | |- context [stream_store a8 31 ?bs] =>
      destruct (stream_store_spec a8 31 bs) as (_ & _ & _ & _ & o9)
  end.
  cbn [fst snd].
  rewrite o9, E8, o7, o6, o5, o4, o3, o2 by (subst n; lia).
  rewrite <- Hp. exact s1.
Qed.

Lemma land_uint16_low (v m : Z) :
  0 <= m <= 0xFFFF -> Z.land (to_uint16 v) m = Z.land v m.
Proof.
  intros Hm. unfold to_uint16. rewrite <- Z.land_assoc. f_equal.
  rewrite Z.land_comm. change 0xFFFF with (Z.ones 16).
  rewrite Z.land_ones by lia. apply Z.mod_small.
  change (2 ^ 16) with 65536. lia.
Qed.

(** The frame [rdp_send_data_pdu] emits with [SEC_ENCRYPT] staged in FIPS
    mode: the MCS header, the security header, the FIPS header, the
    signature and the cipher text of the plaintext; the plaintext is the
    two Share headers followed by the caller's body. *)
Lemma rdp_send_data_pdu_fips_frame
  (r : rdpRdp) (s : STREAM) (type channel_id : Z) :
  Z.land (sec_flags r) SEC_ENCRYPT <> 0 ->
  encryption_method (settings r) = ENCRYPTION_METHOD_FIPS ->
  49 <= s_p s -> s_p s + 7 <= 0xFFFF -> s_p s + 7 <= len (s_data s) ->
  let m := if server_mode (settings r)
           then DomainMCSPDU_SendDataIndication
           else DomainMCSPDU_SendDataRequest in
  let n := s_p s - 31 in
  let pad := (8 - n mod 8) mod 8 in
  let plain :=
    (le16 (s_p s - 31) ++ le16 (Z.lor PDU_TYPE_DATA 0x10)
     ++ le16 (to_uint16 channel_id))
    ++ (le32 (share_id (settings r)) ++ [0; STREAM_LOW]
        ++ le16 (s_p s - 49) ++ [Z.land type 0xFF; 0] ++ le16 0)
    ++ region s 49 (s_p s - 49) in
  let h := security_hmac_signature X r plain in
  let e := security_fips_encrypt X (fst h)
             (plain ++ repeat 0 (Z.to_nat pad)) in
  let F := stream_frame (snd (rdp_send_data_pdu X r s type channel_id)) in
  len plain = n
  /\ len F = s_p s + pad
  /\ peek F 0 8 = mcs_enc L m (s_p s + pad) 0
  /\ peek F 10 2 = per16_enc L MCS_GLOBAL_CHANNEL_ID 0
  /\ peek F 13 2 = be16 (to_uint16 (Z.lor (s_p s + pad - 15) 0x8000))
  /\ peek F 15 2 = le16 (to_uint16 (sec_flags r))
  /\ peek F 19 4 = [0x10; 0; 1; pad]
  /\ peek F 23 8 = fit 8 (snd h)
  /\ peek F 31 (n + pad) = fit (n + pad) (snd e).
Proof.
  intros He Hf Hlo Hhi Hfit m n pad plain h e F.
  assert (Hsec : rdp_get_sec_bytes r = 16).
  { unfold rdp_get_sec_bytes.
    destruct (Z.eqb_spec (Z.land (sec_flags r) SEC_ENCRYPT) 0) as [E|_];
      [contradiction|].
    rewrite Hf. reflexivity. }
  assert (Hu : to_uint16 (s_p s) = s_p s) by (apply to_uint16_small; lia).
  pose proof (rdp_write_header_length_fips r (s_p s) He Hf ltac:(lia) Hhi)
    as Ho.
  fold n in Ho. fold pad in Ho.
  destruct (fips_pad_arith n ltac:(subst n; lia)) as (_ & Hb & _).
  fold pad in Hb.
  destruct (rdp_write_header_spec X L r (stream_set_pos s 0) (s_p s)
              MCS_GLOBAL_CHANNEL_ID)
    as (p1 & z1 & l1 & h0 & _ & h10 & h13 & o1);
    [reflexivity|cbn [stream_set_pos s_data]; lia|].
  rewrite Hu, Ho in *. cbn [stream_set_pos s_data] in l1, o1.
  fold m in h0.
  set (s1 := rdp_write_header X r (stream_set_pos s 0) (s_p s)
               MCS_GLOBAL_CHANNEL_ID) in *.
  destruct (rdp_write_share_control_header_spec (stream_seek s1 16)
              (s_p s - 16) PDU_TYPE_DATA channel_id)
    as (p2 & z2 & l2 & c31 & c33 & c35 & o2);
    [cbn [stream_seek s_p]; lia|cbn [stream_seek s_p s_data]; lia|].
  cbn [stream_seek s_p s_data] in p2, l2, c31, c33, c35, o2.
  rewrite p1 in p2, c31, c33, c35, o2.
  change (15 + 16) with 31 in *.
  change (31 + 2) with 33 in c33. change (31 + 4) with 35 in c35.
  change (31 + 6) with 37 in *.
  unfold RDP_PACKET_HEADER_MAX_LENGTH in c31.
  rewrite (to_uint16_small (s_p s - 16)) in c31 by lia.
  rewrite (to_uint16_small (s_p s - 16 - 15)) in c31 by lia.
  replace (s_p s - 16 - 15) with (s_p s - 31) in c31 by lia.
  set (s2 := rdp_write_share_control_header (stream_seek s1 16) (s_p s - 16)
               PDU_TYPE_DATA channel_id) in *.
  destruct (rdp_write_share_data_header_spec s2 (s_p s - 16) type
              (share_id (settings r)))
    as (p3 & z3 & l3 & d37 & o3); [lia|lia|].
  rewrite p2 in p3, d37, o3. change (37 + 12) with 49 in *.
  unfold RDP_PACKET_HEADER_MAX_LENGTH, RDP_SHARE_CONTROL_HEADER_LENGTH,
    RDP_SHARE_DATA_HEADER_LENGTH in d37.
  rewrite (to_uint16_small (s_p s - 16)) in d37 by lia.
  rewrite (to_uint16_small (s_p s - 16 - 15)) in d37 by lia.
  rewrite (to_uint16_small (s_p s - 16 - 15 - 6)) in d37 by lia.
  rewrite (to_uint16_small (s_p s - 16 - 15 - 6 - 12)) in d37 by lia.
  replace (s_p s - 16 - 15 - 6 - 12) with (s_p s - 49) in d37 by lia.
  set (s3 := rdp_write_share_data_header s2 (s_p s - 16) type
               (share_id (settings r))) in *.
  assert (Hplain : peek (s_data s3) 31 n = plain).
  { subst plain. replace n with (6 + (12 + (s_p s - 49))) by (subst n; lia).
    rewrite !peek_app_split by lia.
    change (31 + 6) with 37. change (37 + 12) with 49.
    rewrite d37. f_equal; [|f_equal].
    - rewrite o3 by lia. change 6 with (2 + (2 + 2)).
      rewrite !peek_app_split by lia. change (31 + 2 + 2) with 35.
      change (31 + 2) with 33. rewrite c31, c33, c35.
      rewrite (to_uint16_small PDU_TYPE_DATA)
        by (unfold PDU_TYPE_DATA; lia).
      reflexivity.
    - unfold region. rewrite o3, o2, o1 by lia. reflexivity. }
  assert (Hlp : len plain = n).
  { rewrite <- Hplain. apply len_peek; subst n; lia. }
  pose proof (rdp_security_stream_out_fips X r (stream_set_mark s3 15)
                (s_p s) He Hf eq_refl ltac:(lia)
                ltac:(cbn [stream_set_mark s_data]; lia)) as Hs.
  pose proof (rdp_security_stream_out_fips_flags r (stream_set_mark s3 15)
                (s_p s) He Hf eq_refl ltac:(lia)
                ltac:(cbn [stream_set_mark s_data]; lia)) as Hfl.
  cbv zeta in Hs. cbn [stream_set_mark s_data s_size] in Hs.
  fold n in Hs. fold pad in Hs. rewrite Hplain in Hs.
  fold h in Hs. fold e in Hs.
  assert (EF : F = peek (s_data
                           (snd (rdp_security_stream_out X r
                                   (stream_set_mark s3 15) (s_p s))))
                     0 (s_p s + pad)).
  { subst F. unfold rdp_send_data_pdu, stream_get_length. rewrite Hu, Hsec.
    fold s1. fold s2. fold s3. rewrite p1.
    destruct Hs as (Epad & _).
    destruct (rdp_security_stream_out X r (stream_set_mark s3 15) (s_p s))
      as [[pad' r'] s4].
    cbn [fst snd] in *. subst pad'.
    rewrite (to_uint16_small (s_p s + pad)) by lia.
    destruct (transport_write X (transport r') _) as [st t].
    destruct (st <? 0); reflexivity. }
  destruct Hs as (_ & _ & _ & _ & Hlen & H19 & H23 & H31 & Hlow).
  split; [exact Hlp|].
  rewrite EF.
  split; [apply len_peek; lia|].
  rewrite !peek_peek by (subst n; lia).
  split; [rewrite Hlow, o3, o2 by lia; exact h0|].
  split; [rewrite Hlow, o3, o2 by lia; exact h10|].
  split; [rewrite Hlow, o3, o2 by lia; exact h13|].
  split; [exact Hfl|].
  split; [exact H19|]. split; [exact H23|exact H31].
Qed.

(** X2.  Send to receive, encrypted. A Data PDU [rdp_send_data_pdu] emits with
    [SEC_ENCRYPT] staged in FIPS mode, received by [rdp_recv_tpkt_pdu] on a
    peer session with FIPS encryption whose cipher inverts the sender's, whose
    signature check accepts the sender's signature and whose collaborators
    accept the PDU: the receive succeeds, the sender's channel is recorded as
    [pdu_source], the PDU is dispatched on the data type the sender gave with
    the cursor on the first byte of the body, which is the body the caller
    wrote, and the stream ends with the body (the pad is cut off). *)
Theorem fips_data_pdu_received
  (r : rdpRdp) (rx : World) (s : STREAM) (type channel_id : Z)
  (fuel : nat) (u : TpktLocals) (rd rc : rdpRdp) :
  polite_collaborators X ->
  Z.land (sec_flags r) SEC_ENCRYPT <> 0 ->
  Z.land (sec_flags r) SEC_REDIRECTION_PKT = 0 ->
  encryption_method (settings r) = ENCRYPTION_METHOD_FIPS ->
  0 <= type <= 0xFF -> 0 <= channel_id <= 0xFFFF ->
  0 <= share_id (settings r) <= 0xFFFFFFFF ->
  49 <= s_p s -> s_p s + 7 <= 0x7FFF -> s_p s + 7 <= len (s_data s) ->
  server_mode (settings (rdp rx)) = negb (server_mode (settings r)) ->
  disconnect (rdp rx) = false ->
  encryption (settings (rdp rx)) = true ->
  encryption_method (settings (rdp rx)) = ENCRYPTION_METHOD_FIPS ->
  let n := s_p s - 31 in
  let pad := (8 - n mod 8) mod 8 in
  let body := region s 49 (s_p s - 49) in
  let plain :=
    (le16 (s_p s - 31) ++ le16 (Z.lor PDU_TYPE_DATA 0x10)
     ++ le16 channel_id)
    ++ (le32 (share_id (settings r)) ++ [0; STREAM_LOW]
        ++ le16 (s_p s - 49) ++ [type; 0] ++ le16 0)
    ++ body in
  let h := security_hmac_signature X r plain in
  let e := security_fips_encrypt X (fst h)
             (plain ++ repeat 0 (Z.to_nat pad)) in
  security_fips_decrypt X (rdp rx) (fit (n + pad) (snd e))
  = (true, rd, plain ++ repeat 0 (Z.to_nat pad)) ->
  security_fips_check_signature X rd plain (fit 8 (snd h)) = (true, rc) ->
  let F := stream_frame (snd (rdp_send_data_pdu X r s type channel_id)) in
  let rx1 := with_rdp rx (set_pdu_source rc channel_id) in
  exists d,
    rdp_recv_tpkt_pdu X (S fuel) rx (stream_of F) u
    = Some (true,
            fst (rdp_recv_data_pdu_switch X rx1 (mkSTREAM d 49 (s_p s)) type),
            mkSTREAM d (s_p s) (s_p s))
    /\ peek d 49 (s_p s - 49) = body.
Proof.
  intros polite He Hnr Hf Ht Hc Hsh Hlo Hhi Hfit Hmode Hd Henc Hfr
    n pad body plain h e Hdec Hchk F rx1.
  destruct (rdp_send_data_pdu_fips_frame r s type channel_id He Hf Hlo
              ltac:(lia) Hfit)
    as (Hlp & HlenF & f0 & f10 & f13 & f15 & f19 & f23 & f31).
  rewrite (to_uint16_small channel_id) in Hlp, f23, f31 by lia.
  rewrite (land_0xFF_small type) in Hlp, f23, f31 by lia.
  change (len plain = n) in Hlp.
  change (len F = s_p s + pad) in HlenF.
  change (peek F 0 8
          = mcs_enc L (if server_mode (settings r)
                       then DomainMCSPDU_SendDataIndication
                       else DomainMCSPDU_SendDataRequest) (s_p s + pad) 0)
    in f0.
  change (peek F 10 2 = per16_enc L MCS_GLOBAL_CHANNEL_ID 0) in f10.
  change (peek F 13 2
          = be16 (to_uint16 (Z.lor (s_p s + pad - 15) 0x8000))) in f13.
  change (peek F 15 2 = le16 (to_uint16 (sec_flags r))) in f15.
  change (peek F 19 4 = [0x10; 0; 1; pad]) in f19.
  change (peek F 23 8 = fit 8 (snd h)) in f23.
  change (peek F 31 (n + pad) = fit (n + pad) (snd e)) in f31.
  clearbody F.
  destruct (fips_pad_arith n ltac:(subst n; lia)) as (_ & Hb & _).
  fold pad in Hb.
  (* the MCS header *)
  assert (H1 : rdp_read_header X rx (stream_of F) (u_length u) (u_channelId u)
               = (true, rx, mkSTREAM F 15 (len F), len F - 15,
                  MCS_GLOBAL_CHANNEL_ID)).
  { apply rdp_read_header_of_frame with
      (m := if server_mode (settings r)
            then DomainMCSPDU_SendDataIndication
            else DomainMCSPDU_SendDataRequest); try lia.
    - rewrite Hmode. destruct (server_mode (settings r)); reflexivity.
    - unfold MCS_GLOBAL_CHANNEL_ID. lia.
    - rewrite HlenF. exact f0.
    - exact f10.
    - rewrite HlenF. exact f13. }
  (* the security header *)
  assert (H2 : rdp_read_security_header (mkSTREAM F 15 (len F))
               = (to_uint16 (sec_flags r), mkSTREAM F 19 (len F))).
  { unfold rdp_read_security_header.
    rewrite (stream_read_uint16_le16 (mkSTREAM F 15 (len F))
               (to_uint16 (sec_flags r)));
      [reflexivity|cbn [s_p]; lia|apply to_uint16_range|exact f15]. }
  (* the envelope *)
  destruct (rdp_decrypt_fips_success rx F plain (fit 8 (snd h))
              (fit (n + pad) (snd e)) pad 0x10 0 1
              (to_uint16 (sec_flags r)) rd rc Hfr Hb)
    as (s' & Hr & Hp & Hsz & Hreg & _);
    [rewrite Hlp, HlenF; subst n; lia|exact f19|exact f23
    |rewrite Hlp; exact f31|exact Hdec|exact Hchk|].
  rewrite Hlp in Hreg. unfold region in Hreg.
  assert (Hsz' : s_size s' = s_p s) by lia.
  exists (s_data s').
  split.
  - unfold rdp_recv_tpkt_pdu. rewrite LLOGLN_quiet, H1. cbn [negb].
    rewrite LLOGLN_quiet, Hd, Henc, H2, LLOGLN_quiet.
    assert (Hany : Z.land (to_uint16 (sec_flags r))
                     (Z.lor SEC_ENCRYPT SEC_REDIRECTION_PKT) <> 0).
    { rewrite land_uint16_low by (vm_compute; split; discriminate).
      rewrite Z.land_lor_distr_r. intros H0.
      apply Z.lor_eq_0_iff in H0. tauto. }
    destruct (Z.eqb_spec (Z.land (to_uint16 (sec_flags r))
                            (Z.lor SEC_ENCRYPT SEC_REDIRECTION_PKT)) 0)
      as [E|_]; [contradiction|].
    cbn [negb].
    replace (len F - 15 - 4) with (len F - 19) by lia.
    rewrite Hr. cbn [negb].
    rewrite land_uint16_low by (vm_compute; split; discriminate).
    rewrite Hnr. cbn [Z.eqb negb].
    change (MCS_GLOBAL_CHANNEL_ID =? MCS_GLOBAL_CHANNEL_ID) with true.
    cbn [negb].
    (* the loop, on the plaintext *)
    cbn [rdp_recv_tpkt_pdu_loop].
    unfold stream_get_left at 1. rewrite Hp, Hsz'.
    destruct (Z.gtb_spec (s_p s - 31) 3) as [_|E]; [|lia].
    assert (R31 : region s' (s_p s') 6
                  = le16 (s_p s - 31) ++ le16 (Z.lor PDU_TYPE_DATA 0x10)
                    ++ le16 channel_id).
    { unfold region. rewrite Hp. replace 31 with (31 + 0) by lia.
      rewrite <- (peek_sub (s_data s') 31 n 0 6) by (subst n; lia).
      rewrite Hreg. subst plain.
      rewrite <- app_assoc.
      apply (peek_app_front
               (le16 (s_p s - 31) ++ le16 (Z.lor PDU_TYPE_DATA 0x10)
                ++ le16 channel_id)). }
    rewrite (rdp_read_share_control_header_bytes s' (s_p s - 31)
               PDU_TYPE_DATA channel_id (u_pduType u) (u_pduSource u));
      [|lia|lia|unfold stream_get_left; lia|unfold PDU_TYPE_DATA; lia|lia
       |exact R31].
    change (with_rdp (with_rdp rx rc)
              (set_pdu_source (rdp (with_rdp rx rc)) channel_id)) with rx1.
    unfold rdp_recv_tpkt_pdu_switch.
    change (PDU_TYPE_DATA =? PDU_TYPE_DATA) with true. cbv iota.
    unfold rdp_recv_data_pdu.
    assert (R37 : region (stream_seek s' 6) (s_p (stream_seek s' 6)) 12
                  = le32 (share_id (settings r)) ++ [0; STREAM_LOW]
                    ++ le16 (s_p s - 49) ++ [type; 0] ++ le16 0).
    { unfold region. cbn [stream_seek s_p s_data]. rewrite Hp.
      rewrite <- (peek_sub (s_data s') 31 n 6 12) by (subst n; lia).
      rewrite Hreg. subst plain.
      rewrite (peek_app_back
                 (le16 (s_p s - 31) ++ le16 (Z.lor PDU_TYPE_DATA 0x10)
                  ++ le16 channel_id)).
      apply (peek_app_front
               (le32 (share_id (settings r)) ++ [0; STREAM_LOW]
                ++ le16 (s_p s - 49) ++ [type; 0] ++ le16 0)). }
    rewrite (rdp_read_share_data_header_bytes (stream_seek s' 6) (u_data u)
               (share_id (settings r)) (s_p s - 49) type 0 0 0 STREAM_LOW);
      [|cbn [stream_seek s_p]; lia
       |unfold stream_get_left; cbn [stream_seek s_p s_size]; lia
       |lia|lia|lia|lia|lia|exact R37].
    unfold rdp_recv_data_pdu_dispatch. cbn [sd_compressed_type sd_type].
    change (negb (Z.land 0 PACKET_COMPRESSED =? 0)) with false. cbv iota.
    assert (Es : stream_seek (stream_seek s' 6) 12
                 = mkSTREAM (s_data s') 49 (s_p s)).
    { apply stream_eq; cbn [stream_seek s_data s_p s_size]; lia || auto. }
    rewrite Es.
    destruct (rdp_recv_data_pdu_switch_polite X polite rx1
                (mkSTREAM (s_data s') 49 (s_p s)) type)
      as (Hdata & Hsize & _).
    destruct (rdp_recv_data_pdu_switch X rx1
                (mkSTREAM (s_data s') 49 (s_p s)) type) as [w2 s2].
    cbn [fst snd s_data s_size negb] in *.
    unfold stream_get_mark, stream_set_mark.
    rewrite Hdata, Hsize, Hp.
    replace (31 + (s_p s - 31)) with (s_p s) by lia.
    apply rdp_recv_tpkt_pdu_loop_end.
    unfold stream_get_left. cbn [s_size s_p]. lia.
  - change (peek (s_data s') 49 (s_p s - 49))
      with (peek (s_data s') (31 + 18) (s_p s - 49)).
    rewrite <- (peek_sub (s_data s') 31 n 18 (s_p s - 49)) by (subst n; lia).
    rewrite Hreg. subst plain.
    rewrite app_assoc.
    rewrite (peek_app_back
               ((le16 (s_p s - 31) ++ le16 (Z.lor PDU_TYPE_DATA 0x10)
                 ++ le16 channel_id)
                ++ le32 (share_id (settings r)) ++ [0; STREAM_LOW]
                ++ le16 (s_p s - 49) ++ [type; 0] ++ le16 0)).
    replace (s_p s - 49) with (len body)
      by (subst body; unfold region; apply len_peek; lia).
    apply peek_all.
Qed.

(** ** The rectangle senders *)

(** On a session that neither encrypts nor has flags staged, a Data PDU
    stream is the transport's stream with the cursor moved over the 33
    bytes of the three headers. *)
Lemma rdp_data_pdu_init_plain (r : rdpRdp) :
  sec_flags r = 0 -> do_crypt r = false ->
  let ti := transport_send_stream_init X (transport r) 2048 in
  rdp_data_pdu_init X r
  = (set_transport r (fst ti), stream_seek (snd ti) 33).
Proof.
  intros Hz Hc ti. subst ti. unfold rdp_data_pdu_init.
  destruct (transport_send_stream_init X (transport r) 2048) as [t s0].
  unfold rdp_security_stream_init.
  cbn [set_transport do_crypt sec_flags]. rewrite Hc, Hz.
  cbn [Z.eqb negb fst snd]. f_equal.
  apply stream_eq; cbn [stream_seek s_data s_p s_size]; try reflexivity.
  unfold RDP_PACKET_HEADER_MAX_LENGTH, RDP_SHARE_CONTROL_HEADER_LENGTH,
    RDP_SHARE_DATA_HEADER_LENGTH. lia.
Qed.

(** The twelve bytes [rdp_send_invalidate] puts in the body; the second to
    the fourth are skipped over, not written. *)
Lemma rdp_send_invalidate_body_spec (s : STREAM) (x y w h : Z) :
  0 <= s_p s -> s_p s + 12 <= len (s_data s) ->
  let s' := rdp_send_invalidate_body s x y w h in
  s_p s' = s_p s + 12 /\ s_size s' = s_size s
  /\ len (s_data s') = len (s_data s)
  /\ peek (s_data s') (s_p s) 12
     = [1] ++ peek (s_data s) (s_p s + 1) 3
       ++ le16 x ++ le16 y ++ le16 (x + w) ++ le16 (y + h)
  /\ forall j n, 0 <= j -> 0 <= n -> j + n <= s_p s ->
       peek (s_data s') j n = peek (s_data s) j n.
Proof.
  intros Hp Hfit s'. subst s'. unfold rdp_send_invalidate_body.
  unfold stream_write_uint16, stream_write_uint8.
  destruct (stream_put_spec s [Z.land 1 255]) as (p1 & z1 & l1 & s1 & o1);
    [lia|change (len [Z.land 1 255]) with 1; lia|].
  set (a1 := stream_put s [Z.land 1 255]) in *.
  change (len [Z.land 1 255]) with 1 in *.
  set (a2 := stream_seek a1 3).
  assert (p2 : s_p a2 = s_p s + 4) by (subst a2; cbn [stream_seek s_p]; lia).
  assert (z2 : s_size a2 = s_size a1) by reflexivity.
  assert (E2 : s_data a2 = s_data a1) by reflexivity.
  destruct (stream_put_spec a2 (le16 x)) as (p3 & z3 & l3 & s3 & o3);
    [lia|change (len (le16 x)) with 2; rewrite E2; lia|].
  set (a3 := stream_put a2 (le16 x)) in *.
  change (len (le16 x)) with 2 in *.
  destruct (stream_put_spec a3 (le16 y)) as (p4 & z4 & l4 & s4 & o4);
    [lia|change (len (le16 y)) with 2; rewrite E2 in *; lia|].
  set (a4 := stream_put a3 (le16 y)) in *.
  change (len (le16 y)) with 2 in *.
  destruct (stream_put_spec a4 (le16 (x + w))) as (p5 & z5 & l5 & s5 & o5);
    [lia|change (len (le16 (x + w))) with 2; rewrite E2 in *; lia|].
  set (a5 := stream_put a4 (le16 (x + w))) in *.
  change (len (le16 (x + w))) with 2 in *.
  destruct (stream_put_spec a5 (le16 (y + h))) as (p6 & z6 & l6 & s6 & o6);
    [lia|change (len (le16 (y + h))) with 2; rewrite E2 in *; lia|].
  set (a6 := stream_put a5 (le16 (y + h))) in *.
  change (len (le16 (y + h))) with 2 in *.
  rewrite E2 in *.
  split; [lia|]. split; [congruence|]. split; [lia|].
  split.
  - change 12 with (1 + (3 + (2 + (2 + (2 + 2))))).
    rewrite !peek_app_split by lia.
    rewrite (o6 (s_p s) 1), (o5 (s_p s) 1), (o4 (s_p s) 1), (o3 (s_p s) 1),
      s1 by lia.
    rewrite (o6 (s_p s + 1) 3), (o5 (s_p s + 1) 3), (o4 (s_p s + 1) 3),
      (o3 (s_p s + 1) 3), (o1 (s_p s + 1) 3) by lia.
    rewrite (o6 (s_p s + 1 + 3) 2), (o5 (s_p s + 1 + 3) 2),
      (o4 (s_p s + 1 + 3) 2) by lia.
    replace (s_p s + 1 + 3) with (s_p a2) at 1 by lia. rewrite s3.
    rewrite (o6 (s_p s + 1 + 3 + 2) 2), (o5 (s_p s + 1 + 3 + 2) 2) by lia.
    replace (s_p s + 1 + 3 + 2) with (s_p a3) at 1 by lia. rewrite s4.
    rewrite (o6 (s_p s + 1 + 3 + 2 + 2) 2) by lia.
    replace (s_p s + 1 + 3 + 2 + 2) with (s_p a4) at 1 by lia. rewrite s5.
    replace (s_p s + 1 + 3 + 2 + 2 + 2) with (s_p a5) by lia. rewrite s6.
    reflexivity.
  - intros j n Hj Hn Hjn.
    rewrite o6, o5, o4, o3, o1 by lia. reflexivity.
Qed.

(** X23.  [rdp_send_invalidate] on a session without encryption: it returns 0
    whatever the send returned, and what it hands to the transport is a Data
    PDU of type 33 on the session's [user_id] with a 12-byte body: a count of
    1, three bytes the function never writes (they go out as the transport's
    buffer held them), then left, top, right and bottom, where right is [x + w]
    and bottom is [y + h], each cut to 16 bits. [code] is not used. *)
Theorem rdp_send_invalidate_frame (r : rdpRdp) (code x y w h : Z) :
  sec_flags r = 0 -> do_crypt r = false ->
  let ti := transport_send_stream_init X (transport r) 2048 in
  s_p (snd ti) = 0 -> 45 <= len (s_data (snd ti)) ->
  let r1 := set_transport r (fst ti) in
  let s1 := rdp_send_invalidate_body (stream_seek (snd ti) 33) x y w h in
  let sent := rdp_send_data_pdu X r1 s1 33 (mcs_user_id r) in
  let F := stream_frame (snd sent) in
  rdp_send_invalidate X r code x y w h = (0, snd (fst sent))
  /\ len F = 45
  /\ peek F 15 6
     = le16 30 ++ le16 (Z.lor PDU_TYPE_DATA 0x10)
       ++ le16 (to_uint16 (mcs_user_id r))
  /\ peek F 21 12
     = le32 (share_id (settings r)) ++ [0; STREAM_LOW] ++ le16 12
       ++ [33; 0] ++ le16 0
  /\ peek F 33 12
     = [1] ++ peek (s_data (snd ti)) 34 3
       ++ le16 x ++ le16 y ++ le16 (x + w) ++ le16 (y + h).
Proof.
  intros Hz Hc ti Hp0 Hlen r1 s1 sent F.
  pose proof (rdp_data_pdu_init_plain r Hz Hc) as Hi. cbv zeta in Hi.
  fold ti in Hi. fold r1 in Hi.
  destruct (rdp_send_invalidate_body_spec (stream_seek (snd ti) 33) x y w h)
    as (p1 & z1 & l1 & b1 & o1);
    [cbn [stream_seek s_p]; lia|cbn [stream_seek s_p s_data]; lia|].
  fold s1 in p1, z1, l1, b1, o1.
  cbn [stream_seek s_p s_data s_size] in p1, z1, l1, b1, o1.
  rewrite Hp0 in p1, b1, o1.
  change (0 + 33 + 12) with 45 in p1. change (0 + 33 + 1) with 34 in b1.
  change (0 + 33) with 33 in b1, o1.
  destruct (rdp_send_data_pdu_plain_frame r1 s1 33 (mcs_user_id r))
    as (HlenF & _ & _ & _ & f15 & f21 & f33);
    [exact Hz|lia|lia|].
  fold sent in HlenF, f15, f21, f33. fold F in HlenF, f15, f21, f33.
  rewrite p1 in HlenF, f15, f21, f33.
  split.
  - unfold rdp_send_invalidate. rewrite Hi. fold s1.
    change (mcs_user_id r1) with (mcs_user_id r). fold sent.
    destruct sent as [[ok r2] s2]. reflexivity.
  - split; [exact HlenF|]. split; [exact f15|]. split; [exact f21|].
    change (45 - 33) with 12 in f33. rewrite f33. exact b1.
Qed.

(** X24.  [rdp_send_suppress_output] on a session without encryption: it prints
    its line, returns 0 whatever the send returned, and what it hands to the
    transport is a Data PDU of type 35 on the session's [user_id] whose body is
    the 32-bit code, followed by left, top, right and bottom for code 1 only. *)
Theorem rdp_send_suppress_output_frame
  (v : World) (code left top right bottom : Z) :
  sec_flags (rdp v) = 0 -> do_crypt (rdp v) = false ->
  let r := rdp v in
  let ti := transport_send_stream_init X (transport r) 2048 in
  s_p (snd ti) = 0 -> 45 <= len (s_data (snd ti)) ->
  let rect := if code =? 1
              then le16 left ++ le16 top ++ le16 right ++ le16 bottom
              else [] in
  let r1 := set_transport r (fst ti) in
  let s1 := rdp_send_suppress_output_body (stream_seek (snd ti) 33)
              code left top right bottom in
  let sent := rdp_send_data_pdu X r1 s1 35 (mcs_user_id r) in
  let F := stream_frame (snd sent) in
  rdp_send_suppress_output X v code left top right bottom
  = (0,
     mkWorld (snd (fst sent))
       (trace v
        ++ [Print "rdp_send_suppress_output: code %d left %d top %d right %d bottom %d"]))
  /\ len F = 37 + len rect
  /\ peek F 21 12
     = le32 (share_id (settings r)) ++ [0; STREAM_LOW]
       ++ le16 (4 + len rect) ++ [35; 0] ++ le16 0
  /\ peek F 33 (4 + len rect) = le32 code ++ rect.
Proof.
  intros Hz Hc r ti Hp0 Hlen rect r1 s1 sent F.
  pose proof (rdp_data_pdu_init_plain r Hz Hc) as Hi. cbv zeta in Hi.
  fold ti in Hi. fold r1 in Hi.
  assert (Hbody : s_p s1 = 37 + len rect
                  /\ len (s_data s1) = len (s_data (snd ti))
                  /\ peek (s_data s1) 33 (4 + len rect) = le32 code ++ rect).
  { subst s1 rect. unfold rdp_send_suppress_output_body.
    unfold stream_write_uint32, stream_write_uint16.
    destruct (stream_put_spec (stream_seek (snd ti) 33) (le32 code))
      as (p1 & z1 & l1 & b1 & o1);
      [cbn [stream_seek s_p]; lia
      |cbn [stream_seek s_p s_data]; change (len (le32 code)) with 4; lia|].
    set (a1 := stream_put (stream_seek (snd ti) 33) (le32 code)) in *.
    change (len (le32 code)) with 4 in *.
    cbn [stream_seek s_p s_data s_size] in p1, z1, l1, b1, o1.
    rewrite Hp0 in p1, b1, o1. change (0 + 33 + 4) with 37 in *.
    change (0 + 33) with 33 in *.
    destruct (Z.eqb_spec code 0) as [E0|E0].
    { subst code. cbn [Z.eqb]. change (len []) with 0.
      rewrite app_nil_r. split; [lia|]. split; [exact l1|exact b1]. }
    destruct (Z.eqb_spec code 1) as [E1|E1].
    - destruct (stream_put_spec a1 (le16 left)) as (p2 & z2 & l2 & b2 & o2);
        [lia|change (len (le16 left)) with 2; lia|].
      set (a2 := stream_put a1 (le16 left)) in *.
      change (len (le16 left)) with 2 in *.
      destruct (stream_put_spec a2 (le16 top)) as (p3 & z3 & l3 & b3 & o3);
        [lia|change (len (le16 top)) with 2; lia|].
      set (a3 := stream_put a2 (le16 top)) in *.
      change (len (le16 top)) with 2 in *.
      destruct (stream_put_spec a3 (le16 right)) as (p4 & z4 & l4 & b4 & o4);
        [lia|change (len (le16 right)) with 2; lia|].
      set (a4 := stream_put a3 (le16 right)) in *.
      change (len (le16 right)) with 2 in *.
      destruct (stream_put_spec a4 (le16 bottom))
        as (p5 & z5 & l5 & b5 & o5);
        [lia|change (len (le16 bottom)) with 2; lia|].
      set (a5 := stream_put a4 (le16 bottom)) in *.
      change (len (le16 bottom)) with 2 in *.
      change (len (le16 left ++ le16 top ++ le16 right ++ le16 bottom))
        with 8.
      split; [lia|]. split; [lia|].
      change (4 + 8) with (4 + (2 + (2 + (2 + 2)))).
      rewrite !peek_app_split by lia.
      rewrite (o5 33 4), (o4 33 4), (o3 33 4), (o2 33 4), b1 by lia.
      rewrite (o5 (33 + 4) 2), (o4 (33 + 4) 2), (o3 (33 + 4) 2) by lia.
      replace (33 + 4) with (s_p a1) at 1 by lia. rewrite b2.
      rewrite (o5 (33 + 4 + 2) 2), (o4 (33 + 4 + 2) 2) by lia.
      replace (33 + 4 + 2) with (s_p a2) at 1 by lia. rewrite b3.
      rewrite (o5 (33 + 4 + 2 + 2) 2) by lia.
      replace (33 + 4 + 2 + 2) with (s_p a3) at 1 by lia. rewrite b4.
      replace (33 + 4 + 2 + 2 + 2) with (s_p a4) by lia. rewrite b5.
      reflexivity.
    - change (len []) with 0. rewrite app_nil_r.
      split; [lia|]. split; [exact l1|exact b1]. }
  destruct Hbody as (p1 & l1 & b1).
  assert (Hr : 0 <= len rect <= 8).
  { subst rect. destruct (code =? 1); vm_compute; split; discriminate. }
  destruct (rdp_send_data_pdu_plain_frame r1 s1 35 (mcs_user_id r))
    as (HlenF & _ & _ & _ & _ & f21 & f33);
    [exact Hz|lia|lia|].
  fold sent in HlenF, f21, f33. fold F in HlenF, f21, f33.
  rewrite p1 in HlenF, f21, f33.
  replace (37 + len rect - 33) with (4 + len rect) in f21, f33 by lia.
  split.
  - unfold rdp_send_suppress_output. rewrite LLOGLN_loud.
    cbn [emit rdp]. fold r. rewrite Hi. fold s1.
    change (mcs_user_id r1) with (mcs_user_id r). fold sent.
    destruct sent as [[ok r2] s2]. reflexivity.
  - split; [exact HlenF|]. split; [exact f21|].
    rewrite f33. exact b1.
Qed.

(** ** The same with legacy encryption *)

(** What [rdp_decrypt] does, outside FIPS mode, with an envelope that
    decrypts to [plain] and whose MAC agrees. *)
Lemma rdp_decrypt_legacy_success
  (w : World) (F plain sig cipher : list Z) (sflags : Z) (rd : rdpRdp) :
  encryption_method (settings (rdp w)) <> ENCRYPTION_METHOD_FIPS ->
  len F = 27 + len plain ->
  peek F 19 8 = sig ->
  peek F 27 (len plain) = cipher ->
  security_decrypt X (rdp w) cipher = (rd, plain) ->
  let c := if negb (Z.land (to_uint16 sflags) SEC_SECURE_CHECKSUM =? 0)
           then security_salted_mac_signature X rd plain false
           else security_mac_signature X rd plain in
  fit 8 (snd c) = fit 8 sig ->
  exists s',
    rdp_decrypt X w (mkSTREAM F 19 (len F)) (len F - 19) sflags
    = (true, with_rdp w (fst c), s')
    /\ s_p s' = 27 /\ s_size s' = len F
    /\ region s' 27 (len plain) = plain.
Proof.
  intros Hfr HlenF H19 H27 Hdec c Hmac.
  pose proof (len_nonneg plain) as Hn.
  set (n := len plain) in *.
  destruct (stream_store_spec (mkSTREAM F 27 (len F)) 27 plain)
    as (p9 & z9 & l9 & s9 & o9).
  set (a9 := stream_store (mkSTREAM F 27 (len F)) 27 plain) in *.
  cbn [s_data s_p s_size] in p9, z9, l9, s9, o9.
  fold n in s9, o9.
  specialize (s9 ltac:(lia) ltac:(lia)).
  exists a9.
  split; [|split; [exact p9|split; [exact z9|exact s9]]].
  unfold rdp_decrypt. rewrite LLOGLN_quiet.
  destruct (Z.eqb_spec (encryption_method (settings (rdp w)))
              ENCRYPTION_METHOD_FIPS) as [E|_]; [contradiction|].
  unfold stream_read, stream_seek. cbn [s_data s_p s_size].
  change (19 + 8) with 27.
  replace (len F - 19 - 8) with n by lia.
  assert (R : region (mkSTREAM F 27 (len F)) 27 n = cipher) by exact H27.
  assert (Hlc : len cipher = n).
  { rewrite <- H27. apply len_peek; lia. }
  rewrite R, Hdec. unfold stream_rewrite. rewrite R, Hlc.
  rewrite (fit_exact n plain eq_refl). fold a9.
  assert (Hreg : region a9 (s_p a9) n = plain).
  { unfold region. rewrite p9. exact s9. }
  rewrite Hreg. fold c.
  destruct c as [rc cmac] eqn:Ec. cbn [fst snd] in *.
  rewrite H19.
  destruct (list_eq_dec Z.eq_dec (fit 8 sig) (fit 8 cmac)) as [_|N];
    [|congruence].
  rewrite LLOGLN_quiet. reflexivity.
Qed.

(** The frame [rdp_send_data_pdu] emits with [SEC_ENCRYPT] staged outside
    FIPS mode: the MCS header, the security header, the MAC and the cipher
    text of the plaintext; the plaintext is the two Share headers followed
    by the caller's body, and nothing is padded. *)
Lemma rdp_send_data_pdu_legacy_frame
  (r : rdpRdp) (s : STREAM) (type channel_id : Z) :
  Z.land (sec_flags r) SEC_ENCRYPT <> 0 ->
  encryption_method (settings r) <> ENCRYPTION_METHOD_FIPS ->
  45 <= s_p s <= 0xFFFF -> s_p s <= len (s_data s) ->
  let m := if server_mode (settings r)
           then DomainMCSPDU_SendDataIndication
           else DomainMCSPDU_SendDataRequest in
  let n := s_p s - 27 in
  let plain :=
    (le16 (s_p s - 27) ++ le16 (Z.lor PDU_TYPE_DATA 0x10)
     ++ le16 (to_uint16 channel_id))
    ++ (le32 (share_id (settings r)) ++ [0; STREAM_LOW]
        ++ le16 (s_p s - 45) ++ [Z.land type 0xFF; 0] ++ le16 0)
    ++ region s 45 (s_p s - 45) in
  let h := if negb (Z.land (sec_flags r) SEC_SECURE_CHECKSUM =? 0)
           then security_salted_mac_signature X r plain true
           else security_mac_signature X r plain in
  let e := security_encrypt X (fst h) plain in
  let F := stream_frame (snd (rdp_send_data_pdu X r s type channel_id)) in
  len plain = n
  /\ len F = s_p s
  /\ peek F 0 8 = mcs_enc L m (s_p s) 0
  /\ peek F 10 2 = per16_enc L MCS_GLOBAL_CHANNEL_ID 0
  /\ peek F 13 2 = be16 (to_uint16 (Z.lor (s_p s - 15) 0x8000))
  /\ peek F 15 2 = le16 (to_uint16 (sec_flags r))
  /\ peek F 19 8 = fit 8 (snd h)
  /\ peek F 27 n = fit n (snd e).
Proof.
  intros He Hf Hlo Hfit m n plain h e F.
  assert (Hsec : rdp_get_sec_bytes r = 12).
  { unfold rdp_get_sec_bytes.
    destruct (Z.eqb_spec (Z.land (sec_flags r) SEC_ENCRYPT) 0) as [E|_];
      [contradiction|].
    destruct (Z.eqb_spec (encryption_method (settings r))
                ENCRYPTION_METHOD_FIPS) as [E|_]; [contradiction|].
    reflexivity. }
  assert (Hu : to_uint16 (s_p s) = s_p s) by (apply to_uint16_small; lia).
  assert (Ho : rdp_write_header_length r (s_p s) = s_p s).
  { unfold rdp_write_header_length.
    destruct (Z.eqb_spec (encryption_method (settings r))
                ENCRYPTION_METHOD_FIPS) as [E|_]; [contradiction|].
    now rewrite andb_false_r. }
  destruct (rdp_write_header_spec X L r (stream_set_pos s 0) (s_p s)
              MCS_GLOBAL_CHANNEL_ID)
    as (p1 & z1 & l1 & h0 & _ & h10 & h13 & o1);
    [reflexivity|cbn [stream_set_pos s_data]; lia|].
  rewrite Hu, Ho in *. cbn [stream_set_pos s_data] in l1, o1.
  fold m in h0.
  set (s1 := rdp_write_header X r (stream_set_pos s 0) (s_p s)
               MCS_GLOBAL_CHANNEL_ID) in *.
  destruct (rdp_write_share_control_header_spec (stream_seek s1 12)
              (s_p s - 12) PDU_TYPE_DATA channel_id)
    as (p2 & z2 & l2 & c27 & c29 & c31 & o2);
    [cbn [stream_seek s_p]; lia|cbn [stream_seek s_p s_data]; lia|].
  cbn [stream_seek s_p s_data] in p2, l2, c27, c29, c31, o2.
  rewrite p1 in p2, c27, c29, c31, o2.
  change (15 + 12) with 27 in *.
  change (27 + 2) with 29 in c29. change (27 + 4) with 31 in c31.
  change (27 + 6) with 33 in *.
  unfold RDP_PACKET_HEADER_MAX_LENGTH in c27.
  rewrite (to_uint16_small (s_p s - 12)) in c27 by lia.
  rewrite (to_uint16_small (s_p s - 12 - 15)) in c27 by lia.
  replace (s_p s - 12 - 15) with (s_p s - 27) in c27 by lia.
  set (s2 := rdp_write_share_control_header (stream_seek s1 12) (s_p s - 12)
               PDU_TYPE_DATA channel_id) in *.
  destruct (rdp_write_share_data_header_spec s2 (s_p s - 12) type
              (share_id (settings r)))
    as (p3 & z3 & l3 & d33 & o3); [lia|lia|].
  rewrite p2 in p3, d33, o3. change (33 + 12) with 45 in *.
  unfold RDP_PACKET_HEADER_MAX_LENGTH, RDP_SHARE_CONTROL_HEADER_LENGTH,
    RDP_SHARE_DATA_HEADER_LENGTH in d33.
  rewrite (to_uint16_small (s_p s - 12)) in d33 by lia.
  rewrite (to_uint16_small (s_p s - 12 - 15)) in d33 by lia.
  rewrite (to_uint16_small (s_p s - 12 - 15 - 6)) in d33 by lia.
  rewrite (to_uint16_small (s_p s - 12 - 15 - 6 - 12)) in d33 by lia.
  replace (s_p s - 12 - 15 - 6 - 12) with (s_p s - 45) in d33 by lia.
  set (s3 := rdp_write_share_data_header s2 (s_p s - 12) type
               (share_id (settings r))) in *.
  assert (Hplain : peek (s_data s3) 27 n = plain).
  { subst plain. replace n with (6 + (12 + (s_p s - 45))) by (subst n; lia).
    rewrite !peek_app_split by lia.
    change (27 + 6) with 33. change (33 + 12) with 45.
    rewrite d33. f_equal; [|f_equal].
    - rewrite o3 by lia. change 6 with (2 + (2 + 2)).
      rewrite !peek_app_split by lia. change (27 + 2 + 2) with 31.
      change (27 + 2) with 29. rewrite c27, c29, c31.
      rewrite (to_uint16_small PDU_TYPE_DATA)
        by (unfold PDU_TYPE_DATA; lia).
      reflexivity.
    - unfold region. rewrite o3, o2, o1 by lia. reflexivity. }
  assert (Hlp : len plain = n).
  { rewrite <- Hplain. apply len_peek; subst n; lia. }
  pose proof (rdp_security_stream_out_legacy r (stream_set_mark s3 15)
                (s_p s) He Hf eq_refl ltac:(lia)
                ltac:(cbn [stream_set_mark s_data]; lia)) as Hs.
  cbv zeta in Hs. cbn [stream_set_mark s_data s_size] in Hs.
  fold n in Hs. rewrite Hplain in Hs.
  fold h in Hs. fold e in Hs.
  assert (EF : F = peek (s_data
                           (snd (rdp_security_stream_out X r
                                   (stream_set_mark s3 15) (s_p s))))
                     0 (s_p s)).
  { subst F. unfold rdp_send_data_pdu, stream_get_length. rewrite Hu, Hsec.
    fold s1. fold s2. fold s3. rewrite p1.
    destruct Hs as (Epad & _).
    destruct (rdp_security_stream_out X r (stream_set_mark s3 15) (s_p s))
      as [[pad' r'] s4].
    cbn [fst snd] in *. subst pad'.
    rewrite Z.add_0_r, Hu.
    destruct (transport_write X (transport r') _) as [st t].
    destruct (st <? 0); reflexivity. }
  destruct Hs as (_ & _ & _ & _ & Hlen & H15 & H19 & H27 & Hlow).
  split; [exact Hlp|].
  rewrite EF.
  split; [apply len_peek; lia|].
  rewrite !peek_peek by (subst n; lia).
  split; [rewrite Hlow, o3, o2 by lia; exact h0|].
  split; [rewrite Hlow, o3, o2 by lia; exact h10|].
  split; [rewrite Hlow, o3, o2 by lia; exact h13|].
  split; [exact H15|].
  split; [exact H19|exact H27].
Qed.

(** X3.  Send to receive, with legacy encryption. A Data PDU
    [rdp_send_data_pdu] emits with [SEC_ENCRYPT] staged outside FIPS mode,
    received by [rdp_recv_tpkt_pdu] on a peer session with encryption whose
    cipher inverts the sender's, whose MAC of the plaintext agrees with the
    sender's and whose collaborators accept the PDU: the receive succeeds and
    prints nothing (no signature warning), the sender's channel is recorded as
    [pdu_source], the PDU is dispatched on the data type the sender gave with
    the cursor on the first byte of the body, which is the body the caller
    wrote. *)
Theorem legacy_data_pdu_received
  (r : rdpRdp) (rx : World) (s : STREAM) (type channel_id : Z)
  (fuel : nat) (u : TpktLocals) (rd : rdpRdp) :
  polite_collaborators X ->
  Z.land (sec_flags r) SEC_ENCRYPT <> 0 ->
  Z.land (sec_flags r) SEC_REDIRECTION_PKT = 0 ->
  encryption_method (settings r) <> ENCRYPTION_METHOD_FIPS ->
  0 <= type <= 0xFF -> 0 <= channel_id <= 0xFFFF ->
  0 <= share_id (settings r) <= 0xFFFFFFFF ->
  45 <= s_p s <= 0x7FFF -> s_p s <= len (s_data s) ->
  server_mode (settings (rdp rx)) = negb (server_mode (settings r)) ->
  disconnect (rdp rx) = false ->
  encryption (settings (rdp rx)) = true ->
  encryption_method (settings (rdp rx)) <> ENCRYPTION_METHOD_FIPS ->
  let n := s_p s - 27 in
  let body := region s 45 (s_p s - 45) in
  let plain :=
    (le16 (s_p s - 27) ++ le16 (Z.lor PDU_TYPE_DATA 0x10)
     ++ le16 channel_id)
    ++ (le32 (share_id (settings r)) ++ [0; STREAM_LOW]
        ++ le16 (s_p s - 45) ++ [type; 0] ++ le16 0)
    ++ body in
  let salted := negb (Z.land (sec_flags r) SEC_SECURE_CHECKSUM =? 0) in
  let h := if salted then security_salted_mac_signature X r plain true
           else security_mac_signature X r plain in
  let e := security_encrypt X (fst h) plain in
  security_decrypt X (rdp rx) (fit n (snd e)) = (rd, plain) ->
  let c := if salted then security_salted_mac_signature X rd plain false
           else security_mac_signature X rd plain in
  fit 8 (snd c) = fit 8 (snd h) ->
  let F := stream_frame (snd (rdp_send_data_pdu X r s type channel_id)) in
  let rx1 := with_rdp rx (set_pdu_source (fst c) channel_id) in
  exists d,
    rdp_recv_tpkt_pdu X (S fuel) rx (stream_of F) u
    = Some (true,
            fst (rdp_recv_data_pdu_switch X rx1 (mkSTREAM d 45 (s_p s)) type),
            mkSTREAM d (s_p s) (s_p s))
    /\ peek d 45 (s_p s - 45) = body.
Proof.
  intros polite He Hnr Hf Ht Hc Hsh Hlo Hfit Hmode Hd Henc Hfr
    n body plain salted h e Hdec c Hmac F rx1.
  destruct (rdp_send_data_pdu_legacy_frame r s type channel_id He Hf
              ltac:(lia) Hfit)
    as (Hlp & HlenF & f0 & f10 & f13 & f15 & f19 & f27).
  rewrite (to_uint16_small channel_id) in Hlp, f19, f27 by lia.
  rewrite (land_0xFF_small type) in Hlp, f19, f27 by lia.
  change (len plain = n) in Hlp.
  change (len F = s_p s) in HlenF.
  change (peek F 0 8
          = mcs_enc L (if server_mode (settings r)
                       then DomainMCSPDU_SendDataIndication
                       else DomainMCSPDU_SendDataRequest) (s_p s) 0) in f0.
  change (peek F 10 2 = per16_enc L MCS_GLOBAL_CHANNEL_ID 0) in f10.
  change (peek F 13 2 = be16 (to_uint16 (Z.lor (s_p s - 15) 0x8000))) in f13.
  change (peek F 15 2 = le16 (to_uint16 (sec_flags r))) in f15.
  change (peek F 19 8 = fit 8 (snd h)) in f19.
  change (peek F 27 n = fit n (snd e)) in f27.
  clearbody F.
  assert (H1 : rdp_read_header X rx (stream_of F) (u_length u) (u_channelId u)
               = (true, rx, mkSTREAM F 15 (len F), len F - 15,
                  MCS_GLOBAL_CHANNEL_ID)).
  { apply rdp_read_header_of_frame with
      (m := if server_mode (settings r)
            then DomainMCSPDU_SendDataIndication
            else DomainMCSPDU_SendDataRequest); try lia.
    - rewrite Hmode. destruct (server_mode (settings r)); reflexivity.
    - unfold MCS_GLOBAL_CHANNEL_ID. lia.
    - rewrite HlenF. exact f0.
    - exact f10.
    - rewrite HlenF. exact f13. }
  assert (H2 : rdp_read_security_header (mkSTREAM F 15 (len F))
               = (to_uint16 (sec_flags r), mkSTREAM F 19 (len F))).
  { unfold rdp_read_security_header.
    rewrite (stream_read_uint16_le16 (mkSTREAM F 15 (len F))
               (to_uint16 (sec_flags r)));
      [reflexivity|cbn [s_p]; lia|apply to_uint16_range|exact f15]. }
  assert (Hc' : (if negb (Z.land (to_uint16 (to_uint16 (sec_flags r)))
                            SEC_SECURE_CHECKSUM =? 0)
                 then security_salted_mac_signature X rd plain false
                 else security_mac_signature X rd plain) = c).
  { rewrite to_uint16_idem, land_uint16_checksum. reflexivity. }
  destruct (rdp_decrypt_legacy_success rx F plain (fit 8 (snd h))
              (fit n (snd e)) (to_uint16 (sec_flags r)) rd Hfr)
    as (s' & Hr & Hp & Hsz & Hreg);
    [rewrite Hlp, HlenF; subst n; lia|exact f19|rewrite Hlp; exact f27
    |exact Hdec
    |rewrite Hc', Hmac; symmetry; apply fit_exact; rewrite len_fit;
     reflexivity|].
  rewrite Hc' in Hr.
  rewrite Hlp in Hreg. unfold region in Hreg.
  assert (Hsz' : s_size s' = s_p s) by lia.
  exists (s_data s').
  split.
  - unfold rdp_recv_tpkt_pdu. rewrite LLOGLN_quiet, H1. cbn [negb].
    rewrite LLOGLN_quiet, Hd, Henc, H2, LLOGLN_quiet.
    assert (Hany : Z.land (to_uint16 (sec_flags r))
                     (Z.lor SEC_ENCRYPT SEC_REDIRECTION_PKT) <> 0).
    { rewrite land_uint16_low by (vm_compute; split; discriminate).
      rewrite Z.land_lor_distr_r. intros H0.
      apply Z.lor_eq_0_iff in H0. tauto. }
    destruct (Z.eqb_spec (Z.land (to_uint16 (sec_flags r))
                            (Z.lor SEC_ENCRYPT SEC_REDIRECTION_PKT)) 0)
      as [E|_]; [contradiction|].
    cbn [negb].
    replace (len F - 15 - 4) with (len F - 19) by lia.
    rewrite Hr. cbn [negb].
    rewrite land_uint16_low by (vm_compute; split; discriminate).
    rewrite Hnr. cbn [Z.eqb negb].
    change (MCS_GLOBAL_CHANNEL_ID =? MCS_GLOBAL_CHANNEL_ID) with true.
    cbn [negb].
    cbn [rdp_recv_tpkt_pdu_loop].
    unfold stream_get_left at 1. rewrite Hp, Hsz'.
    destruct (Z.gtb_spec (s_p s - 27) 3) as [_|E]; [|lia].
    assert (R27 : region s' (s_p s') 6
                  = le16 (s_p s - 27) ++ le16 (Z.lor PDU_TYPE_DATA 0x10)
                    ++ le16 channel_id).
    { unfold region. rewrite Hp. replace 27 with (27 + 0) by lia.
      rewrite <- (peek_sub (s_data s') 27 n 0 6) by (subst n; lia).
      rewrite Hreg. subst plain.
      apply (peek_app_front
               (le16 (s_p s - 27) ++ le16 (Z.lor PDU_TYPE_DATA 0x10)
                ++ le16 channel_id)). }
    rewrite (rdp_read_share_control_header_bytes s' (s_p s - 27)
               PDU_TYPE_DATA channel_id (u_pduType u) (u_pduSource u));
      [|lia|lia|unfold stream_get_left; lia|unfold PDU_TYPE_DATA; lia|lia
       |exact R27].
    change (with_rdp (with_rdp rx (fst c))
              (set_pdu_source (rdp (with_rdp rx (fst c))) channel_id))
      with rx1.
    unfold rdp_recv_tpkt_pdu_switch.
    change (PDU_TYPE_DATA =? PDU_TYPE_DATA) with true. cbv iota.
    unfold rdp_recv_data_pdu.
    assert (R33 : region (stream_seek s' 6) (s_p (stream_seek s' 6)) 12
                  = le32 (share_id (settings r)) ++ [0; STREAM_LOW]
                    ++ le16 (s_p s - 45) ++ [type; 0] ++ le16 0).
    { unfold region. cbn [stream_seek s_p s_data]. rewrite Hp.
      rewrite <- (peek_sub (s_data s') 27 n 6 12) by (subst n; lia).
      rewrite Hreg. subst plain.
      rewrite (peek_app_back
                 (le16 (s_p s - 27) ++ le16 (Z.lor PDU_TYPE_DATA 0x10)
                  ++ le16 channel_id)).
      apply (peek_app_front
               (le32 (share_id (settings r)) ++ [0; STREAM_LOW]
                ++ le16 (s_p s - 45) ++ [type; 0] ++ le16 0)). }
    rewrite (rdp_read_share_data_header_bytes (stream_seek s' 6) (u_data u)
               (share_id (settings r)) (s_p s - 45) type 0 0 0 STREAM_LOW);
      [|cbn [stream_seek s_p]; lia
       |unfold stream_get_left; cbn [stream_seek s_p s_size]; lia
       |lia|lia|lia|lia|lia|exact R33].
    unfold rdp_recv_data_pdu_dispatch. cbn [sd_compressed_type sd_type].
    change (negb (Z.land 0 PACKET_COMPRESSED =? 0)) with false. cbv iota.
    assert (Es : stream_seek (stream_seek s' 6) 12
                 = mkSTREAM (s_data s') 45 (s_p s)).
    { apply stream_eq; cbn [stream_seek s_data s_p s_size]; lia || auto. }
    rewrite Es.
    destruct (rdp_recv_data_pdu_switch_polite X polite rx1
                (mkSTREAM (s_data s') 45 (s_p s)) type)
      as (Hdata & Hsize & _).
    destruct (rdp_recv_data_pdu_switch X rx1
                (mkSTREAM (s_data s') 45 (s_p s)) type) as [w2 s2].
    cbn [fst snd s_data s_size negb] in *.
    unfold stream_get_mark, stream_set_mark.
    rewrite Hdata, Hsize, Hp.
    replace (27 + (s_p s - 27)) with (s_p s) by lia.
    apply rdp_recv_tpkt_pdu_loop_end.
    unfold stream_get_left. cbn [s_size s_p]. lia.
  - change (peek (s_data s') 45 (s_p s - 45))
      with (peek (s_data s') (27 + 18) (s_p s - 45)).
    rewrite <- (peek_sub (s_data s') 27 n 18 (s_p s - 45)) by (subst n; lia).
    rewrite Hreg. subst plain.
    rewrite app_assoc.
    rewrite (peek_app_back
               ((le16 (s_p s - 27) ++ le16 (Z.lor PDU_TYPE_DATA 0x10)
                 ++ le16 channel_id)
                ++ le32 (share_id (settings r)) ++ [0; STREAM_LOW]
                ++ le16 (s_p s - 45) ++ [type; 0] ++ le16 0)).
    replace (s_p s - 45) with (len body)
      by (subst body; unfold region; apply len_peek; lia).
    apply peek_all.
Qed.

End FurtherWire.

(** ** The receive callback *)

Section FurtherCallback.

Variable C : Connection Transport Ext.

(** X25.  The two phases that receive PDUs. In the active phase the callback is
    [rdp_recv_pdu]. In the finalization phase it is [rdp_recv_pdu] followed by
    one test: when the receive succeeded and [finalize_sc_pdus] has reached
    [FINALIZE_SC_COMPLETE], the phase becomes ACTIVE; a failed receive is
    reported as it is and the phase is not assigned, complete or not. *)
Theorem rdp_recv_callback_receive_phases
  (fuel : nat) (w w1 : World) (s s1 : STREAM) (u : TpktLocals) (ok : bool) :
  rdp_recv_pdu X fuel w s u = Some (ok, w1, s1) ->
  (state C (rdp w) = CONNECTION_STATE_ACTIVE ->
   rdp_recv_callback X C fuel w s u = Some (ok, w1, s1))
  /\ (state C (rdp w) = CONNECTION_STATE_FINALIZATION ->
      (ok = true ->
       finalize_sc_pdus C (rdp w1) = FINALIZE_SC_COMPLETE ->
       rdp_recv_callback X C fuel w s u
       = Some (true,
               with_rdp w1 (set_state C (rdp w1) CONNECTION_STATE_ACTIVE),
               s1))
      /\ (ok = false
          \/ finalize_sc_pdus C (rdp w1) <> FINALIZE_SC_COMPLETE ->
          rdp_recv_callback X C fuel w s u = Some (ok, w1, s1))).
Proof.
  intros Hr. unfold rdp_recv_callback. rewrite LLOGLN_quiet.
  split.
  - intros Hst. rewrite Hst, Hr. destruct ok; reflexivity.
  - intros Hst. rewrite Hst, Hr. split.
    + intros Hok Hf. subst ok. cbn [negb]. rewrite Hf. reflexivity.
    + intros H. destruct ok; [|reflexivity].
      destruct H as [H|H]; [discriminate|]. cbn [negb].
      destruct (Z.eqb_spec (finalize_sc_pdus C (rdp w1))
                  FINALIZE_SC_COMPLETE); [contradiction|reflexivity].
Qed.

(** [rdp_recv_tpkt_pdu] on a DisconnectProviderUltimatum. *)
Lemma rdp_recv_tpkt_pdu_disconnect
  (fuel : nat) (w : World) (s s1 s2 : STREAM) (u : TpktLocals)
  (length reason : Z) :
  mcs_read_domain_mcspdu_header X s
    (if server_mode (settings (rdp w))
     then DomainMCSPDU_SendDataRequest else DomainMCSPDU_SendDataIndication)
    (u_length u)
  = (true, s1, DomainMCSPDU_DisconnectProviderUltimatum, length) ->
  length - 8 <= stream_get_left s1 ->
  per_read_enumerated X s1 0 = (true, s2, reason) ->
  rdp_recv_tpkt_pdu X fuel w s u
  = Some (false,
          emit (Print "rdp_recv_tpkt_pdu: disconnect")
            (with_rdp w (set_disconnect (rdp w) true)),
          s2).
Proof.
  intros Hmcs Hlen Hper. unfold rdp_recv_tpkt_pdu, rdp_read_header.
  rewrite LLOGLN_quiet, Hmcs. cbn [negb].
  destruct (Z.gtb_spec (length - 8) (stream_get_left s1)); [lia|].
  change (DomainMCSPDU_DisconnectProviderUltimatum
          =? DomainMCSPDU_DisconnectProviderUltimatum) with true.
  cbv iota. rewrite Hper. reflexivity.
Qed.

(** X26.  A DisconnectProviderUltimatum ends the session at the callback: in
    the active and in the finalization phase a TPKT frame that carries one
    makes [rdp_recv_callback] return failure, with [disconnect] latched; in the
    finalization phase the step to ACTIVE is not taken, whatever
    [finalize_sc_pdus] holds. *)
Theorem disconnect_ends_the_session
  (fuel : nat) (w : World) (s s1 s2 : STREAM) (u : TpktLocals)
  (length reason : Z) :
  state C (rdp w) = CONNECTION_STATE_ACTIVE
  \/ state C (rdp w) = CONNECTION_STATE_FINALIZATION ->
  tpkt_verify_header X s = true ->
  mcs_read_domain_mcspdu_header X s
    (if server_mode (settings (rdp w))
     then DomainMCSPDU_SendDataRequest else DomainMCSPDU_SendDataIndication)
    (u_length u)
  = (true, s1, DomainMCSPDU_DisconnectProviderUltimatum, length) ->
  length - 8 <= stream_get_left s1 ->
  per_read_enumerated X s1 0 = (true, s2, reason) ->
  rdp_recv_callback X C fuel w s u
  = Some (false,
          emit (Print "rdp_recv_tpkt_pdu: disconnect")
            (with_rdp w (set_disconnect (rdp w) true)),
          s2).
Proof.
  intros Hst Htpkt Hmcs Hlen Hper.
  assert (Hr : rdp_recv_pdu X fuel w s u
               = Some (false,
                       emit (Print "rdp_recv_tpkt_pdu: disconnect")
                         (with_rdp w (set_disconnect (rdp w) true)),
                       s2)).
  { unfold rdp_recv_pdu. rewrite !LLOGLN_quiet, Htpkt.
    now apply (rdp_recv_tpkt_pdu_disconnect fuel w s s1 s2 u length reason). }
  unfold rdp_recv_callback. rewrite LLOGLN_quiet.
  destruct Hst as [-> | ->]; rewrite Hr; reflexivity.
Qed.

(** X27.  A phase without a case in the callback, MCS_CONNECT among them: any
    frame that arrives is refused, the stream is not read and the session is
    not touched. *)
Theorem rdp_recv_callback_unhandled_phase
  (fuel : nat) (w : World) (s : STREAM) (u : TpktLocals) (n : Z) :
  state C (rdp w) = CONNECTION_STATE_MCS_CONNECT
  \/ state C (rdp w) = CONNECTION_STATE_other n ->
  rdp_recv_callback X C fuel w s u
  = Some (false, emit (Print "Invalid state %d") w, s).
Proof.
  intros Hst. unfold rdp_recv_callback. rewrite LLOGLN_quiet.
  destruct Hst as [-> | ->]; reflexivity.
Qed.

End FurtherCallback.

End Further.


(** * The further properties at concrete inputs *)

(** Closed side conditions, by evaluation. *)
Ltac concrete :=
  first [ reflexivity
        | vm_compute; reflexivity
        | vm_compute; discriminate
        | vm_compute; split; first [ reflexivity | discriminate ] ].

Lemma stream_init_reserves_what_send_counts_witness :
  s_p (snd (rdp_send_stream_init Ref.X Ref.fips0)) = 31
  /\ s_p (snd (rdp_pdu_init Ref.X Ref.fips0)) = 37
  /\ s_p (snd (rdp_data_pdu_init Ref.X Ref.fips0)) = 49.
Proof.
  destruct (stream_init_reserves_what_send_counts Ref.X Ref.fips0)
    as (H1 & H2 & H3); [left; reflexivity|].
  exact (conj H1 (conj H2 H3)).
Defined.

Lemma rdp_read_header_postcondition_witness :
  snd (fst (fst (fst (rdp_read_header Ref.X (Ref.world Ref.rdp0)
                        Ex.three_pdus_frame 0 0))))
  = Ref.world Ref.rdp0
  /\ 84 <= stream_get_left
             (snd (fst (fst (rdp_read_header Ref.X (Ref.world Ref.rdp0)
                               Ex.three_pdus_frame 0 0)))).
Proof.
  destruct (rdp_read_header_postcondition Ref.X (Ref.world Ref.rdp0)
              Ex.three_pdus_frame 0 0) as (_ & _ & H).
  exact (H eq_refl eq_refl).
Defined.

Lemma disconnect_is_sticky_witness :
  exists msgs s',
    rdp_recv_tpkt_pdu Ref.X 3 (Ref.world Ex.disconnecting0)
      Ex.three_pdus_frame Ref.locals0
    = Some (false, mkWorld Ex.disconnecting0 ([] ++ map Print msgs), s').
Proof.
  apply (disconnect_is_sticky Ref.X 3 (Ref.world Ex.disconnecting0)
           Ex.three_pdus_frame Ref.locals0).
  reflexivity.
Defined.

Lemma zero_length_pdu_never_ends_witness :
  rdp_recv_tpkt_pdu_loop Ref.X 1000 (Ref.world Ref.rdp0) Ex.zero_length_pdu
    0 0 Ref.no_data
  = None.
Proof.
  apply (zero_length_pdu_never_ends Ref.X Ex.zero_length_pdu Ref_polite);
    [vm_compute; reflexivity|reflexivity].
Defined.

Lemma set_error_info_data_pdu_witness :
  rdp_recv_data_pdu Ref.X (Ref.world Ref.rdp0) Ex.set_error_info_pdu
    Ref.no_data
  = (true,
     mkWorld (set_errorInfo Ref.rdp0 5) [Call rdp_print_errinfo 5],
     stream_seek Ex.set_error_info_pdu 16).
Proof.
  apply (set_error_info_data_pdu Ref.X (Ref.world Ref.rdp0)
           Ex.set_error_info_pdu Ref.no_data 5);
    concrete.
Defined.

Lemma fastpath_bad_length_rejected_witness :
  rdp_recv_fastpath_pdu Ref.X (Ref.world Ref.rdp0) Ex.fastpath_too_long
  = (false,
     mkWorld Ref.rdp0
       [Print "rdp_recv_fastpath_pdu: incorrect FastPath PDU header length %d"],
     stream_seek Ex.fastpath_too_long 2).
Proof.
  apply (fastpath_bad_length_rejected Ref.X (Ref.world Ref.rdp0)
           Ex.fastpath_too_long).
  right. vm_compute. reflexivity.
Defined.

Lemma other_channel_goes_to_channel_process_witness :
  rdp_recv_tpkt_pdu Ref.X 0 (Ref.world Ref.rdp0) Ex.channel_frame Ref.locals0
  = Some (true,
          mkWorld Ref.rdp0 [Call freerdp_channel_process 15],
          stream_seek Ex.channel_frame 20).
Proof.
  apply (other_channel_goes_to_channel_process Ref.X 0 (Ref.world Ref.rdp0)
           (Ref.world Ref.rdp0) Ex.channel_frame
           (stream_seek Ex.channel_frame 15) Ref.locals0 5 1004);
    concrete.
Defined.

Lemma security_header_roundtrip_witness :
  rdp_read_security_header
    (stream_set_pos (rdp_write_security_header (Ex.blank 15) 0x12340848) 15)
  = (0x0848, rdp_write_security_header (Ex.blank 15) 0x12340848).
Proof.
  apply (security_header_roundtrip (Ex.blank 15) 0x12340848);
    concrete.
Defined.

Lemma share_control_header_roundtrip_witness :
  rdp_read_share_control_header
    (stream_set_pos
       (rdp_write_share_control_header (Ex.blank 15) 38 PDU_TYPE_DATA 1007)
       15) 0 0
  = (true,
     rdp_write_share_control_header (Ex.blank 15) 38 PDU_TYPE_DATA 1007,
     23, PDU_TYPE_DATA, 1007).
Proof.
  apply (share_control_header_roundtrip (Ex.blank 15) 38 PDU_TYPE_DATA 1007
           0 0);
    concrete.
Defined.

Lemma share_data_header_roundtrip_witness :
  rdp_read_share_data_header
    (stream_set_pos
       (rdp_write_share_data_header (Ex.blank 21) 38
          DATA_PDU_TYPE_SYNCHRONIZE 0xDEADBEEF) 21) Ref.no_data
  = (true,
     rdp_write_share_data_header (Ex.blank 21) 38 DATA_PDU_TYPE_SYNCHRONIZE
       0xDEADBEEF,
     mkShareData 5 DATA_PDU_TYPE_SYNCHRONIZE 0xDEADBEEF 0 0).
Proof.
  apply (share_data_header_roundtrip (Ex.blank 21) 38
           DATA_PDU_TYPE_SYNCHRONIZE 0xDEADBEEF Ref.no_data);
    concrete.
Defined.

Lemma rdp_send_roundtrip_witness :
  exists s1,
    rdp_read_header Ref.X (Ref.world Ref.server0)
      (stream_of
         (stream_frame (snd (rdp_send Ref.X Ref.rdp0 Ex.raw_plain_stream 1004))))
      0 0
    = (true, Ref.world Ref.server0, s1, 5, 1004)
    /\ stream_get_left s1 = 5
    /\ region s1 (s_p s1) (stream_get_left s1) = [1; 2; 3; 4; 5].
Proof.
  apply (rdp_send_roundtrip Ref.X Ref_laws Ref.rdp0 (Ref.world Ref.server0)
           Ex.raw_plain_stream 1004 0 0);
    concrete.
Defined.

Lemma rdp_send_data_pdu_roundtrip_witness :
  exists s1 s2 s3,
    rdp_read_header Ref.X (Ref.world Ref.server0)
      (stream_of
         (stream_frame
            (snd (rdp_send_data_pdu Ref.X Ref.rdp0 Ex.data_plain_stream
                    DATA_PDU_TYPE_SYNCHRONIZE 1007))))
      0 0
    = (true, Ref.world Ref.server0, s1, 23, 1003)
    /\ rdp_read_share_control_header s1 0 0
       = (true, s2, 23, PDU_TYPE_DATA, 1007)
    /\ rdp_read_share_data_header s2 Ref.no_data
       = (true, s3, mkShareData 5 DATA_PDU_TYPE_SYNCHRONIZE 0xDEADBEEF 0 0)
    /\ region s3 (s_p s3) (stream_get_left s3) = [1; 2; 3; 4; 5].
Proof.
  apply (rdp_send_data_pdu_roundtrip Ref.X Ref_laws Ref.rdp0
           (Ref.world Ref.server0) Ex.data_plain_stream
           DATA_PDU_TYPE_SYNCHRONIZE 1007 0 0 0 0 Ref.no_data);
    concrete.
Defined.

Lemma rdp_send_data_pdu_received_witness :
  option_map (fun res => (fst (fst res), snd (fst res), s_p (snd res)))
    (rdp_recv_tpkt_pdu Ref.X 1 (Ref.world Ref.server0)
       (stream_of
          (stream_frame
             (snd (rdp_send_data_pdu Ref.X Ref.rdp0 Ex.data_plain_stream
                     DATA_PDU_TYPE_SYNCHRONIZE 1007))))
       Ref.locals0)
  = Some (true,
          mkWorld (set_pdu_source Ref.server0 1007)
            [Call rdp_recv_synchronize_pdu 33],
          38).
Proof.
  rewrite (rdp_send_data_pdu_received Ref.X Ref_laws Ref.rdp0
             (Ref.world Ref.server0) Ex.data_plain_stream
             DATA_PDU_TYPE_SYNCHRONIZE 1007 0 Ref.locals0 Ref_polite);
    concrete.
Defined.

Lemma fips_send_then_decrypt_witness :
  exists s',
    rdp_decrypt Ref.X (Ref.world Ref.fips0)
      (mkSTREAM
         (stream_frame (snd (rdp_send Ref.X Ref.fips_staged Ref.fips_stream
                               1003)))
         19 39)
      20 0
    = (true, Ref.world Ref.fips0, s')
    /\ s_p s' = 31 /\ s_size s' = 36
    /\ region s' (s_p s') (stream_get_left s') = [1; 2; 3; 4; 5].
Proof.
  apply (fips_send_then_decrypt Ref.X Ref_laws Ref.fips_staged
           (Ref.world Ref.fips0) Ref.fips_stream 1003 0 Ref.fips0 Ref.fips0);
    concrete.
Defined.

Lemma legacy_send_then_decrypt_witness :
  exists s',
    rdp_read_security_header
      (mkSTREAM
         (stream_frame
            (snd (rdp_send Ref.X Ex.legacy_raw_staged Ex.legacy_raw_stream
                    1003)))
         15 32)
    = (8,
       mkSTREAM
         (stream_frame
            (snd (rdp_send Ref.X Ex.legacy_raw_staged Ex.legacy_raw_stream
                    1003)))
         19 32)
    /\ rdp_decrypt Ref.X (Ref.world Ref.legacy0)
         (mkSTREAM
            (stream_frame
               (snd (rdp_send Ref.X Ex.legacy_raw_staged Ex.legacy_raw_stream
                       1003)))
            19 32)
         13 8
       = (true, Ref.world Ref.legacy0, s')
    /\ s_p s' = 27 /\ s_size s' = 32
    /\ region s' (s_p s') (stream_get_left s') = [1; 2; 3; 4; 5].
Proof.
  apply (legacy_send_then_decrypt Ref.X Ref_laws Ex.legacy_raw_staged
           (Ref.world Ref.legacy0) Ex.legacy_raw_stream 1003 Ref.legacy0);
    concrete.
Defined.

Lemma fips_data_pdu_received_witness :
  option_map
    (fun res => (fst (fst res), snd (fst res), s_p (snd res), s_size (snd res)))
    (rdp_recv_tpkt_pdu Ref.X 1 (Ref.world Ex.fips_server0)
       (stream_of
          (stream_frame
             (snd (rdp_send_data_pdu Ref.X Ex.fips_data_staged
                     Ex.fips_data_stream DATA_PDU_TYPE_SYNCHRONIZE 1007))))
       Ref.locals0)
  = Some (true,
          mkWorld (set_pdu_source Ex.fips_server0 1007)
            [Call rdp_recv_synchronize_pdu 49],
          54, 54).
Proof.
  destruct (fips_data_pdu_received Ref.X Ref_laws Ex.fips_data_staged
              (Ref.world Ex.fips_server0) Ex.fips_data_stream
              DATA_PDU_TYPE_SYNCHRONIZE 1007 0 Ref.locals0
              Ex.fips_server0 Ex.fips_server0 Ref_polite)
    as (d & H & _); [concrete .. |].
  rewrite H. reflexivity.
Defined.

Lemma overlong_share_control_pdu_is_dispatched_witness :
  rdp_recv_tpkt_pdu_loop Ref.X 1 (Ref.world Ref.rdp0) Ex.overlong_pdu
    PDU_TYPE_DEACTIVATE_ALL 1002 Ref.no_data
  = Some (true,
          mkWorld (set_pdu_source Ref.rdp0 1002)
            [Call rdp_recv_deactivate_all 2],
          mkSTREAM [50; 0; 0x17; 0; 1; 2] 50 6).
Proof.
  destruct (overlong_share_control_pdu_is_dispatched Ref.X 0
              (Ref.world Ref.rdp0) Ex.overlong_pdu PDU_TYPE_DEACTIVATE_ALL
              1002 Ref.no_data Ref_polite) as (_ & H); [concrete .. |].
  rewrite H. reflexivity.
Defined.

Lemma rdp_recv_out_of_sequence_pdu_accepts_witness :
  rdp_recv_out_of_sequence_pdu Ref.X (Ref.world Ref.rdp0)
    Ref.short_deactivate_all 0 0 Ref.no_data
  = (false,
     mkWorld Ref.rdp0 [Print "rdp_recv_out_of_sequence_pdu:"],
     stream_seek Ref.short_deactivate_all 4).
Proof.
  destruct (rdp_recv_out_of_sequence_pdu_accepts Ref.X (Ref.world Ref.rdp0)
              Ref.short_deactivate_all 0 0 Ref.no_data) as (_ & H).
  apply H; vm_compute; discriminate.
Defined.

Lemma sec_flags_zero_after_any_send_witness :
  sec_flags Ex.staged_acking0 = 0x48
  /\ sec_flags (snd (rdp_send_frame_ack Ref.X Ex.staged_acking0 7)) = 0.
Proof.
  split; [reflexivity|].
  destruct (sec_flags_zero_after_any_send Ref.X Ex.staged_acking0
              (Ref.world Ref.rdp0) Ref.raw_stream 0 0 0 0 0 0 0 7)
    as (_ & _ & _ & _ & _ & H).
  apply H. vm_compute. discriminate.
Defined.

Lemma rdp_send_invalidate_frame_witness :
  rdp_send_invalidate Ref.X Ref.rdp0 0 10 20 300 400
  = (0,
     set_transport Ref.rdp0
       [[3; 0; 0; 45; 2; 0xF0; 0x80; 0x64; 0; 6; 0x03; 0xEB; 0x70; 0x80; 30;
         30; 0; 0x17; 0; 0xEF; 0x03;
         0xEF; 0xBE; 0xAD; 0xDE; 0; 1; 12; 0; 33; 0; 0; 0;
         1; 0; 0; 0; 10; 0; 20; 0; 0x36; 0x01; 0xA4; 0x01]]).
Proof.
  destruct (rdp_send_invalidate_frame Ref.X Ref_laws Ref.rdp0 0 10 20 300 400)
    as (H & _); [concrete .. |].
  rewrite H. reflexivity.
Defined.

Lemma rdp_send_suppress_output_frame_witness :
  rdp_send_suppress_output Ref.X (Ref.world Ref.rdp0) 1 10 20 310 420
  = (0,
     mkWorld
       (set_transport Ref.rdp0
          [[3; 0; 0; 45; 2; 0xF0; 0x80; 0x64; 0; 6; 0x03; 0xEB; 0x70; 0x80;
            30;
            30; 0; 0x17; 0; 0xEF; 0x03;
            0xEF; 0xBE; 0xAD; 0xDE; 0; 1; 12; 0; 35; 0; 0; 0;
            1; 0; 0; 0; 10; 0; 20; 0; 0x36; 0x01; 0xA4; 0x01]])
       [Print "rdp_send_suppress_output: code %d left %d top %d right %d bottom %d"]).
Proof.
  destruct (rdp_send_suppress_output_frame Ref.X Ref_laws
              (Ref.world Ref.rdp0) 1 10 20 310 420)
    as (H & _); [concrete .. |].
  rewrite H. reflexivity.
Defined.

Lemma rdp_recv_callback_receive_phases_witness :
  option_map (fun res => (fst (fst res), Ex.state_of_code
                            (Z.land (Z.shiftr (ext (rdp (snd (fst res)))) 8)
                               0xFF)))
    (rdp_recv_callback Ref.X Ex.conn 1 (Ref.world Ex.finalizing0)
       (stream_of
          (stream_frame
             (snd (rdp_send_data_pdu Ref.X Ref.rdp0 Ex.data_plain_stream
                     DATA_PDU_TYPE_SYNCHRONIZE 1007))))
       Ref.locals0)
  = Some (true, CONNECTION_STATE_ACTIVE).
Proof.
  destruct (rdp_recv_callback_receive_phases Ref.X Ex.conn 1
              (Ref.world Ex.finalizing0)
              (mkWorld (set_pdu_source Ex.finalizing0 1007)
                 [Call rdp_recv_synchronize_pdu 33])
              (stream_of
                 (stream_frame
                    (snd (rdp_send_data_pdu Ref.X Ref.rdp0
                            Ex.data_plain_stream DATA_PDU_TYPE_SYNCHRONIZE
                            1007))))
              (mkSTREAM
                 (stream_frame
                    (snd (rdp_send_data_pdu Ref.X Ref.rdp0
                            Ex.data_plain_stream DATA_PDU_TYPE_SYNCHRONIZE
                            1007))) 38 38)
              Ref.locals0 true) as (_ & H); [concrete|].
  destruct (H eq_refl) as (H1 & _).
  rewrite (H1 eq_refl eq_refl). reflexivity.
Defined.

Lemma disconnect_ends_the_session_witness :
  rdp_recv_callback Ref.X Ex.conn 0 (Ref.world Ex.active0) Ref.dpu_frame
    Ref.locals0
  = Some (false,
          mkWorld (set_disconnect Ex.active0 true)
            [Print "rdp_recv_tpkt_pdu: disconnect"],
          stream_seek Ref.dpu_frame 9).
Proof.
  apply (disconnect_ends_the_session Ref.X Ex.conn 0 (Ref.world Ex.active0)
           Ref.dpu_frame (stream_seek Ref.dpu_frame 8)
           (stream_seek Ref.dpu_frame 9) Ref.locals0 9 0x80);
    first [ left; reflexivity | concrete ].
Defined.

Lemma rdp_recv_callback_unhandled_phase_witness :
  rdp_recv_callback Ref.X Ex.conn 0 (Ref.world Ex.connecting0)
    Ex.three_pdus_frame Ref.locals0
  = Some (false,
          mkWorld Ex.connecting0 [Print "Invalid state %d"],
          Ex.three_pdus_frame).
Proof.
  apply (rdp_recv_callback_unhandled_phase Ref.X Ex.conn 0
           (Ref.world Ex.connecting0) Ex.three_pdus_frame Ref.locals0 0).
  left. reflexivity.
Defined.

Lemma rdp_recv_tpkt_pdu_switch_failure_witness :
  fst (fst (rdp_recv_tpkt_pdu_switch Ex.refusing (Ref.world Ref.rdp0)
              (stream_seek Ref.short_deactivate_all 4)
              PDU_TYPE_DEACTIVATE_ALL Ref.no_data)) = false
  /\ fst (fst (rdp_recv_tpkt_pdu_switch Ex.refusing (Ref.world Ref.rdp0)
                 Ex.compressed_data_pdu PDU_TYPE_DATA Ref.no_data)) = false.
Proof.
  split.
  - destruct (rdp_recv_tpkt_pdu_switch_failure Ex.refusing
                (Ref.world Ref.rdp0) (stream_seek Ref.short_deactivate_all 4)
                PDU_TYPE_DEACTIVATE_ALL Ref.no_data) as [_ H].
    apply H. right. split; reflexivity.
  - destruct (rdp_recv_tpkt_pdu_switch_failure Ex.refusing
                (Ref.world Ref.rdp0) Ex.compressed_data_pdu
                PDU_TYPE_DATA Ref.no_data) as [_ H].
    apply H. left. split; [reflexivity|].
    split; [vm_compute; discriminate|reflexivity].
Defined.

Lemma legacy_data_pdu_received_witness :
  option_map
    (fun res => (fst (fst res), snd (fst res), s_p (snd res), s_size (snd res)))
    (rdp_recv_tpkt_pdu Ref.X 1 (Ref.world Ex.legacy_server0)
       (stream_of
          (stream_frame
             (snd (rdp_send_data_pdu Ref.X Ex.legacy_data_staged
                     Ex.legacy_data_stream DATA_PDU_TYPE_SYNCHRONIZE 1007))))
       Ref.locals0)
  = Some (true,
          mkWorld (set_pdu_source Ex.legacy_server0 1007)
            [Call rdp_recv_synchronize_pdu 45],
          50, 50).
Proof.
  destruct (legacy_data_pdu_received Ref.X Ref_laws Ex.legacy_data_staged
              (Ref.world Ex.legacy_server0) Ex.legacy_data_stream
              DATA_PDU_TYPE_SYNCHRONIZE 1007 0 Ref.locals0
              Ex.legacy_server0 Ref_polite)
    as (d & H & _); [concrete .. |].
  rewrite H. reflexivity.
Defined.

Lemma redirection_packet_goes_to_the_handler_witness :
  option_map
    (fun res => (fst (fst res), trace (snd (fst res)), s_p (snd res)))
    (rdp_recv_tpkt_pdu Ref.X 0 (Ref.world Ref.legacy0) Ex.redirection_frame
       Ref.locals0)
  = Some (true,
          [Print "WARNING: invalid packet signature non-FIPS";
           Print "rdp_recv_tpkt_pdu: got SEC_REDIRECTION_PKT securityFlags 0x%8.8x";
           Call rdp_recv_enhanced_security_redirection_packet 25],
          31).
Proof.
  rewrite (redirection_packet_goes_to_the_handler Ref.X 0
             (Ref.world Ref.legacy0) (Ref.world Ref.legacy0)
             (snd (fst (rdp_decrypt Ref.X (Ref.world Ref.legacy0)
                          (stream_seek Ex.redirection_frame 19) 12 0x400)))
             Ex.redirection_frame (stream_seek Ex.redirection_frame 15)
             (snd (rdp_decrypt Ref.X (Ref.world Ref.legacy0)
                     (stream_seek Ex.redirection_frame 19) 12 0x400))
             Ref.locals0 16 1003);
    concrete.
Defined.

Lemma compressed_data_pdu_reads_the_history_buffer_witness :
  rdp_recv_data_pdu Ref.X (Ref.world Ref.rdp0) Ex.compressed_data_pdu
    Ref.no_data
  = (true,
     mkWorld
       (mkRdp 0 false false false 0 Ref.settings0 1007 0 [9; 9; 9; 9] [] 0x5A)
       [Call update_recv 0],
     stream_seek Ex.compressed_data_pdu 12).
Proof.
  apply (compressed_data_pdu_reads_the_history_buffer Ref.X
           (Ref.world Ref.rdp0) Ex.compressed_data_pdu Ref.no_data
           DATA_PDU_TYPE_UPDATE 0x21 22 0 4
           (mkRdp 0 false false false 0 Ref.settings0 1007 0 [9; 9; 9; 9] []
              0x5A));
    concrete.
Defined.
